(** * RAG-DEMO: a shallow embedding of the healthcare RAG chatbot

    The development follows the four Python modules of the repository:
    [database.py], [pdf_rag.py], [web_search.py] and [app.py].  Python
    strings are kept as their UTF-8 bytes and cut into characters where
    the code counts or classifies characters, Python exceptions are
    values of [exn], and code that can raise returns an [outcome].
    Calls that leave the process (language model, SQLite, search tool,
    PDF loader, embedding provider, Streamlit widgets) are answered by
    an environment record and written to a log of [event]s, so that a
    statement of the form "the handler does not call X" is a statement
    about that log. *)

From Stdlib Require Import ZArith List String Ascii Lia DecimalString.
From stdpp Require Import base option strings gmap.
Import ListNotations.

(** ** Python strings *)

Module Py.

Definition nl : string := String (ascii_of_nat 10) EmptyString.

(** A [str] is kept as the bytes of its UTF-8 encoding.  A character
    is a byte together with the continuation bytes (10xxxxxx) that
    follow it. *)
Definition is_continuation (c : ascii) : bool :=
  match c with
  | Ascii _ _ _ _ _ _ b6 b7 => b7 && negb b6
  end.

(** [list(s)]: the characters of [s], in order. *)
Fixpoint chars (s : string) : list string :=
  match s with
  | EmptyString => []
  | String c r =>
      match chars r with
      | String c' ch :: chs =>
          if is_continuation c' then String c (String c' ch) :: chs
          else String c EmptyString :: String c' ch :: chs
      | chs => String c EmptyString :: chs
      end
  end.

(** [ord(ch)]: the code point the bytes of a character encode. *)
Definition ord (ch : string) : N :=
  match ch with
  | EmptyString => 0%N
  | String c r =>
      let lead := N_of_ascii c in
      let high :=
        if N.ltb lead 128 then lead
        else if N.ltb lead 224 then N.land lead 31
        else if N.ltb lead 240 then N.land lead 15
        else N.land lead 7 in
      fold_left (fun n b => (n * 64 + N.land (N_of_ascii b) 63)%N)
                (list_ascii_of_string r) high
  end.

(** [ch.isspace()] for one character: TAB, LF, VT, FF, CR, FS, GS, RS,
    US and SPACE, and beyond ASCII U+0085, U+00A0, U+1680, U+2000 to
    U+200A, U+2028, U+2029, U+202F, U+205F and U+3000. *)
Definition isspace (ch : string) : bool :=
  let n := ord ch in
  (N.leb 9 n && N.leb n 13) || (N.leb 28 n && N.leb n 32)
  || N.eqb n 133 || N.eqb n 160 || N.eqb n 5760
  || (N.leb 8192 n && N.leb n 8202)
  || N.eqb n 8232 || N.eqb n 8233 || N.eqb n 8239 || N.eqb n 8287 || N.eqb n 12288.

Fixpoint lstrip_chars (l : list string) : list string :=
  match l with
  | [] => []
  | ch :: r => if isspace ch then lstrip_chars r else l
  end.

Definition lstrip (s : string) : string :=
  String.concat "" (lstrip_chars (chars s)).

Definition rstrip (s : string) : string :=
  String.concat "" (rev (lstrip_chars (rev (chars s)))).

(** [s.strip()] *)
Definition strip (s : string) : string := rstrip (lstrip s).

(** [old in s] *)
Fixpoint contains (old s : string) : bool :=
  String.prefix old s ||
  match s with
  | EmptyString => false
  | String _ r => contains old r
  end.

(** [s.replace(old, new)] for a non-empty [old]: a single pass from the
    left over non-overlapping occurrences.  [skip] counts the characters
    of a matched occurrence that are still to be dropped. *)
Fixpoint replace_from (old new : string) (skip : nat) (s : string) : string :=
  match s with
  | EmptyString => EmptyString
  | String c r =>
      match skip with
      | S k => replace_from old new k r
      | O =>
          if String.prefix old s
          then new +:+ replace_from old new (String.length old - 1) r
          else String c (replace_from old new 0 r)
      end
  end.

(** [s.replace("", new)] puts [new] before every character and at the end. *)
Definition intersperse (new s : string) : string :=
  fold_right (fun ch r => new +:+ ch +:+ r) new (chars s).

Definition replace (old new s : string) : string :=
  match old with
  | EmptyString => intersperse new s
  | _ => replace_from old new 0 s
  end.

(** [sep.join(l)] *)
Definition join (sep : string) (l : list string) : string := String.concat sep l.

(** [str(n)] for a natural number. *)
Definition str_nat (n : nat) : string := NilEmpty.string_of_uint (Nat.to_uint n).

(** [l[:n]] on a list: a negative [n] counts from the end. *)
Definition slice_to {A : Type} (n : Z) (l : list A) : list A :=
  if (0 <=? n)%Z then firstn (Z.to_nat n) l
  else firstn (List.length l - Z.to_nat (- n)) l.

(** [s[:n]] on a string: the slice counts characters. *)
Definition str_slice_to (n : Z) (s : string) : string :=
  String.concat "" (slice_to n (chars s)).

(** [enumerate(l, start)] *)
Fixpoint enumerate {A : Type} (start : nat) (l : list A) : list (nat * A) :=
  match l with
  | [] => []
  | x :: r => (start, x) :: enumerate (S start) r
  end.

(** Truthiness of an optional string ([None] and [""] are falsy). *)
Definition truthy (o : option string) : bool :=
  match o with
  | None => false
  | Some EmptyString => false
  | Some _ => true
  end.

(** *** Exceptions

    Only subclasses of [Exception] occur; [str_exn] is [str(e)]. *)
Inductive exn : Type :=
| OperationalError (msg : string)
| ValueError (msg : string)
| AttributeError (msg : string)
| OtherException (cls msg : string).

Definition str_exn (e : exn) : string :=
  match e with
  | OperationalError m | ValueError m | AttributeError m | OtherException _ m => m
  end.

Inductive outcome (A : Type) : Type :=
| Return (a : A)
| Raise (e : exn).
Arguments Return {A} a.
Arguments Raise {A} e.

End Py.
Export Py.

(** ** database.py *)

Module Database.

(** A scalar stored in a column. *)
Inductive sqlval : Type :=
| SqlNull
| SqlInt (n : Z)
| SqlText (s : string).

(** What [pd.read_sql_query] returns: column labels and rows. *)
Record DataFrame : Type := {
  columns : list string;
  data : list (list sqlval)
}.

(** [DataFrame.empty]: some axis has length 0. *)
Definition df_empty (df : DataFrame) : bool :=
  match columns df, data df with
  | [], _ => true
  | _, [] => true
  | _, _ => false
  end.

(** A table with an [INTEGER PRIMARY KEY AUTOINCREMENT] first column:
    its rows and the high-water mark kept in [sqlite_sequence]. *)
Record table : Type := {
  tbl_rows : list (list sqlval);
  tbl_seq : Z
}.

(** The file [patients.db].  [None] is a table that does not exist;
    [sqlite3.connect] on a missing file gives the store with no table.
    Tables that exist have the columns of the CREATE statements below. *)
Record db : Type := {
  patients : option table;
  medical_records : option table;
  appointments : option table
}.

Definition empty_table : table := {| tbl_rows := []; tbl_seq := 0 |}.

(** [CREATE TABLE IF NOT EXISTS] *)
Definition create_table_if_not_exists (t : option table) : option table :=
  match t with
  | Some _ => t
  | None => Some empty_table
  end.

Definition rows_of (t : option table) : list (list sqlval) :=
  match t with
  | Some t => tbl_rows t
  | None => []
  end.

Definition rowid_of (row : list sqlval) : Z :=
  match row with
  | SqlInt n :: _ => n
  | _ => 0
  end.

Definition max_rowid (rows : list (list sqlval)) : Z :=
  fold_right (fun r m => Z.max (rowid_of r) m) 0%Z rows.

(** One [INSERT] that leaves the key to AUTOINCREMENT. *)
Definition insert_row (t : table) (fields : list sqlval) : table :=
  let id := (Z.max (tbl_seq t) (max_rowid (tbl_rows t)) + 1)%Z in
  {| tbl_rows := tbl_rows t ++ [SqlInt id :: fields]; tbl_seq := id |}.

(** [cursor.executemany(INSERT ..., rows)] *)
Definition executemany (t : table) (rows : list (list sqlval)) : table :=
  fold_left insert_row rows t.

(** What the module asks of SQLite, pandas and the clock. *)
Record Sqlite : Type := {
  (** [pd.read_sql_query(sql, conn)] on a fresh connection: what the
      call returns or raises *)
  read_sql_query : db -> string -> outcome DataFrame;
  (** the tables once that call has run [sql] and the connection is
      gone: a SELECT leaves them as they were, a statement such as
      DROP TABLE does not *)
  tables_after : db -> string -> db;
  (** [PRAGMA table_info(t)]: name and declared type of each column *)
  table_info : db -> string -> outcome (list (string * string));
  (** the value of [CURRENT_DATE] *)
  current_date : string;
  (** [(datetime.now() + timedelta(days=d)).strftime('%Y-%m-%d')] *)
  date_after : Z -> string
}.

(** The module [random]: each draw threads the generator state. *)
Record Random (R : Type) : Type := {
  randint : Z -> Z -> R -> Z * R;
  (** the position picked by [random.choice] in a sequence of length n *)
  choice_index : nat -> R -> nat * R;
  (** [random.random() > 0.3] *)
  random_above_03 : R -> bool * R
}.
Arguments randint {R} _ _ _ _.
Arguments choice_index {R} _ _ _.
Arguments random_above_03 {R} _ _.

Definition patients_data : list (list string) := [
    ["Rajesh"; "Kumar"; "1985-03-15"; "Male"; "O+"; "9876543210"; "rajesh.kumar@email.com"; "123 MG Road"; "Bangalore"; "Karnataka"; "Priya Kumar"; "9876543211"];
    ["Priya"; "Sharma"; "1990-07-22"; "Female"; "A+"; "9876543212"; "priya.sharma@email.com"; "456 Park Street"; "Mumbai"; "Maharashtra"; "Amit Sharma"; "9876543213"];
    ["Amit"; "Patel"; "1978-11-08"; "Male"; "B+"; "9876543214"; "amit.patel@email.com"; "789 Gandhi Nagar"; "Ahmedabad"; "Gujarat"; "Neha Patel"; "9876543215"];
    ["Neha"; "Singh"; "1995-05-30"; "Female"; "AB+"; "9876543216"; "neha.singh@email.com"; "321 Lake View"; "Delhi"; "Delhi"; "Vikram Singh"; "9876543217"];
    ["Vikram"; "Reddy"; "1982-09-12"; "Male"; "O-"; "9876543218"; "vikram.reddy@email.com"; "654 Beach Road"; "Chennai"; "Tamil Nadu"; "Lakshmi Reddy"; "9876543219"];
    ["Lakshmi"; "Iyer"; "1988-01-25"; "Female"; "A-"; "9876543220"; "lakshmi.iyer@email.com"; "987 Temple Street"; "Hyderabad"; "Telangana"; "Ramesh Iyer"; "9876543221"];
    ["Ramesh"; "Gupta"; "1975-12-03"; "Male"; "B-"; "9876543222"; "ramesh.gupta@email.com"; "147 River View"; "Pune"; "Maharashtra"; "Anjali Gupta"; "9876543223"];
    ["Anjali"; "Mehta"; "1992-08-17"; "Female"; "AB-"; "9876543224"; "anjali.mehta@email.com"; "258 Hill Station"; "Kolkata"; "West Bengal"; "Rohan Mehta"; "9876543225"];
    ["Rohan"; "Nair"; "1980-04-28"; "Male"; "O+"; "9876543226"; "rohan.nair@email.com"; "369 Garden Road"; "Kochi"; "Kerala"; "Divya Nair"; "9876543227"];
    ["Divya"; "Chopra"; "1993-10-14"; "Female"; "A+"; "9876543228"; "divya.chopra@email.com"; "741 Market Street"; "Jaipur"; "Rajasthan"; "Karan Chopra"; "9876543229"];
    ["Sandeep"; "Jain"; "1987-02-18"; "Male"; "B+"; "9876543230"; "sandeep.jain@email.com"; "159 Crescent Road"; "Bangalore"; "Karnataka"; "Pooja Jain"; "9876543231"];
    ["Pooja"; "Mishra"; "1991-11-20"; "Female"; "O-"; "9876543232"; "pooja.mishra@email.com"; "753 Lotus Lane"; "Pune"; "Maharashtra"; "Sandeep Jain"; "9876543233"];
    ["Karan"; "Malhotra"; "1979-06-05"; "Male"; "A-"; "9876543234"; "karan.malhotra@email.com"; "852 Sunrise Apartments"; "Delhi"; "Delhi"; "Deepa Malhotra"; "9876543235"];
    ["Deepa"; "Verma"; "1983-09-25"; "Female"; "AB+"; "9876543236"; "deepa.verma@email.com"; "963 Palm Grove"; "Mumbai"; "Maharashtra"; "Karan Malhotra"; "9876543237"];
    ["Arjun"; "Rao"; "1996-01-10"; "Male"; "O+"; "9876543238"; "arjun.rao@email.com"; "147 Sterling Towers"; "Hyderabad"; "Telangana"; "Meera Rao"; "9876543239"];
    ["Meera"; "Krishnan"; "1994-04-03"; "Female"; "B-"; "9876543240"; "meera.krishnan@email.com"; "258 Pearl Residency"; "Chennai"; "Tamil Nadu"; "Arjun Rao"; "9876543241"];
    ["Suresh"; "Bose"; "1972-07-19"; "Male"; "A+"; "9876543242"; "suresh.bose@email.com"; "369 Victoria Garden"; "Kolkata"; "West Bengal"; "Mala Bose"; "9876543243"];
    ["Mala"; "Sen"; "1976-12-28"; "Female"; "O+"; "9876543244"; "mala.sen@email.com"; "741 Howrah Bridge"; "Kolkata"; "West Bengal"; "Suresh Bose"; "9876543245"];
    ["Vivek"; "Anand"; "1989-08-08"; "Male"; "AB-"; "9876543246"; "vivek.anand@email.com"; "852 Silicon Oasis"; "Bangalore"; "Karnataka"; "Sunita Anand"; "9876543247"];
    ["Sunita"; "Narayanan"; "1990-03-12"; "Female"; "B+"; "9876543248"; "sunita.narayanan@email.com"; "963 Electronic City"; "Bangalore"; "Karnataka"; "Vivek Anand"; "9876543249"]  ].

Definition diagnoses : list string :=
  ["Type 2 Diabetes"; "Hypertension"; "Common Cold"; "Migraine"; "Asthma";
   "Arthritis"; "Gastritis"; "Anxiety"; "Back Pain"; "Allergic Rhinitis"; "PCOS"; "GERD"].
Definition medications : list string :=
  ["Metformin"; "Amlodipine"; "Paracetamol"; "Ibuprofen"; "Salbutamol";
   "Aspirin"; "Omeprazole"; "Sertraline"; "Diclofenac"; "Cetirizine"; "Myo-Inositol"; "Pantoprazole"].
Definition doctors : list string :=
  ["Dr. Ramesh Kumar"; "Dr. Priya Sharma"; "Dr. Amit Patel"; "Dr. Sneha Reddy";
   "Dr. Vikram Singh"; "Dr. Alok Gupta"; "Dr. Meena Iyer"].
Definition departments : list string :=
  ["Cardiology"; "General Medicine"; "Orthopedics"; "Neurology";
   "Pediatrics"; "Gynecology"; "Endocrinology"].
Definition times : list string :=
  ["09:00 AM"; "10:30 AM"; "02:00 PM"; "03:30 PM"; "05:00 PM"].
Definition statuses : list string :=
  ["Scheduled"; "Completed"; "Cancelled"; "No Show"].

(** The three [CREATE TABLE IF NOT EXISTS] statements at the head of
    [create_patient_database]. *)
Definition tables_created (d : db) : db :=
  {| patients := create_table_if_not_exists (patients d);
     medical_records := create_table_if_not_exists (medical_records d);
     appointments := create_table_if_not_exists (appointments d) |}.

Section Create.
Context {R : Type} (rnd : Random R) (sq : Sqlite).

(** [random.choice(l)] *)
Definition choice {A : Type} (d : A) (l : list A) (r : R) : A * R :=
  let '(i, r) := choice_index rnd (List.length l) r in (nth i l d, r).

(** The body of the inner loop that builds one medical record. *)
Definition medical_record (patient_id : Z) (r : R) : list sqlval * R :=
  let '(diagnosis, r) := choice "" diagnoses r in
  let '(medication, r) := choice "" medications r in
  let '(doctor, r) := choice "" doctors r in
  let '(d1, r) := randint rnd 1 365 r in
  let visit_date := date_after sq (- d1) in
  let '(d2, r) := randint rnd 30 120 r in
  let next_appointment := date_after sq d2 in
  let '(is_diabetic, r) :=
    if Py.contains "Diabetes" diagnosis then (1%Z, r) else choice 0%Z [0; 0; 0; 1]%Z r in
  let '(has_bp, r) :=
    if Py.contains "Hypertension" diagnosis then (1%Z, r) else choice 0%Z [0; 0; 0; 1]%Z r in
  let '(above, r) := random_above_03 rnd r in
  ([SqlInt patient_id; SqlText diagnosis;
    SqlText ("Symptoms related to " +:+ diagnosis); SqlText medication;
    SqlText doctor; SqlText visit_date; SqlText next_appointment;
    SqlText ("Follow-up recommended for " +:+ diagnosis);
    SqlInt is_diabetic; SqlInt has_bp;
    SqlText (if above then "None" else "Penicillin")], r).

(** The body of the inner loop that builds one appointment. *)
Definition appointment (patient_id : Z) (r : R) : list sqlval * R :=
  let '(d, r) := randint rnd 1 90 r in
  let appointment_date := date_after sq d in
  let '(doctor, r) := choice "" doctors r in
  let '(time, r) := choice "" times r in
  let '(department, r) := choice "" departments r in
  let '(status, r) := choice "" statuses r in
  ([SqlInt patient_id; SqlText doctor; SqlText appointment_date; SqlText time;
    SqlText department; SqlText status; SqlText "Regular checkup"], r).

(** [for _ in range(n): acc.append(body())] *)
Fixpoint repeat_draw (body : R -> list sqlval * R) (n : nat)
    (acc : list (list sqlval)) (r : R) : list (list sqlval) * R :=
  match n with
  | O => (acc, r)
  | S n =>
      let '(row, r) := body r in
      repeat_draw body n (acc ++ [row]) r
  end.

(** [for patient_id in ids: for _ in range(random.randint(lo, hi)): ...] *)
Fixpoint for_patients (body : Z -> R -> list sqlval * R) (lo hi : Z)
    (ids : list Z) (acc : list (list sqlval)) (r : R) : list (list sqlval) * R :=
  match ids with
  | [] => (acc, r)
  | patient_id :: ids =>
      let '(n, r) := randint rnd lo hi r in
      let '(acc, r) := repeat_draw (body patient_id) (Z.to_nat n) acc r in
      for_patients body lo hi ids acc r
  end.

(** [range(1, 21)] *)
Definition patient_ids : list Z := map Z.of_nat (seq 1 20).

Definition create_patient_database (d : db) (r : R) : string * db * R :=
  let d := tables_created d in
  (* SELECT COUNT( * ) FROM patients *)
  if (0 <? Z.of_nat (List.length (rows_of (patients d))))%Z then
    ("Database already exists with data", d, r)
  else
    let p := executemany (default empty_table (patients d))
               (map (fun row => map SqlText row ++ [SqlText (current_date sq)])
                    patients_data) in
    let '(records, r) := for_patients medical_record 2 5 patient_ids [] r in
    let m := executemany (default empty_table (medical_records d)) records in
    let '(appts, r) := for_patients appointment 1 4 patient_ids [] r in
    let a := executemany (default empty_table (appointments d)) appts in
    ("✅ Database created successfully with 20 patients and medical records!",
     {| patients := Some p; medical_records := Some m; appointments := Some a |}, r).

End Create.

(** What [query_database] hands back: a DataFrame or a message. *)
Inductive pyval : Type :=
| PyDataFrame (df : DataFrame)
| PyStr (s : string).

(** The value [query_database] returns; what the statement leaves in
    the file is [tables_after]. *)
Definition query_database (sq : Sqlite) (d : db) (sql_query : string) : pyval :=
  match read_sql_query sq d sql_query with
  | Return df => PyDataFrame df
  | Raise (OperationalError m) => PyStr ("Database query error: " +:+ m)
  | Raise e => PyStr ("An error occurred: " +:+ str_exn e)
  end.

Definition schema_columns (cols : list (string * string)) : string :=
  String.concat ""
    (map (fun col => "  - " +:+ fst col +:+ " (" +:+ snd col +:+ ")" +:+ nl) cols).

Definition get_database_schema (sq : Sqlite) (d : db) : outcome string :=
  match table_info sq d "patients" with
  | Raise e => Raise e
  | Return patients_schema =>
  match table_info sq d "medical_records" with
  | Raise e => Raise e
  | Return medical_records_schema =>
  match table_info sq d "appointments" with
  | Raise e => Raise e
  | Return appointments_schema =>
      Return ("TABLE: patients" +:+ nl +:+ "COLUMNS:" +:+ nl
              +:+ schema_columns patients_schema +:+ nl
              +:+ "TABLE: medical_records" +:+ nl +:+ "COLUMNS:" +:+ nl
              +:+ schema_columns medical_records_schema +:+ nl
              +:+ "TABLE: appointments" +:+ nl +:+ "COLUMNS:" +:+ nl
              +:+ schema_columns appointments_schema)
  end end end.

(** The statement is a fixed SELECT, which leaves the tables alone. *)
Definition get_patient_info (sq : Sqlite) (d : db) : DataFrame :=
  match read_sql_query sq d
          "SELECT patient_id, first_name, last_name, city, state, contact_no FROM patients LIMIT 10"
  with
  | Return df => df
  | Raise e =>
      {| columns := ["Error"];
         data := [[SqlText ("Could not retrieve patient info: " +:+ str_exn e)]] |}
  end.

(** *** Vocabulary for statements about the tables *)

(** The largest key a table has handed out so far; the next key is one
    more (see [insert_row]). *)
Definition high_water (t : table) : Z := Z.max (tbl_seq t) (max_rowid (tbl_rows t)).

(** Rows with the keys [n + 1], [n + 2], ... put in front. *)
Fixpoint numbered (n : Z) (rows : list (list sqlval)) : list (list sqlval) :=
  match rows with
  | [] => []
  | fields :: rows => (SqlInt (n + 1) :: fields) :: numbered (n + 1) rows
  end.

(** The [patient_id] column of a stored medical record or appointment
    (the column after the key). *)
Definition patient_ref (row : list sqlval) : option Z :=
  match row with
  | _ :: SqlInt p :: _ => Some p
  | _ => None
  end.

(** What the documentation of [random] promises: [randint(a, b)] lies
    in [a..b] and [choice] picks a position inside the sequence. *)
Definition random_ok {R : Type} (rnd : Random R) : Prop :=
  (forall lo hi r, (lo <= hi)%Z -> (lo <= fst (randint rnd lo hi r) <= hi)%Z) /\
  (forall n r, 0 < n -> fst (choice_index rnd n r) < n).

(** The fields of a medical record as [medical_record] lays them out,
    with the relations the loop body establishes between them. *)
Definition medical_record_ok (fields : list sqlval) : Prop :=
  exists patient_id diagnosis medication doctor visit_date next_appointment
         is_diabetic has_bp allergies,
    fields =
      [SqlInt patient_id; SqlText diagnosis;
       SqlText ("Symptoms related to " +:+ diagnosis); SqlText medication;
       SqlText doctor; SqlText visit_date; SqlText next_appointment;
       SqlText ("Follow-up recommended for " +:+ diagnosis);
       SqlInt is_diabetic; SqlInt has_bp; SqlText allergies] /\
    In patient_id patient_ids /\
    In diagnosis diagnoses /\ In medication medications /\ In doctor doctors /\
    (is_diabetic = 0 \/ is_diabetic = 1)%Z /\
    (has_bp = 0 \/ has_bp = 1)%Z /\
    (diagnosis = "Type 2 Diabetes" -> is_diabetic = 1%Z) /\
    (diagnosis = "Hypertension" -> has_bp = 1%Z) /\
    (allergies = "None" \/ allergies = "Penicillin").

(** The fields of an appointment as [appointment] lays them out. *)
Definition appointment_ok (fields : list sqlval) : Prop :=
  exists patient_id doctor appointment_date time department status,
    fields =
      [SqlInt patient_id; SqlText doctor; SqlText appointment_date; SqlText time;
       SqlText department; SqlText status; SqlText "Regular checkup"] /\
    In patient_id patient_ids /\
    In doctor doctors /\ In time times /\ In department departments /\
    In status statuses.

(** The high-water mark of a table that may not exist yet. *)
Definition table_high_water (t : option table) : Z :=
  match t with
  | Some t => high_water t
  | None => 0
  end.

(** The rows [create_patient_database] hands to the first
    [executemany]: the twelve fields of [patients_data], and
    [created_date] filled in by its default. *)
Definition seed_rows (sq : Sqlite) : list (list sqlval) :=
  map (fun row => map SqlText row ++ [SqlText (current_date sq)]) patients_data.

End Database.

(** ** Effects

    A computation reads and appends to the log of external calls [E],
    reads and writes a store [S] (the attributes of [self], or the
    Streamlit session), and returns or raises.  The log and the store
    survive a raise, as the side effects of Python code do. *)

Module Eff.

Section Monad.
Context {E S : Type}.

Definition eff (A : Type) : Type := list E -> S -> outcome A * list E * S.

Definition ret {A : Type} (a : A) : eff A := fun l s => (Return a, l, s).

Definition raise {A : Type} (e : exn) : eff A := fun l s => (Raise e, l, s).

Definition bind {A B : Type} (m : eff A) (k : A -> eff B) : eff B :=
  fun l s =>
    match m l s with
    | (Return a, l', s') => k a l' s'
    | (Raise e, l', s') => (Raise e, l', s')
    end.

(** [try: m  except Exception as e: h e] *)
Definition try_except {A : Type} (m : eff A) (h : exn -> eff A) : eff A :=
  fun l s =>
    match m l s with
    | (Return a, l', s') => (Return a, l', s')
    | (Raise e, l', s') => h e l' s'
    end.

Definition get : eff S := fun l s => (Return s, l, s).

Definition put (s : S) : eff unit := fun l _ => (Return tt, l, s).

(** Record a call that leaves the process. *)
Definition emit (ev : E) : eff unit := fun l s => (Return tt, l ++ [ev], s).

(** The reply of the outside world to the call just recorded. *)
Definition reply {A : Type} (o : outcome A) : eff A := fun l s => (o, l, s).

Definition extern {A : Type} (ev : E) (o : outcome A) : eff A :=
  bind (emit ev) (fun _ => reply o).

End Monad.

Arguments eff : clear implicits.

(** A method call on an object [o] held by the caller: the callee's
    events enter the caller's log through [inj], and the object as the
    callee left it is handed back, also when the call raises. *)
Definition method {E1 E2 S1 S2 A : Type} (inj : E1 -> E2) (o : S1)
    (m : eff E1 S1 A) (back : S1 -> S2 -> S2) : eff E2 S2 A :=
  fun l s =>
    match m [] o with
    | (r, l1, o') => (r, l ++ map inj l1, back o' s)
    end.

Definition outcome_of {E S A : Type} (r : outcome A * list E * S) : outcome A := fst (fst r).
Definition log_of {E S A : Type} (r : outcome A * list E * S) : list E := snd (fst r).
Definition store_of {E S A : Type} (r : outcome A * list E * S) : S := snd r.

End Eff.
Import Eff.

Notation "x <- m ;; k" := (Eff.bind m (fun x => k))
  (at level 100, m at level 99, k at level 200, right associativity).
Notation "m ;;; k" := (Eff.bind m (fun _ => k))
  (at level 100, k at level 200, right associativity).

(** ** pdf_rag.py *)

Module PdfRag.

(** [langchain_core.documents.Document] *)
Record Document : Type := {
  page_content : string;
  metadata : gmap string string
}.

(** A FAISS store is represented by the passages it was built over:
    the vectors are what the embedding provider computes from them, and
    similarity search is answered by the environment. *)
Record FAISS : Type := {
  docstore : list Document
}.

(** The chain made by [create_retrieval_chain]: a retriever over a store
    with [search_kwargs = {"k": k}], followed by the stuff-documents
    chain over [self.llm] and [self.prompt]. *)
Record RetrievalChain : Type := {
  retriever_store : FAISS;
  retriever_k : Z
}.

(** The dictionary a retrieval chain returns; a key may be missing. *)
Record Response : Type := {
  answer : option string;
  context : option (list Document)
}.

Record PDFRAGSystem : Type := {
  api_key : string;
  model : string;
  vectorstore : option FAISS;
  retrieval_chain : option RetrievalChain
}.

Inductive event : Type :=
| PdfLoad (pdf_path : string)
| EmbedDocuments (documents : list Document)
| ChainInvoke (chain : RetrievalChain) (question : string).

(** The libraries behind the module. *)
Record Provider : Type := {
  (** [PyPDFLoader(pdf_path).load()] *)
  pdf_loader : string -> outcome (list Document);
  (** [RecursiveCharacterTextSplitter(chunk_size, chunk_overlap)
      .split_documents(documents)] *)
  text_splitter : Z -> Z -> list Document -> outcome (list Document);
  (** [embedding.embed_documents(texts)], called by [FAISS.from_documents] *)
  embed_documents : list Document -> outcome unit;
  (** [chain.invoke({"input": question})] *)
  chain_invoke : RetrievalChain -> string -> outcome Response
}.

Definition M : Type -> Type := eff event PDFRAGSystem.

(** [PDFRAGSystem.__init__] *)
Definition init (api_key : string) (model : string) : PDFRAGSystem :=
  {| api_key := api_key; model := model;
     vectorstore := None; retrieval_chain := None |}.

(** [create_pdf_rag_system(api_key)] with its default model. *)
Definition create_pdf_rag_system (api_key : string) : PDFRAGSystem :=
  init api_key "mistral-large-latest".

Definition default_chunk_size : Z := 1000.
Definition default_chunk_overlap : Z := 200.
Definition default_k : Z := 5.

Section Methods.
Context (env : Provider).

Definition load_pdf (pdf_path : string) : M (list Document) :=
  extern (PdfLoad pdf_path) (pdf_loader env pdf_path).

Definition split_documents (documents : list Document)
    (chunk_size chunk_overlap : Z) : M (list Document) :=
  reply (text_splitter env chunk_size chunk_overlap documents).

(** [FAISS.from_documents(documents, embedding)]: the texts are
    embedded, then the index is sized from the first vector, so an
    empty list raises [IndexError] once [embed_documents] has
    returned. *)
Definition from_documents (documents : list Document) : M FAISS :=
  extern (EmbedDocuments documents) (embed_documents env documents) ;;;
  match documents with
  | [] => raise (OtherException "IndexError" "list index out of range")
  | _ :: _ => ret {| docstore := documents |}
  end.

Definition create_vectorstore (documents : list Document) : M FAISS :=
  v <- from_documents documents ;;
  self <- get ;;
  put {| api_key := api_key self; model := model self;
         vectorstore := Some v; retrieval_chain := retrieval_chain self |} ;;;
  ret v.

Definition setup_retrieval_chain (k : Z) : M unit :=
  self <- get ;;
  match vectorstore self with
  | None => raise (ValueError "Vectorstore not initialized. Call create_vectorstore first.")
  | Some v =>
      put {| api_key := api_key self; model := model self;
             vectorstore := vectorstore self;
             retrieval_chain := Some {| retriever_store := v; retriever_k := k |} |}
  end.

Definition process_pdf (pdf_path : string) (chunk_size chunk_overlap k : Z) : M unit :=
  documents <- load_pdf pdf_path ;;
  splits <- split_documents documents chunk_size chunk_overlap ;;
  create_vectorstore splits ;;;
  setup_retrieval_chain k.

Definition query (question : string) : M Response :=
  self <- get ;;
  match retrieval_chain self with
  | None => raise (ValueError "Retrieval chain not initialized. Call process_pdf first.")
  | Some chain => extern (ChainInvoke chain question) (chain_invoke env chain question)
  end.

End Methods.

(** *** Persistence

    [save_local] and [load_local] are played by a finite map from
    paths to the stores saved under them; input/output failures other
    than a missing path are left out. *)

Section Persistence.
(** What [FAISS.load_local] raises for a path that holds no store. *)
Context (not_found : string -> exn).

Definition save_vectorstore (path : string) (self : PDFRAGSystem)
    (files : gmap string FAISS) : outcome (gmap string FAISS) :=
  match vectorstore self with
  | None => Raise (ValueError "Vectorstore not initialized.")
  | Some v => Return (<[path := v]> files)
  end.

Definition load_vectorstore (path : string) (self : PDFRAGSystem)
    (files : gmap string FAISS) : outcome PDFRAGSystem :=
  match files !! path with
  | None => Raise (not_found path)
  | Some v =>
      Return {| api_key := api_key self; model := model self;
                vectorstore := Some v; retrieval_chain := retrieval_chain self |}
  end.

End Persistence.

End PdfRag.

(** ** web_search.py *)

Module WebSearch.

(** The search tool chosen by the constructor. *)
Inductive tool : Type :=
| TavilySearchResults (api_key : string)
| DuckDuckGoSearchRun.

(** The argument of [search_tool.invoke]: a bare query string, or a
    dictionary with the key "query" and, optionally, "include_domains". *)
Inductive tool_input : Type :=
| Query (query : string)
| QueryDict (query : string) (include_domains : option (list string)).

(** The query text a request carries. *)
Definition query_text (i : tool_input) : string :=
  match i with
  | Query q => q
  | QueryDict q _ => q
  end.

(** A Python value returned by a tool or by [search]: a string, or a
    list of result dictionaries. *)
Inductive pyval : Type :=
| PyStr (s : string)
| PyList (l : list (gmap string string)).

Record WebSearchSystem : Type := {
  groq_api_key : string;
  tavily_api_key : option string;
  search_provider : string;
  model_name : string;
  search_tool : tool
}.

Inductive event : Type :=
| ToolInvoke (t : tool) (input : tool_input)
| LlmInvoke (question : string) (search_results : pyval).

Record Provider : Type := {
  (** [tool.invoke(input)] *)
  tool_invoke : tool -> tool_input -> outcome pyval;
  (** [(self.response_prompt | self.llm).invoke({...}).content] *)
  llm_invoke : string -> pyval -> outcome string
}.

Definition M : Type -> Type := eff event WebSearchSystem.

(** [WebSearchSystem.__init__] *)
Definition init (groq_api_key : string) (tavily_api_key : option string)
    (search_provider : string) (model : string) : WebSearchSystem :=
  {| groq_api_key := groq_api_key;
     tavily_api_key := tavily_api_key;
     search_provider := search_provider;
     model_name := model;
     search_tool :=
       if String.eqb search_provider "tavily" && Py.truthy tavily_api_key
       then TavilySearchResults (default "" tavily_api_key)
       else DuckDuckGoSearchRun |}.

Definition create_web_search_system := init.

Definition default_max_results : Z := 5.

Definition default_domains : list string :=
  ["pubmed.ncbi.nlm.nih.gov"; "mayoclinic.org"; "who.int"; "cdc.gov";
   "nih.gov"; "webmd.com"; "medicalnewstoday.com"].

(** One pass of the formatting loop: [result.get(key, default)] three times. *)
Definition format_result (formatted_results : string)
    (entry : nat * gmap string string) : string :=
  let '(idx, result) := entry in
  formatted_results
  +:+ nl +:+ Py.str_nat idx +:+ ". " +:+ default "No title" (result !! "title") +:+ nl
  +:+ "   URL: " +:+ default "No URL" (result !! "url") +:+ nl
  +:+ "   Content: " +:+ default "No content" (result !! "content") +:+ nl.

(** The formatting loop over a value the tool returned.  Iterating over
    a non-empty string reaches [result.get] on a one-character string. *)
Definition format_results (results : pyval) (cut : option Z) : outcome string :=
  match results with
  | PyList l =>
      let l := match cut with Some n => Py.slice_to n l | None => l end in
      Return (fold_left format_result (Py.enumerate 1 l) "")
  | PyStr s =>
      let s := match cut with Some n => Py.str_slice_to n s | None => s end in
      match s with
      | EmptyString => Return ""
      | _ => Raise (AttributeError "'str' object has no attribute 'get'")
      end
  end.

Section Methods.
Context (env : Provider).

Definition invoke (input : tool_input) : M pyval :=
  self <- get ;;
  extern (ToolInvoke (search_tool self) input)
         (tool_invoke env (search_tool self) input).

Definition search (query : string) (max_results : Z) : M pyval :=
  try_except
    (self <- get ;;
     if String.eqb (search_provider self) "tavily" then
       results <- invoke (QueryDict query None) ;;
       formatted_results <- reply (format_results results (Some max_results)) ;;
       ret (PyStr formatted_results)
     else
       results <- invoke (Query query) ;;
       ret results)
    (fun e => ret (PyStr ("Search error: " +:+ str_exn e))).

(** The dictionary [search_and_answer] returns. *)
Record Answer : Type := {
  ans_answer : string;
  ans_search_results : pyval;
  ans_provider : string;
  ans_model : string
}.

Definition search_and_answer (question : string) : M Answer :=
  self <- get ;;
  try_except
    (search_results <- search question default_max_results ;;
     content <- extern (LlmInvoke question search_results)
                       (llm_invoke env question search_results) ;;
     ret {| ans_answer := content; ans_search_results := search_results;
            ans_provider := search_provider self; ans_model := model_name self |})
    (fun e =>
       ret {| ans_answer := "Error generating answer: " +:+ str_exn e;
              ans_search_results := PyStr "";
              ans_provider := search_provider self; ans_model := "error" |}).

Definition medical_search (query : string) (domains : option (list string)) : M pyval :=
  let domains := default default_domains domains in
  self <- get ;;
  if String.eqb (search_provider self) "tavily" && Py.truthy (tavily_api_key self) then
    try_except
      (results <- invoke (QueryDict query (Some domains)) ;;
       formatted_results <- reply (format_results results None) ;;
       ret (PyStr formatted_results))
      (fun e => ret (PyStr ("Medical search error: " +:+ str_exn e)))
  else
    let modified_query :=
      (query +:+ " ") +:+ Py.join " OR " (map (fun domain => "site:" +:+ domain) domains) in
    search modified_query default_max_results.

End Methods.

End WebSearch.

(** ** app.py *)

Module App.

Import Database.

(** The two prompt templates of the module. *)
Inductive prompt : Type :=
| sql_prompt
| response_prompt.

(** Streamlit calls of the handlers.  They are recorded in the log and
    taken not to raise. *)
Inductive widget : Type :=
| st_spinner (text : string)
| st_code (body : string)
| st_dataframe (df : DataFrame)
| st_expander (label : string)
| st_markdown (body : string)
| st_text (body : string)
| st_divider.

Inductive event : Type :=
| ModelInvoke (p : prompt) (input : gmap string string)
| SchemaRead
| SqlExec (sql_query : string)
| Pdf (e : PdfRag.event)
| Web (e : WebSearch.event)
| St (w : widget).

(** The entries of [st.session_state] the handlers use. *)
Record session_state : Type := {
  db_schema_cache : option string;
  pdf_rag_initialized : bool;
  pdf_rag_system : option PdfRag.PDFRAGSystem;
  web_search_system : option WebSearch.WebSearchSystem
}.

(** The session and the database file next to the application. *)
Record world : Type := {
  session : session_state;
  database : db
}.

Record Env : Type := {
  (** [(p | groq_llm).invoke(input).content] *)
  groq : prompt -> gmap string string -> outcome string;
  sqlite : Sqlite;
  (** [DataFrame.to_string()] *)
  to_string : DataFrame -> string;
  pdf : PdfRag.Provider;
  web : WebSearch.Provider
}.

Definition M : Type -> Type := eff event world.

Definition set_db_schema_cache (v : option string) (w : world) : world :=
  {| session := {| db_schema_cache := v;
                   pdf_rag_initialized := pdf_rag_initialized (session w);
                   pdf_rag_system := pdf_rag_system (session w);
                   web_search_system := web_search_system (session w) |};
     database := database w |}.

Definition set_pdf_rag_system (o : PdfRag.PDFRAGSystem) (w : world) : world :=
  {| session := {| db_schema_cache := db_schema_cache (session w);
                   pdf_rag_initialized := pdf_rag_initialized (session w);
                   pdf_rag_system := Some o;
                   web_search_system := web_search_system (session w) |};
     database := database w |}.

Definition set_database (d : db) (w : world) : world :=
  {| session := session w; database := d |}.

(** [{"schema": schema, "question": question}] *)
Definition sql_input (question schema : string) : gmap string string :=
  <["schema" := schema]> (<["question" := question]> ∅).

(** [{"question": question, "results": results_str}] *)
Definition response_input (question results_str : string) : gmap string string :=
  <["question" := question]> (<["results" := results_str]> ∅).

(** The two assignments to [query] in [generate_sql_query]:
    [response.content.strip()], then the clean-up
    [query.replace(six backticks, "").strip()]. *)
Definition clean_up_query (content : string) : string :=
  let query := Py.strip content in
  let query := Py.strip (Py.replace "``````" "" query) in
  query.

Section Handlers.
Context (env : Env).

Definition generate_sql_query (question schema : string) : M string :=
  let input := sql_input question schema in
  content <- extern (ModelInvoke sql_prompt input) (groq env sql_prompt input) ;;
  ret (clean_up_query content).

Definition generate_natural_response (question : string) (results : DataFrame) : M string :=
  let results_str :=
    if df_empty results then "No results found" else to_string env results in
  let input := response_input question results_str in
  extern (ModelInvoke response_prompt input) (groq env response_prompt input).

Definition handle_sql_query (question : string) : M string :=
  try_except
    (w <- get ;;
     schema <-
       match db_schema_cache (session w) with
       | None =>
           s <- extern SchemaRead (get_database_schema (sqlite env) (database w)) ;;
           put (set_db_schema_cache (Some s) w) ;;;
           ret s
       | Some s => ret s
       end ;;
     emit (St (st_spinner "🔍 Generating SQL query with Groq...")) ;;;
     sql_query <- generate_sql_query question schema ;;
     emit (St (st_code sql_query)) ;;;
     emit (St (st_spinner "📊 Executing query...")) ;;;
     w <- get ;;
     emit (SqlExec sql_query) ;;;
     put (set_database (tables_after (sqlite env) (database w) sql_query) w) ;;;
     match query_database (sqlite env) (database w) sql_query with
     | PyDataFrame results =>
         if negb (df_empty results) then
           emit (St (st_dataframe results)) ;;;
           emit (St (st_spinner "✍️ Generating response with Groq...")) ;;;
           nl_response <- generate_natural_response question results ;;
           ret nl_response
         else
           ret "No matching records found in the database."
     | Database.PyStr results =>
         ret ("Query execution error: " +:+ results)
     end)
    (fun e => ret ("Error processing SQL query: " +:+ str_exn e)).

(** The loop over [response['context']] that shows the sources. *)
Fixpoint show_sources (docs : list (nat * PdfRag.Document)) : M unit :=
  match docs with
  | [] => ret tt
  | (i, doc) :: docs =>
      emit (St (st_markdown ("**Document " +:+ Py.str_nat i +:+ ":**"))) ;;;
      emit (St (st_text (Py.str_slice_to 500 (PdfRag.page_content doc) +:+ "..."))) ;;;
      emit (St st_divider) ;;;
      show_sources docs
  end.

Definition handle_pdf_query (question : string) : M string :=
  try_except
    (w <- get ;;
     if negb (pdf_rag_initialized (session w)) then
       ret "⚠️ Please upload and process a PDF document first."
     else
       emit (St (st_spinner "🔍 Searching PDF documents...")) ;;;
       response <-
         match pdf_rag_system (session w) with
         | None => raise (AttributeError "'NoneType' object has no attribute 'query'")
         | Some o =>
             method Pdf o (PdfRag.query (pdf env) question) set_pdf_rag_system
         end ;;
       let answer := default "No answer found." (PdfRag.answer response) in
       match PdfRag.context response with
       | Some docs =>
           emit (St (st_expander "📄 Source Documents")) ;;;
           show_sources (Py.enumerate 1 docs)
       | None => ret tt
       end ;;;
       ret answer)
    (fun e => ret ("Error processing PDF query: " +:+ str_exn e)).

End Handlers.

Definition set_web_search_system (o : WebSearch.WebSearchSystem) (w : world) : world :=
  {| session := {| db_schema_cache := db_schema_cache (session w);
                   pdf_rag_initialized := pdf_rag_initialized (session w);
                   pdf_rag_system := pdf_rag_system (session w);
                   web_search_system := Some o |};
     database := database w |}.

Definition set_pdf_rag_initialized (b : bool) (w : world) : world :=
  {| session := {| db_schema_cache := db_schema_cache (session w);
                   pdf_rag_initialized := b;
                   pdf_rag_system := pdf_rag_system (session w);
                   web_search_system := web_search_system (session w) |};
     database := database w |}.

Section WebHandler.
Context (env : Env).
(** The keys read from the process environment when the script starts;
    [os.getenv] gives [None] for a variable that is not set. *)
Context (GROQ_API_KEY : string) (TAVILY_API_KEY : option string).
(** [str(l)] for a list of result dictionaries. *)
Context (str_list : list (gmap string string) -> string).

Definition initialize_web_search : WebSearch.WebSearchSystem :=
  let search_provider := if Py.truthy TAVILY_API_KEY then "tavily" else "duckduckgo" in
  WebSearch.create_web_search_system GROQ_API_KEY TAVILY_API_KEY search_provider
    "llama-3.3-70b-versatile".

(** The text of a search result where a string is needed: as a
    template variable and as the argument of [st.text]. *)
Definition py_str (v : WebSearch.pyval) : string :=
  match v with
  | WebSearch.PyStr s => s
  | WebSearch.PyList l => str_list l
  end.

Definition handle_web_search (question : string) (medical_only : bool) : M string :=
  try_except
    (w <- get ;;
     system <-
       match web_search_system (session w) with
       | None =>
           put (set_web_search_system initialize_web_search w) ;;;
           ret initialize_web_search
       | Some o => ret o
       end ;;
     emit (St (st_spinner "🌐 Searching the web with Groq...")) ;;;
     found <-
       (if medical_only then
          search_results <-
            method Web system (WebSearch.medical_search (web env) question None)
              set_web_search_system ;;
          let input := response_input question (py_str search_results) in
          answer <- extern (ModelInvoke response_prompt input)
                           (groq env response_prompt input) ;;
          ret (answer, search_results)
        else
          result <-
            method Web system (WebSearch.search_and_answer (web env) question)
              set_web_search_system ;;
          ret (WebSearch.ans_answer result, WebSearch.ans_search_results result)) ;;
     emit (St (st_expander "🔍 Search Results")) ;;;
     emit (St (st_text (py_str (snd found)))) ;;;
     ret (fst found))
    (fun e => ret ("Error processing web search: " +:+ str_exn e)).

(** The chain of comparisons on [query_mode] under the chat input. *)
Definition respond (query_mode prompt : string) : M string :=
  if String.eqb query_mode "SQL Database" then handle_sql_query env prompt
  else if String.eqb query_mode "PDF Documents" then handle_pdf_query env prompt
  else if String.eqb query_mode "Web Search" then handle_web_search prompt false
  else handle_web_search prompt true.

End WebHandler.

(** The schema [handle_sql_query] works with in a given session: the
    cached one, or the one read from the store when nothing is cached. *)
Definition schema_in_use (env : Env) (w : world) (schema : string) : Prop :=
  db_schema_cache (session w) = Some schema \/
  (db_schema_cache (session w) = None /\
   get_database_schema (sqlite env) (database w) = Return schema).

(** Two worlds agree on the entries of the session that belong to the
    PDF handler. *)
Definition same_pdf_entries (w w' : world) : Prop :=
  pdf_rag_initialized (session w') = pdf_rag_initialized (session w) /\
  pdf_rag_system (session w') = pdf_rag_system (session w).

End App.

(** ** app.py: the script around the handlers

    Streamlit runs the script from the top on every interaction.  What
    follows are the blocks of the script that act on the session: the
    body of each [if st.button(...)] in the sidebar and the block under
    [st.chat_input]. *)

Module Page.

Import Database.

(** An entry of [st.session_state.chat_history]. *)
Record message : Type := {
  role : string;
  content : string
}.

(** The session entries the handlers do not touch, the state of
    [random], and the handlers' world. *)
Record page (R : Type) : Type := {
  world : App.world;
  rng : R;
  db_initialized : bool;
  chat_history : list message;
  show_schema : bool;
  show_samples : bool;
  sample_patients_cache : option DataFrame
}.
Arguments world {R} _.
Arguments rng {R} _.
Arguments db_initialized {R} _.
Arguments chat_history {R} _.
Arguments show_schema {R} _.
Arguments show_samples {R} _.
Arguments sample_patients_cache {R} _.

Inductive event : Type :=
| Core (e : App.event)
| st_success (body : string)
| st_error (body : string)
| st_chat_message (name : string)
| st_rerun
| TempWrite (uploaded_file : string)
| Unlink (path : string).

Section Script.
Context {R : Type} (rnd : Random R) (env : App.Env).
Context (GROQ_API_KEY MISTRAL_API_KEY : string) (TAVILY_API_KEY : option string).
Context (str_list : list (gmap string string) -> string).
(** Writing the uploaded bytes to a [NamedTemporaryFile]: the path of
    the file.  An upload is named by its content. *)
Context (write_temp : string -> outcome string).
(** [os.unlink(path)] *)
Context (unlink : string -> outcome unit).

Definition M : Type -> Type := eff event (page R).

Definition set_world (w : App.world) (s : page R) : page R :=
  {| world := w; rng := rng s; db_initialized := db_initialized s;
     chat_history := chat_history s; show_schema := show_schema s;
     show_samples := show_samples s;
     sample_patients_cache := sample_patients_cache s |}.

Definition set_chat_history (h : list message) (s : page R) : page R :=
  {| world := world s; rng := rng s; db_initialized := db_initialized s;
     chat_history := h; show_schema := show_schema s;
     show_samples := show_samples s;
     sample_patients_cache := sample_patients_cache s |}.

(** A handler of the module run from the script. *)
Definition core {A : Type} (m : App.M A) : M A :=
  s <- get ;;
  method Core (world s) m set_world.

(** The block under [st.button("🔄 Initialize/Reset Database")]. *)
Definition initialize_database : M unit :=
  emit (Core (App.St (App.st_spinner "Creating database..."))) ;;;
  s <- get ;;
  let '(result, d, r) :=
    create_patient_database rnd (App.sqlite env) (App.database (world s)) (rng s) in
  put {| world := {| App.session := App.session (world s); App.database := d |};
         rng := r; db_initialized := db_initialized s;
         chat_history := chat_history s; show_schema := show_schema s;
         show_samples := show_samples s;
         sample_patients_cache := sample_patients_cache s |} ;;;
  emit (st_success result) ;;;
  s <- get ;;
  put {| world := world s; rng := rng s; db_initialized := true;
         chat_history := chat_history s; show_schema := show_schema s;
         show_samples := show_samples s;
         sample_patients_cache := sample_patients_cache s |} ;;;
  schema <- extern (Core App.SchemaRead) (get_database_schema (App.sqlite env) d) ;;
  s <- get ;;
  put (set_world (App.set_db_schema_cache (Some schema) (world s)) s) ;;;
  s <- get ;;
  put {| world := world s; rng := rng s; db_initialized := db_initialized s;
         chat_history := chat_history s; show_schema := show_schema s;
         show_samples := show_samples s;
         sample_patients_cache := Some (get_patient_info (App.sqlite env) d) |}.

(** The block under [st.button("🚀 Process PDF")], for an upload. *)
Definition process_pdf_button (uploaded_file : string) : M unit :=
  emit (Core (App.St (App.st_spinner "Processing PDF with Mistral AI..."))) ;;;
  try_except
    (tmp_path <- extern (TempWrite uploaded_file) (write_temp uploaded_file) ;;
     s <- get ;;
     system <-
       match App.pdf_rag_system (App.session (world s)) with
       | None =>
           let o := PdfRag.create_pdf_rag_system MISTRAL_API_KEY in
           put (set_world (App.set_pdf_rag_system o (world s)) s) ;;;
           ret o
       | Some o => ret o
       end ;;
     method (fun e => Core (App.Pdf e)) system
       (PdfRag.process_pdf (App.pdf env) tmp_path PdfRag.default_chunk_size
          PdfRag.default_chunk_overlap PdfRag.default_k)
       (fun o s => set_world (App.set_pdf_rag_system o (world s)) s) ;;;
     s <- get ;;
     put (set_world (App.set_pdf_rag_initialized true (world s)) s) ;;;
     extern (Unlink tmp_path) (unlink tmp_path) ;;;
     emit (st_success "✅ PDF processed successfully!"))
    (fun e => emit (st_error ("❌ Error processing PDF: " +:+ str_exn e))).

(** The block under [st.button("🗑️ Clear Chat History")]. *)
Definition clear_chat_history : M unit :=
  s <- get ;;
  put (set_chat_history [] s) ;;;
  emit st_rerun.

(** The block under [if prompt := st.chat_input("Ask a question...")],
    for the prompt typed and the mode chosen in the sidebar; an empty
    prompt does not enter the block. *)
Definition chat_input (query_mode prompt : string) : M unit :=
  if Py.truthy (Some prompt) then
    s <- get ;;
    put (set_chat_history
           (chat_history s ++ [{| role := "user"; content := prompt |}]) s) ;;;
    emit (st_chat_message "user") ;;;
    emit (Core (App.St (App.st_markdown prompt))) ;;;
    emit (st_chat_message "assistant") ;;;
    response <-
      core (App.respond env GROQ_API_KEY TAVILY_API_KEY str_list query_mode prompt) ;;
    emit (Core (App.St (App.st_markdown response))) ;;;
    s <- get ;;
    put (set_chat_history
           (chat_history s ++ [{| role := "assistant"; content := response |}]) s)
  else ret tt.

(** One interaction with the page. *)
Inductive action : Type :=
| InitializeDatabase
| ProcessPdf (uploaded_file : string)
| ClearChatHistory
| Ask (query_mode prompt : string).

Definition run (a : action) : M unit :=
  match a with
  | InitializeDatabase => initialize_database
  | ProcessPdf uploaded_file => process_pdf_button uploaded_file
  | ClearChatHistory => clear_chat_history
  | Ask query_mode prompt => chat_input query_mode prompt
  end.

(** The page after a sequence of interactions; an interaction that
    ends in an uncaught exception leaves the session as it was at that
    point, and the next one starts from there. *)
Fixpoint interact (actions : list action) (l : list event) (s : page R)
    : list event * page R :=
  match actions with
  | [] => (l, s)
  | a :: actions =>
      let '(_, l', s') := run a l s in
      interact actions l' s'
  end.

(** The session as the top of the script sets it up, over a given
    database file and generator state. *)
Definition start (d : db) (r : R) : page R :=
  {| world := {| App.session := {| App.db_schema_cache := None;
                                   App.pdf_rag_initialized := false;
                                   App.pdf_rag_system := None;
                                   App.web_search_system := None |};
                 App.database := d |};
     rng := r;
     db_initialized := false;
     chat_history := [];
     show_schema := false;
     show_samples := false;
     sample_patients_cache := None |}.

End Script.

(** What the PDF handler relies on: when the session says a document
    has been processed, it holds a system with a retrieval chain. *)
Definition pdf_ready (w : App.world) : Prop :=
  App.pdf_rag_initialized (App.session w) = true ->
  exists system chain,
    App.pdf_rag_system (App.session w) = Some system /\
    PdfRag.retrieval_chain system = Some chain.

End Page.

(** ** Sample environments

    Concrete stores, providers and sessions on which the statements
    below are instantiated. *)

Module Demo.

Import Database.

Definition no_rows : DataFrame :=
  {| columns := ["patient_id"; "first_name"; "city"]; data := [] |}.

Definition one_row : DataFrame :=
  {| columns := ["patient_id"; "first_name"; "city"];
     data := [[SqlInt 1; SqlText "Rajesh"; SqlText "Bangalore"]] |}.

Definition paris_query : string := "SELECT * FROM patients WHERE city = 'Paris'".
Definition visits_query : string := "SELECT * FROM visits".
Definition fenced_query : string :=
  "```sql" +:+ nl +:+ "SELECT * FROM patients" +:+ nl +:+ "```".

Definition sqlite : Sqlite :=
  {| read_sql_query := fun _ sql =>
       if String.eqb sql paris_query then Return no_rows
       else if String.eqb sql visits_query then
         Raise (OtherException "DatabaseError"
                  "Execution failed on sql 'SELECT * FROM visits': no such table: visits")
       else Return one_row;
     tables_after := fun d _ => d;
     table_info := fun _ _ => Return [("patient_id", "INTEGER"); ("city", "TEXT")];
     current_date := "2025-01-01";
     date_after := fun _ => "2025-01-01" |}.

(** A generator that always draws the smallest value. *)
Definition lowest : Random nat :=
  {| randint := fun lo _ r => (lo, S r);
     choice_index := fun _ r => (0, S r);
     random_above_03 := fun r => (true, S r) |}.

Definition seeded : db :=
  {| patients := Some {| tbl_rows := [[SqlInt 1; SqlText "Rajesh"]]; tbl_seq := 1 |};
     medical_records := Some empty_table;
     appointments := Some empty_table |}.

Definition fresh : db :=
  {| patients := None; medical_records := None; appointments := None |}.

Definition doc (text : string) : PdfRag.Document :=
  {| PdfRag.page_content := text; PdfRag.metadata := ∅ |}.

Definition pdf : PdfRag.Provider :=
  {| PdfRag.pdf_loader := fun path =>
       if String.eqb path "a.pdf" then Return [doc "alpha"]
       else if String.eqb path "b.pdf" then Return [doc "beta"]
       else if String.eqb path "blank.pdf" then Return []
       else Raise (OtherException "ValueError" "File path is not a valid file or url");
     PdfRag.text_splitter := fun _ _ documents => Return documents;
     PdfRag.embed_documents := fun _ => Return tt;
     PdfRag.chain_invoke := fun chain _ =>
       Return {| PdfRag.answer := Some "An answer.";
                 PdfRag.context := Some (PdfRag.docstore (PdfRag.retriever_store chain)) |} |}.

Definition web : WebSearch.Provider :=
  {| WebSearch.tool_invoke := fun _ input =>
       if String.eqb (WebSearch.query_text input) "down"
       then Raise (OtherException "DuckDuckGoSearchException" "Ratelimit")
       else Return (WebSearch.PyStr "snippets");
     WebSearch.llm_invoke := fun _ _ => Return "An answer." |}.

Definition groq (p : App.prompt) (input : gmap string string) : outcome string :=
  match p with
  | App.sql_prompt =>
      let question := default "" (input !! "question") in
      if String.eqb question "Who lives in Paris?" then Return paris_query
      else if String.eqb question "List the visits" then Return visits_query
      else if String.eqb question "List the patients" then Return fenced_query
      else Return "SELECT 1"
  | App.response_prompt => Return "An answer."
  end.

Definition env : App.Env :=
  {| App.groq := groq;
     App.sqlite := sqlite;
     App.to_string := fun _ => "table";
     App.pdf := pdf;
     App.web := web |}.

(** The session as the top of [app.py] initialises it. *)
Definition start : App.world :=
  {| App.session := {| App.db_schema_cache := None;
                       App.pdf_rag_initialized := false;
                       App.pdf_rag_system := None;
                       App.web_search_system := None |};
     App.database := seeded |}.

(** A session whose model provider cannot be reached. *)
Definition offline : App.Env :=
  {| App.groq := fun _ _ => Raise (OtherException "APIConnectionError" "Connection error.");
     App.sqlite := sqlite;
     App.to_string := fun _ => "table";
     App.pdf := pdf;
     App.web := web |}.

(** A session whose database file cannot be opened. *)
Definition locked : App.Env :=
  {| App.groq := groq;
     App.sqlite :=
       {| read_sql_query := fun _ _ =>
            Raise (OperationalError "unable to open database file");
          tables_after := fun d _ => d;
          table_info := fun _ _ =>
            Raise (OperationalError "unable to open database file");
          current_date := "2025-01-01";
          date_after := fun _ => "2025-01-01" |};
     App.to_string := fun _ => "table";
     App.pdf := pdf;
     App.web := web |}.

(** The session after "a.pdf" has been processed. *)
Definition indexed : App.world :=
  {| App.session :=
       {| App.db_schema_cache := None;
          App.pdf_rag_initialized := true;
          App.pdf_rag_system :=
            Some (store_of (PdfRag.process_pdf pdf "a.pdf" 1000 200 5 []
                              (PdfRag.create_pdf_rag_system "key")));
          App.web_search_system := None |};
     App.database := seeded |}.

(** Uploads are named by their content; each is written to the path
    the loader knows it by. *)
Definition write_temp (uploaded_file : string) : outcome string :=
  if String.eqb uploaded_file "alpha bytes" then Return "a.pdf"
  else if String.eqb uploaded_file "beta bytes" then Return "b.pdf"
  else if String.eqb uploaded_file "blank bytes" then Return "blank.pdf"
  else if String.eqb uploaded_file "not a pdf" then Return "missing.pdf"
  else Raise (OtherException "OSError" "No space left on device").

Definition unlink (path : string) : outcome unit := Return tt.

Definition str_list (l : list (gmap string string)) : string := "[...]".

End Demo.

(** * Properties *)

(** ** Python strings *)

Lemma chars_cons (c : ascii) (s : string) :
  exists ch chs, Py.chars (String c s) = String c ch :: chs.
Proof.
  cbn [Py.chars]. destruct (Py.chars s) as [|[|c' ch] chs]; [eauto | eauto |].
  destruct (Py.is_continuation c'); eauto.
Qed.

(** A slice [s[:n]] with [n] positive keeps the first character. *)
Lemma str_slice_to_nonempty (n : Z) (s : string) :
  (0 < n)%Z -> s <> "" -> Py.str_slice_to n s <> "".
Proof.
  intros Hn Hs. destruct s as [|c s]; [contradiction|].
  destruct (chars_cons c s) as (ch & chs & Hch).
  unfold Py.str_slice_to, Py.slice_to. rewrite Hch.
  destruct (0 <=? n)%Z eqn:Hle; [|apply Z.leb_gt in Hle; lia].
  destruct (Z.to_nat n) as [|k] eqn:Hk; [lia|].
  cbn [firstn String.concat]. destruct (firstn k chs); discriminate.
Qed.

Lemma contains_app_r (x s1 s2 : string) :
  Py.contains x s2 = true -> Py.contains x (s1 +:+ s2) = true.
Proof.
  intros H. induction s1 as [|c s1 IH]; [exact H|].
  change (Py.contains x (String c s1 +:+ s2))
    with (String.prefix x (String c (s1 +:+ s2)) || Py.contains x (s1 +:+ s2)).
  rewrite IH. apply orb_true_r.
Qed.

(** ** pdf_rag.py *)

(** C8: [PDFRAGSystem.query] on a system whose [retrieval_chain] is
    [None] raises the not-initialised error (a [ValueError] carrying
    "Retrieval chain not initialized. Call process_pdf first.") without
    invoking any chain: the log and the object are left as they were. *)
Theorem query_before_indexing_raises
    (env : PdfRag.Provider) (question : string)
    (l : list PdfRag.event) (self : PdfRag.PDFRAGSystem) :
  PdfRag.retrieval_chain self = None ->
  PdfRag.query env question l self =
    (Raise (ValueError "Retrieval chain not initialized. Call process_pdf first."), l, self).
Proof.
  intros H. unfold PdfRag.query, bind, get. rewrite H. reflexivity.
Qed.

Lemma query_before_indexing_raises_witness :
  PdfRag.query Demo.pdf "What is this document about?" []
    (PdfRag.create_pdf_rag_system "key") =
    (Raise (ValueError "Retrieval chain not initialized. Call process_pdf first."), [],
     PdfRag.create_pdf_rag_system "key").
Proof.
  apply (query_before_indexing_raises Demo.pdf "What is this document about?" []
           (PdfRag.create_pdf_rag_system "key")).
  reflexivity.
Defined.

(** ** app.py *)

(** C3: while [pdf_rag_initialized] is false, [handle_pdf_query]
    returns the message asking for a document to be processed first;
    nothing is added to the log (so the retriever is not called) and
    the session is unchanged. *)
Theorem handle_pdf_query_not_initialized
    (env : App.Env) (question : string) (l : list App.event) (w : App.world) :
  App.pdf_rag_initialized (App.session w) = false ->
  App.handle_pdf_query env question l w =
    (Return "⚠️ Please upload and process a PDF document first.", l, w).
Proof.
  intros H. unfold App.handle_pdf_query, try_except, bind, get.
  rewrite H. reflexivity.
Qed.

Lemma handle_pdf_query_not_initialized_witness :
  App.handle_pdf_query Demo.env "What is this document about?" [] Demo.start =
    (Return "⚠️ Please upload and process a PDF document first.", [], Demo.start).
Proof.
  apply (handle_pdf_query_not_initialized Demo.env "What is this document about?" []
           Demo.start).
  reflexivity.
Defined.

Lemma generate_sql_query_returns
    (env : App.Env) (question schema content : string)
    (l : list App.event) (w : App.world) :
  App.groq env App.sql_prompt (App.sql_input question schema) = Return content ->
  App.generate_sql_query env question schema l w =
    (Return (App.clean_up_query content),
     l ++ [App.ModelInvoke App.sql_prompt (App.sql_input question schema)], w).
Proof.
  intros H. unfold App.generate_sql_query, extern, bind, emit, reply, ret.
  rewrite H. reflexivity.
Qed.

(** The handler up to the execution of the query, for the two results
    that need no answer synthesis: an empty DataFrame and a message. *)
Lemma handle_sql_query_executes
    (env : App.Env) (question schema content : string)
    (l : list App.event) (w : App.world) :
  App.schema_in_use env w schema ->
  App.groq env App.sql_prompt (App.sql_input question schema) = Return content ->
  exists evs w',
    App.database w' =
      Database.tables_after (App.sqlite env) (App.database w) (App.clean_up_query content) /\
    App.db_schema_cache (App.session w') = Some schema /\
    Forall (fun ev => forall input, ev <> App.ModelInvoke App.response_prompt input) evs /\
    In (App.SqlExec (App.clean_up_query content)) evs /\
    (forall df,
       Database.query_database (App.sqlite env) (App.database w)
         (App.clean_up_query content) = Database.PyDataFrame df ->
       Database.df_empty df = true ->
       App.handle_sql_query env question l w =
         (Return "No matching records found in the database.", l ++ evs, w')) /\
    (forall msg,
       Database.query_database (App.sqlite env) (App.database w)
         (App.clean_up_query content) = Database.PyStr msg ->
       App.handle_sql_query env question l w =
         (Return ("Query execution error: " +:+ msg), l ++ evs, w')).
Proof.
  intros Hs Hg.
  pose (tail := fun p : string =>
          [App.St (App.st_spinner p);
           App.ModelInvoke App.sql_prompt (App.sql_input question schema);
           App.St (App.st_code (App.clean_up_query content));
           App.St (App.st_spinner "📊 Executing query...");
           App.SqlExec (App.clean_up_query content)]).
  assert (Hno : forall p, Forall (fun ev => forall input,
                  ev <> App.ModelInvoke App.response_prompt input) (tail p)).
  { intros p. repeat constructor; intros input; discriminate. }
  assert (Hin : forall p, In (App.SqlExec (App.clean_up_query content)) (tail p)).
  { intros p. simpl. tauto. }
  destruct Hs as [Hc | [Hc Hr]].
  - exists (tail "🔍 Generating SQL query with Groq..."),
           (App.set_database
              (Database.tables_after (App.sqlite env) (App.database w)
                 (App.clean_up_query content)) w).
    split; [reflexivity|]. split; [exact Hc|]. split; [apply Hno|]. split; [apply Hin|].
    split.
    + intros df Hq He.
      cbv [App.handle_sql_query try_except bind get put emit extern reply ret]. rewrite Hc.
      rewrite (generate_sql_query_returns env question schema content _ w Hg).
      rewrite Hq, He. cbn [negb]. rewrite <- !app_assoc. reflexivity.
    + intros msg Hq.
      cbv [App.handle_sql_query try_except bind get put emit extern reply ret]. rewrite Hc.
      rewrite (generate_sql_query_returns env question schema content _ w Hg).
      rewrite Hq. rewrite <- !app_assoc. reflexivity.
  - exists (App.SchemaRead :: tail "🔍 Generating SQL query with Groq..."),
           (App.set_database
              (Database.tables_after (App.sqlite env) (App.database w)
                 (App.clean_up_query content))
              (App.set_db_schema_cache (Some schema) w)).
    split; [reflexivity|]. split; [reflexivity|].
    split; [constructor; [intros input; discriminate | apply Hno]|].
    split; [right; apply Hin|].
    split.
    + intros df Hq He.
      cbv [App.handle_sql_query try_except bind get put emit extern reply ret].
      rewrite Hc, Hr.
      rewrite (generate_sql_query_returns env question schema content _ _ Hg).
      cbn [App.database App.set_db_schema_cache].
      rewrite Hq, He. cbn [negb]. rewrite <- !app_assoc. reflexivity.
    + intros msg Hq.
      cbv [App.handle_sql_query try_except bind get put emit extern reply ret].
      rewrite Hc, Hr.
      rewrite (generate_sql_query_returns env question schema content _ _ Hg).
      cbn [App.database App.set_db_schema_cache].
      rewrite Hq. rewrite <- !app_assoc. reflexivity.
Qed.

Lemma handle_sql_query_never_raises
    (env : App.Env) (question : string) (l : list App.event) (w : App.world) :
  exists answer, outcome_of (App.handle_sql_query env question l w) = Return answer.
Proof.
  unfold App.handle_sql_query, try_except.
  match goal with
  | |- context [match ?m l w with _ => _ end] => destruct (m l w) as [[[a | e] l'] w']
  end; eexists; reflexivity.
Qed.

Lemma handle_pdf_query_never_raises
    (env : App.Env) (question : string) (l : list App.event) (w : App.world) :
  exists answer, outcome_of (App.handle_pdf_query env question l w) = Return answer.
Proof.
  unfold App.handle_pdf_query, try_except.
  match goal with
  | |- context [match ?m l w with _ => _ end] => destruct (m l w) as [[[a | e] l'] w']
  end; eexists; reflexivity.
Qed.

(** The one outside call of [generate_natural_response]: the model,
    on [response_prompt]. *)
Lemma generate_natural_response_invokes_model
    (env : App.Env) (question : string) (results : Database.DataFrame)
    (l : list App.event) (w : App.world) :
  exists results_str,
    log_of (App.generate_natural_response env question results l w) =
      l ++ [App.ModelInvoke App.response_prompt
              (App.response_input question results_str)].
Proof.
  unfold App.generate_natural_response, extern, bind, emit, reply, log_of.
  eexists. reflexivity.
Qed.

(** C1: when the query generated for a question executes and yields an
    empty DataFrame, [handle_sql_query] returns "No matching records
    found in the database."; among the calls it adds to the log there is
    no invocation of the model on [response_prompt], which is the one
    call [generate_natural_response] makes. *)
Theorem handle_sql_query_empty_result
    (env : App.Env) (question schema content : string) (df : Database.DataFrame)
    (l : list App.event) (w : App.world) :
  App.schema_in_use env w schema ->
  App.groq env App.sql_prompt (App.sql_input question schema) = Return content ->
  Database.read_sql_query (App.sqlite env) (App.database w)
    (App.clean_up_query content) = Return df ->
  Database.df_empty df = true ->
  exists evs w',
    App.handle_sql_query env question l w =
      (Return "No matching records found in the database.", l ++ evs, w') /\
    In (App.SqlExec (App.clean_up_query content)) evs /\
    Forall (fun ev => forall input, ev <> App.ModelInvoke App.response_prompt input) evs.
Proof.
  intros Hs Hg Hq He.
  destruct (handle_sql_query_executes env question schema content l w Hs Hg)
    as (evs & w' & _ & _ & Hno & Hin & Hempty & _).
  exists evs, w'. split; [|split; assumption].
  apply (Hempty df); [|exact He].
  unfold Database.query_database. rewrite Hq. reflexivity.
Qed.

Lemma handle_sql_query_empty_result_witness :
  exists evs w',
    App.handle_sql_query Demo.env "Who lives in Paris?" [] Demo.start =
      (Return "No matching records found in the database.", [] ++ evs, w') /\
    In (App.SqlExec (App.clean_up_query Demo.paris_query)) evs /\
    Forall (fun ev => forall input, ev <> App.ModelInvoke App.response_prompt input) evs.
Proof.
  eapply (handle_sql_query_empty_result Demo.env "Who lives in Paris?" _
            Demo.paris_query Demo.no_rows [] Demo.start).
  - right. split; reflexivity.
  - reflexivity.
  - reflexivity.
  - reflexivity.
Defined.

(** C2: when the store rejects a query, [query_database] returns a
    message (a string built from the exception), which differs from
    what it returns for any query that executes, empty result or not;
    and [handle_sql_query], when that query is the one generated for
    the question, returns "Query execution error: " followed by the
    message instead of raising. *)
Theorem rejected_query_is_reported
    (env : App.Env) (d : Database.db) (sql_query : string) (e : exn) :
  Database.read_sql_query (App.sqlite env) d sql_query = Raise e ->
  exists msg,
    Database.query_database (App.sqlite env) d sql_query = Database.PyStr msg /\
    (msg = "Database query error: " +:+ str_exn e \/
     msg = "An error occurred: " +:+ str_exn e) /\
    (forall d' sql_query' df,
       Database.read_sql_query (App.sqlite env) d' sql_query' = Return df ->
       Database.query_database (App.sqlite env) d' sql_query' <>
       Database.query_database (App.sqlite env) d sql_query) /\
    (forall question schema content l w,
       App.database w = d ->
       App.clean_up_query content = sql_query ->
       App.schema_in_use env w schema ->
       App.groq env App.sql_prompt (App.sql_input question schema) = Return content ->
       exists evs w',
         App.handle_sql_query env question l w =
           (Return ("Query execution error: " +:+ msg), l ++ evs, w')).
Proof.
  intros Hq.
  assert (Hm : exists msg,
             Database.query_database (App.sqlite env) d sql_query = Database.PyStr msg /\
             (msg = "Database query error: " +:+ str_exn e \/
              msg = "An error occurred: " +:+ str_exn e)).
  { unfold Database.query_database. rewrite Hq.
    destruct e; eexists; (split; [reflexivity|]); simpl; tauto. }
  destruct Hm as (msg & Hmsg & Hshape).
  exists msg. split; [exact Hmsg|]. split; [exact Hshape|]. split.
  - intros d' sql_query' df Hok. rewrite Hmsg.
    unfold Database.query_database. rewrite Hok. discriminate.
  - intros question schema content l w Hd Hc Hs Hg. subst d sql_query.
    destruct (handle_sql_query_executes env question schema content l w Hs Hg)
      as (evs & w' & _ & _ & _ & _ & _ & Herr).
    exists evs, w'. apply Herr. exact Hmsg.
Qed.

Lemma rejected_query_is_reported_witness :
  exists msg,
    Database.query_database Demo.sqlite Demo.seeded Demo.visits_query = Database.PyStr msg /\
    exists evs w',
      App.handle_sql_query Demo.env "List the visits" [] Demo.start =
        (Return ("Query execution error: " +:+ msg), [] ++ evs, w').
Proof.
  destruct (rejected_query_is_reported Demo.env Demo.seeded Demo.visits_query
              (OtherException "DatabaseError"
                 "Execution failed on sql 'SELECT * FROM visits': no such table: visits")
              eq_refl)
    as (msg & Hmsg & _ & _ & Hhandle).
  exists msg. split; [exact Hmsg|].
  eapply (Hhandle "List the visits" _ Demo.visits_query [] Demo.start).
  - reflexivity.
  - reflexivity.
  - right. split; reflexivity.
  - reflexivity.
Defined.

Lemma replace_from_no_occurrence (old new s : string) :
  Py.contains old s = false -> Py.replace_from old new 0 s = s.
Proof.
  induction s as [|c s IH]; [reflexivity|].
  intros H.
  change (String.prefix old (String c s) || Py.contains old s = false) in H.
  apply orb_false_iff in H. destruct H as [Hp Hc].
  change (Py.replace_from old new 0 (String c s))
    with (if String.prefix old (String c s)
          then new +:+ Py.replace_from old new (String.length old - 1) s
          else String c (Py.replace_from old new 0 s)).
  rewrite Hp, (IH Hc). reflexivity.
Qed.

(** The clean-up leaves alone every response in which no six backticks
    stand in a row: what comes back is the response with its outer
    white space removed, fences included. *)
Lemma clean_up_query_without_six_backticks (content : string) :
  Py.contains "``````" (Py.strip content) = false ->
  App.clean_up_query content = Py.strip (Py.strip content).
Proof.
  intros H. unfold App.clean_up_query, Py.replace.
  rewrite (replace_from_no_occurrence _ _ _ H). reflexivity.
Qed.

(** C4 fails on the code: the clean-up replaces runs of six backticks
    only, so a response wrapped in a three-backtick fence comes back
    from [generate_sql_query] with both fence markers still in it. *)
Theorem generate_sql_query_keeps_code_fence
    (env : App.Env) (question schema : string) (l : list App.event) (w : App.world) :
  App.groq env App.sql_prompt (App.sql_input question schema) = Return Demo.fenced_query ->
  App.generate_sql_query env question schema l w =
    (Return Demo.fenced_query,
     l ++ [App.ModelInvoke App.sql_prompt (App.sql_input question schema)], w) /\
  Py.contains "```" Demo.fenced_query = true.
Proof.
  intros Hg. split; [|reflexivity].
  rewrite (generate_sql_query_returns env question schema Demo.fenced_query l w Hg).
  reflexivity.
Qed.

Lemma generate_sql_query_keeps_code_fence_witness :
  outcome_of (App.generate_sql_query Demo.env "List the patients" "TABLE: patients" []
                Demo.start) = Return Demo.fenced_query /\
  Py.contains "```" Demo.fenced_query = true.
Proof.
  destruct (generate_sql_query_keeps_code_fence Demo.env "List the patients"
              "TABLE: patients" [] Demo.start eq_refl) as [Hrun Hfence].
  split; [|exact Hfence]. rewrite Hrun. reflexivity.
Defined.

(** ** web_search.py *)

Lemma search_never_raises
    (env : WebSearch.Provider) (query : string) (max_results : Z)
    (l : list WebSearch.event) (self : WebSearch.WebSearchSystem) :
  exists v, outcome_of (WebSearch.search env query max_results l self) = Return v.
Proof.
  unfold WebSearch.search, try_except.
  match goal with
  | |- context [match ?m l self with _ => _ end] =>
      destruct (m l self) as [[[a | e] l'] w']
  end; eexists; reflexivity.
Qed.

(** The request [search] sends for a query: a dictionary for the
    provider "tavily", the bare string otherwise. *)
Lemma search_request
    (env : WebSearch.Provider) (query : string) (max_results : Z)
    (l : list WebSearch.event) (self : WebSearch.WebSearchSystem) :
  let input :=
    if String.eqb (WebSearch.search_provider self) "tavily"
    then WebSearch.QueryDict query None else WebSearch.Query query in
  log_of (WebSearch.search env query max_results l self) =
    l ++ [WebSearch.ToolInvoke (WebSearch.search_tool self) input] /\
  store_of (WebSearch.search env query max_results l self) = self.
Proof.
  cbv [WebSearch.search WebSearch.invoke try_except bind get emit extern reply ret
       log_of store_of].
  destruct (String.eqb (WebSearch.search_provider self) "tavily").
  - destruct (WebSearch.tool_invoke env _ _) as [v | e]; [|split; reflexivity].
    destruct (WebSearch.format_results v _); split; reflexivity.
  - destruct (WebSearch.tool_invoke env _ _) as [v | e]; split; reflexivity.
Qed.

(** C6: whatever exception the search tool raises, [search] returns
    the string "Search error: " followed by the text of the exception;
    the outcome is a returned value, not a raise. *)
Theorem search_catches_provider_exception
    (env : WebSearch.Provider) (query : string) (max_results : Z)
    (l : list WebSearch.event) (self : WebSearch.WebSearchSystem) (e : exn) :
  WebSearch.tool_invoke env (WebSearch.search_tool self)
    (if String.eqb (WebSearch.search_provider self) "tavily"
     then WebSearch.QueryDict query None else WebSearch.Query query) = Raise e ->
  WebSearch.search env query max_results l self =
    (Return (WebSearch.PyStr ("Search error: " +:+ str_exn e)),
     l ++ [WebSearch.ToolInvoke (WebSearch.search_tool self)
             (if String.eqb (WebSearch.search_provider self) "tavily"
              then WebSearch.QueryDict query None else WebSearch.Query query)],
     self).
Proof.
  intros H.
  cbv [WebSearch.search WebSearch.invoke try_except bind get emit extern reply ret].
  destruct (String.eqb (WebSearch.search_provider self) "tavily");
    rewrite H; reflexivity.
Qed.

Lemma search_catches_provider_exception_witness :
  WebSearch.search Demo.web "down" 5 []
    (WebSearch.create_web_search_system "gsk" None "duckduckgo" "llama-3.3-70b-versatile") =
    (Return (WebSearch.PyStr "Search error: Ratelimit"),
     [WebSearch.ToolInvoke WebSearch.DuckDuckGoSearchRun (WebSearch.Query "down")],
     WebSearch.create_web_search_system "gsk" None "duckduckgo" "llama-3.3-70b-versatile").
Proof.
  apply (search_catches_provider_exception Demo.web "down" 5 []
           (WebSearch.create_web_search_system "gsk" None "duckduckgo"
              "llama-3.3-70b-versatile")
           (OtherException "DuckDuckGoSearchException" "Ratelimit")).
  reflexivity.
Defined.

Lemma append_assoc (a b c : string) : (a +:+ b) +:+ c = a +:+ (b +:+ c).
Proof.
  induction a as [|x a IH]; [reflexivity|].
  change (String x ((a +:+ b) +:+ c) = String x (a +:+ b +:+ c)).
  now rewrite IH.
Qed.

(** C5: with the provider "duckduckgo" and no [domains] argument, the
    one request [medical_search] sends to the search tool has as its
    query text the user's query, a space, and the seven default domains
    as [site:] terms separated by " OR "; each [site:<domain>] occurs in
    that text. *)
Theorem medical_search_site_qualifiers
    (env : WebSearch.Provider) (query : string)
    (l : list WebSearch.event) (self : WebSearch.WebSearchSystem) :
  WebSearch.search_provider self = "duckduckgo" ->
  exists request result,
    WebSearch.medical_search env query None l self =
      (Return result,
       l ++ [WebSearch.ToolInvoke (WebSearch.search_tool self) (WebSearch.Query request)],
       self) /\
    request =
      query +:+ " site:pubmed.ncbi.nlm.nih.gov OR site:mayoclinic.org OR site:who.int"
            +:+ " OR site:cdc.gov OR site:nih.gov OR site:webmd.com"
            +:+ " OR site:medicalnewstoday.com" /\
    request =
      query +:+ " " +:+
      Py.join " OR " (map (fun domain => "site:" +:+ domain) WebSearch.default_domains) /\
    forall domain, In domain WebSearch.default_domains ->
      Py.contains ("site:" +:+ domain) request = true.
Proof.
  intros Hp.
  exists (query +:+ " " +:+
          Py.join " OR " (map (fun domain => "site:" +:+ domain) WebSearch.default_domains)).
  assert (Hrun : exists result,
    WebSearch.medical_search env query None l self =
      (Return result,
       l ++ [WebSearch.ToolInvoke (WebSearch.search_tool self)
               (WebSearch.Query (query +:+ " " +:+
                  Py.join " OR " (map (fun domain => "site:" +:+ domain)
                                    WebSearch.default_domains)))],
       self)).
  { cbv [WebSearch.medical_search WebSearch.search WebSearch.invoke try_except
         bind get emit extern reply ret].
    rewrite Hp. cbn [String.eqb Ascii.eqb Bool.eqb andb default].
    rewrite Hp. cbn [String.eqb Ascii.eqb Bool.eqb].
    rewrite append_assoc.
    destruct (WebSearch.tool_invoke env _ _) as [v | e]; eexists; reflexivity. }
  destruct Hrun as [result Hrun]. exists result.
  split; [exact Hrun|]. split; [reflexivity|]. split; [reflexivity|].
  intros domain Hin. apply contains_app_r.
  cbv [WebSearch.default_domains In] in Hin.
  repeat (destruct Hin as [<- | Hin]; [vm_compute; reflexivity|]).
  destruct Hin.
Qed.

Lemma medical_search_site_qualifiers_witness :
  exists result,
    WebSearch.medical_search Demo.web "diabetes diet" None []
      (WebSearch.create_web_search_system "gsk" None "duckduckgo"
         "llama-3.3-70b-versatile") =
      (Return result,
       [WebSearch.ToolInvoke WebSearch.DuckDuckGoSearchRun
          (WebSearch.Query
             ("diabetes diet site:pubmed.ncbi.nlm.nih.gov OR site:mayoclinic.org"
              +:+ " OR site:who.int OR site:cdc.gov OR site:nih.gov OR site:webmd.com"
              +:+ " OR site:medicalnewstoday.com"))],
       WebSearch.create_web_search_system "gsk" None "duckduckgo"
         "llama-3.3-70b-versatile").
Proof.
  destruct (medical_search_site_qualifiers Demo.web "diabetes diet" []
              (WebSearch.create_web_search_system "gsk" None "duckduckgo"
                 "llama-3.3-70b-versatile") eq_refl)
    as (request & result & Hrun & Hreq & _).
  exists result. rewrite Hrun, Hreq. reflexivity.
Defined.

(** ** pdf_rag.py: the processing pipeline *)

(** One successful run of [process_pdf]: the store and the retrieval
    chain are made from the passages of the document just loaded, of
    which there is at least one. *)
Lemma process_pdf_succeeds
    (env : PdfRag.Provider) (pdf_path : string) (chunk_size chunk_overlap k : Z)
    (l : list PdfRag.event) (self : PdfRag.PDFRAGSystem)
    (documents splits : list PdfRag.Document) :
  PdfRag.pdf_loader env pdf_path = Return documents ->
  PdfRag.text_splitter env chunk_size chunk_overlap documents = Return splits ->
  PdfRag.embed_documents env splits = Return tt ->
  splits <> [] ->
  PdfRag.process_pdf env pdf_path chunk_size chunk_overlap k l self =
    (Return tt,
     l ++ [PdfRag.PdfLoad pdf_path; PdfRag.EmbedDocuments splits],
     {| PdfRag.api_key := PdfRag.api_key self;
        PdfRag.model := PdfRag.model self;
        PdfRag.vectorstore := Some {| PdfRag.docstore := splits |};
        PdfRag.retrieval_chain :=
          Some {| PdfRag.retriever_store := {| PdfRag.docstore := splits |};
                  PdfRag.retriever_k := k |} |}).
Proof.
  intros Hl Hs He Hne.
  cbv [PdfRag.process_pdf PdfRag.load_pdf PdfRag.split_documents
       PdfRag.create_vectorstore PdfRag.from_documents PdfRag.setup_retrieval_chain
       bind get put emit extern reply ret raise].
  rewrite Hl, Hs, He. destruct splits as [|split splits]; [contradiction|].
  cbn [PdfRag.vectorstore PdfRag.api_key PdfRag.model].
  rewrite <- app_assoc. reflexivity.
Qed.

(** A run of [process_pdf] on a document that yields no passage: the
    loader, the splitter and [embed_documents] return, then
    [FAISS.from_documents] raises and the instance is left as it was. *)
Lemma process_pdf_no_passage
    (env : PdfRag.Provider) (pdf_path : string) (chunk_size chunk_overlap k : Z)
    (l : list PdfRag.event) (self : PdfRag.PDFRAGSystem)
    (documents : list PdfRag.Document) :
  PdfRag.pdf_loader env pdf_path = Return documents ->
  PdfRag.text_splitter env chunk_size chunk_overlap documents = Return [] ->
  PdfRag.embed_documents env [] = Return tt ->
  PdfRag.process_pdf env pdf_path chunk_size chunk_overlap k l self =
    (Raise (OtherException "IndexError" "list index out of range"),
     l ++ [PdfRag.PdfLoad pdf_path; PdfRag.EmbedDocuments []], self).
Proof.
  intros Hl Hs He.
  cbv [PdfRag.process_pdf PdfRag.load_pdf PdfRag.split_documents
       PdfRag.create_vectorstore PdfRag.from_documents PdfRag.setup_retrieval_chain
       bind get put emit extern reply ret raise].
  rewrite Hl, Hs, He, <- app_assoc. reflexivity.
Qed.

(** The store after a successful run never keeps passages of an earlier
    run in front of the new ones. *)
Lemma process_pdf_not_accumulating
    (env : PdfRag.Provider) (pdf_path : string) (chunk_size chunk_overlap k : Z)
    (l : list PdfRag.event) (self : PdfRag.PDFRAGSystem)
    (documents splits earlier : list PdfRag.Document) :
  PdfRag.pdf_loader env pdf_path = Return documents ->
  PdfRag.text_splitter env chunk_size chunk_overlap documents = Return splits ->
  PdfRag.embed_documents env splits = Return tt ->
  splits <> [] ->
  earlier <> [] ->
  PdfRag.vectorstore
    (store_of (PdfRag.process_pdf env pdf_path chunk_size chunk_overlap k l self)) <>
    Some {| PdfRag.docstore := earlier ++ splits |}.
Proof.
  intros Hl Hs He Hsome Hne.
  rewrite (process_pdf_succeeds env pdf_path chunk_size chunk_overlap k l self
             documents splits Hl Hs He Hsome).
  cbn [store_of snd PdfRag.vectorstore]. intros H.
  injection H as H. apply (f_equal (@List.length _)) in H.
  rewrite length_app in H. destruct earlier; [contradiction | simpl in H; lia].
Qed.

(** C9, as the code has it: when a second document is processed on an
    instance that has already processed a first one, and the second
    document yields at least one passage, the store and the retrieval
    chain the instance holds afterwards are built over the passages of
    the second document only; what the first run left behind plays no
    part.  When the second document yields no passage,
    [FAISS.from_documents] raises [IndexError] and the instance keeps
    what the first run left. *)
Theorem process_pdf_replaces_index
    (env : PdfRag.Provider) (first second : string) (chunk_size chunk_overlap k : Z)
    (l : list PdfRag.event) (self : PdfRag.PDFRAGSystem)
    (documents splits : list PdfRag.Document) :
  PdfRag.pdf_loader env second = Return documents ->
  PdfRag.text_splitter env chunk_size chunk_overlap documents = Return splits ->
  PdfRag.embed_documents env splits = Return tt ->
  let r1 := PdfRag.process_pdf env first chunk_size chunk_overlap k l self in
  let r2 := PdfRag.process_pdf env second chunk_size chunk_overlap k
              (log_of r1) (store_of r1) in
  (splits <> [] ->
   outcome_of r2 = Return tt /\
   PdfRag.vectorstore (store_of r2) = Some {| PdfRag.docstore := splits |} /\
   PdfRag.retrieval_chain (store_of r2) =
     Some {| PdfRag.retriever_store := {| PdfRag.docstore := splits |};
             PdfRag.retriever_k := k |}) /\
  (splits = [] ->
   outcome_of r2 = Raise (OtherException "IndexError" "list index out of range") /\
   store_of r2 = store_of r1).
Proof.
  intros Hl Hs He r1 r2. subst r2. split.
  - intros Hsome.
    rewrite (process_pdf_succeeds env second chunk_size chunk_overlap k
               (log_of r1) (store_of r1) documents splits Hl Hs He Hsome).
    repeat split.
  - intros ->.
    rewrite (process_pdf_no_passage env second chunk_size chunk_overlap k
               (log_of r1) (store_of r1) documents Hl Hs He).
    split; reflexivity.
Qed.

Lemma process_pdf_replaces_index_witness :
  let r1 := PdfRag.process_pdf Demo.pdf "a.pdf" 1000 200 5 []
              (PdfRag.create_pdf_rag_system "key") in
  let r2 := PdfRag.process_pdf Demo.pdf "b.pdf" 1000 200 5 (log_of r1) (store_of r1) in
  let r3 := PdfRag.process_pdf Demo.pdf "blank.pdf" 1000 200 5 (log_of r1) (store_of r1) in
  outcome_of r1 = Return tt /\
  PdfRag.vectorstore (store_of r1) = Some {| PdfRag.docstore := [Demo.doc "alpha"] |} /\
  (outcome_of r2 = Return tt /\
   PdfRag.vectorstore (store_of r2) = Some {| PdfRag.docstore := [Demo.doc "beta"] |}) /\
  (outcome_of r3 = Raise (OtherException "IndexError" "list index out of range") /\
   PdfRag.vectorstore (store_of r3) = Some {| PdfRag.docstore := [Demo.doc "alpha"] |}).
Proof.
  split; [reflexivity|]. split; [reflexivity|]. split.
  - destruct (process_pdf_replaces_index Demo.pdf "a.pdf" "b.pdf" 1000 200 5 []
                (PdfRag.create_pdf_rag_system "key")
                [Demo.doc "beta"] [Demo.doc "beta"] eq_refl eq_refl eq_refl)
      as (Hsome & _).
    destruct Hsome as (Hout & Hstore & _); [discriminate|].
    split; [exact Hout | exact Hstore].
  - destruct (process_pdf_replaces_index Demo.pdf "a.pdf" "blank.pdf" 1000 200 5 []
                (PdfRag.create_pdf_rag_system "key") [] [] eq_refl eq_refl eq_refl)
      as (_ & Hnone).
    destruct Hnone as (Hout & Hstore); [reflexivity|].
    split; [exact Hout | rewrite Hstore; reflexivity].
Defined.

(** C9 as stated fails: after "a.pdf" and then "b.pdf" are processed on
    one instance, the store is not the one built over the passages of
    both documents. *)
Lemma process_pdf_second_not_concatenation :
  let r1 := PdfRag.process_pdf Demo.pdf "a.pdf" 1000 200 5 []
              (PdfRag.create_pdf_rag_system "key") in
  let r2 := PdfRag.process_pdf Demo.pdf "b.pdf" 1000 200 5 (log_of r1) (store_of r1) in
  outcome_of r1 = Return tt /\
  PdfRag.vectorstore (store_of r1) = Some {| PdfRag.docstore := [Demo.doc "alpha"] |} /\
  outcome_of r2 = Return tt /\
  PdfRag.vectorstore (store_of r2) <>
    Some {| PdfRag.docstore := [Demo.doc "alpha"] ++ [Demo.doc "beta"] |}.
Proof.
  split; [reflexivity|]. split; [reflexivity|]. split; [reflexivity|].
  intros H. vm_compute in H. discriminate H.
Qed.

(** ** database.py *)

Lemma executemany_length (rows : list (list Database.sqlval)) (t : Database.table) :
  List.length (Database.tbl_rows (Database.executemany t rows)) =
  List.length (Database.tbl_rows t) + List.length rows.
Proof.
  unfold Database.executemany. revert t.
  induction rows as [|row rows IH]; intros t; simpl.
  - lia.
  - rewrite IH. unfold Database.insert_row. simpl. rewrite length_app. simpl. lia.
Qed.

Lemma tables_created_rows (d : Database.db) :
  Database.rows_of (Database.patients (Database.tables_created d)) =
    Database.rows_of (Database.patients d) /\
  Database.rows_of (Database.medical_records (Database.tables_created d)) =
    Database.rows_of (Database.medical_records d) /\
  Database.rows_of (Database.appointments (Database.tables_created d)) =
    Database.rows_of (Database.appointments d).
Proof.
  destruct d as [[p|] [m|] [a|]]; repeat split.
Qed.

Lemma tables_created_existing (d : Database.db) :
  is_Some (Database.patients d) ->
  is_Some (Database.medical_records d) ->
  is_Some (Database.appointments d) ->
  Database.tables_created d = d.
Proof.
  destruct d as [p m a]. intros [? Hp] [? Hm] [? Ha]. cbn in Hp, Hm, Ha. subst.
  reflexivity.
Qed.

(** The guard after [SELECT COUNT( * ) FROM patients]. *)
Lemma create_patient_database_guard
    {R : Type} (rnd : Database.Random R) (sq : Database.Sqlite)
    (d : Database.db) (r : R) :
  0 < List.length (Database.rows_of (Database.patients d)) ->
  Database.create_patient_database rnd sq d r =
    ("Database already exists with data", Database.tables_created d, r).
Proof.
  intros Hcount. unfold Database.create_patient_database.
  destruct (tables_created_rows d) as (Hp & _). rewrite Hp.
  destruct (0 <? Z.of_nat (List.length (Database.rows_of (Database.patients d))))%Z
    eqn:Hlt; [reflexivity|].
  apply Z.ltb_ge in Hlt. lia.
Qed.

(** C10: on a database whose [patients] table holds at least one row,
    [create_patient_database] returns "Database already exists with
    data", draws no random value and inserts nothing: the rows of the
    three tables are the rows they had, and when the three tables exist
    (as after any earlier call) the database is exactly the one the
    call started from. *)
Theorem create_patient_database_already_populated
    {R : Type} (rnd : Database.Random R) (sq : Database.Sqlite)
    (d : Database.db) (r : R) (t : Database.table) :
  Database.patients d = Some t ->
  Database.tbl_rows t <> [] ->
  exists d',
    Database.create_patient_database rnd sq d r =
      ("Database already exists with data", d', r) /\
    Database.patients d' = Database.patients d /\
    Database.rows_of (Database.medical_records d') =
      Database.rows_of (Database.medical_records d) /\
    Database.rows_of (Database.appointments d') =
      Database.rows_of (Database.appointments d) /\
    (is_Some (Database.medical_records d) ->
     is_Some (Database.appointments d) -> d' = d).
Proof.
  intros Hp Hrows. exists (Database.tables_created d).
  destruct (tables_created_rows d) as (_ & Hm & Ha).
  split; [|split; [|split; [|split]]].
  - apply create_patient_database_guard. rewrite Hp. cbn [Database.rows_of].
    destruct (Database.tbl_rows t); [contradiction | simpl; lia].
  - unfold Database.tables_created. cbn [Database.patients]. rewrite Hp. reflexivity.
  - exact Hm.
  - exact Ha.
  - intros Hsm Hsa. apply tables_created_existing; [rewrite Hp; eexists; reflexivity | |];
      assumption.
Qed.

Lemma create_patient_database_already_populated_witness :
  Database.create_patient_database Demo.lowest Demo.sqlite Demo.seeded 0 =
    ("Database already exists with data", Demo.seeded, 0).
Proof.
  destruct (create_patient_database_already_populated Demo.lowest Demo.sqlite
              Demo.seeded 0 {| Database.tbl_rows := [[Database.SqlInt 1;
                                                     Database.SqlText "Rajesh"]];
                               Database.tbl_seq := 1 |} eq_refl)
    as (d' & Hrun & _ & _ & _ & Hsame).
  - discriminate.
  - rewrite Hrun. rewrite Hsame; [reflexivity | eexists; reflexivity | eexists; reflexivity].
Defined.

(** What any call leaves behind: the three tables exist and [patients]
    is not empty. *)
Lemma create_patient_database_result
    {R : Type} (rnd : Database.Random R) (sq : Database.Sqlite)
    (d : Database.db) (r : R) :
  let d1 := snd (fst (Database.create_patient_database rnd sq d r)) in
  (Database.create_patient_database rnd sq d r =
     ("Database already exists with data", Database.tables_created d,  r) \/
   20 <= List.length (Database.rows_of (Database.patients d1))) /\
  0 < List.length (Database.rows_of (Database.patients d1)) /\
  is_Some (Database.patients d1) /\
  is_Some (Database.medical_records d1) /\
  is_Some (Database.appointments d1).
Proof.
  unfold Database.create_patient_database.
  destruct (0 <? Z.of_nat (List.length (Database.rows_of
              (Database.patients (Database.tables_created d)))))%Z eqn:Hcount.
  - cbn [fst snd]. split; [left; reflexivity|].
    split; [apply Z.ltb_lt in Hcount; lia|].
    destruct d as [[p|] [m|] [a|]]; repeat split; eexists; reflexivity.
  - destruct (Database.for_patients rnd (Database.medical_record rnd sq) 2 5
                Database.patient_ids [] r) as [records r2].
    destruct (Database.for_patients rnd (Database.appointment rnd sq) 1 4
                Database.patient_ids [] r2) as [appts r3].
    cbn [fst snd Database.patients Database.medical_records Database.appointments
         Database.rows_of].
    rewrite executemany_length, length_map.
    change (List.length Database.patients_data) with 20.
    split; [right; lia|]. split; [lia|].
    repeat split; eexists; reflexivity.
Qed.

(** X5: A first call on any database followed by a second one: the second
    call reports existing data and changes nothing. *)
Lemma create_patient_database_twice
    {R : Type} (rnd : Database.Random R) (sq : Database.Sqlite)
    (d : Database.db) (r : R) :
  let first := Database.create_patient_database rnd sq d r in
  Database.create_patient_database rnd sq (snd (fst first)) (snd first) =
    ("Database already exists with data", snd (fst first), snd first).
Proof.
  intros first.
  destruct (create_patient_database_result rnd sq d r) as (_ & Hpos & Hp & Hm & Ha).
  fold first in Hpos, Hp, Hm, Ha.
  rewrite (create_patient_database_guard rnd sq _ _ Hpos).
  rewrite (tables_created_existing _ Hp Hm Ha). reflexivity.
Qed.

(** * Further properties *)

(** ** database.py: seeding *)

Lemma max_rowid_nonneg (rows : list (list Database.sqlval)) :
  (0 <= Database.max_rowid rows)%Z.
Proof.
  induction rows as [|row rows IH]; simpl; lia.
Qed.

Lemma max_rowid_app (a b : list (list Database.sqlval)) :
  Database.max_rowid (a ++ b) = Z.max (Database.max_rowid a) (Database.max_rowid b).
Proof.
  induction a as [|row a IH]; simpl.
  - pose proof (max_rowid_nonneg b). lia.
  - rewrite IH. lia.
Qed.

Lemma high_water_nonneg (t : Database.table) : (0 <= Database.high_water t)%Z.
Proof.
  unfold Database.high_water. pose proof (max_rowid_nonneg (Database.tbl_rows t)). lia.
Qed.

Lemma insert_row_high_water (t : Database.table) (fields : list Database.sqlval) :
  Database.tbl_rows (Database.insert_row t fields) =
    Database.tbl_rows t ++ [Database.SqlInt (Database.high_water t + 1) :: fields] /\
  Database.high_water (Database.insert_row t fields) = (Database.high_water t + 1)%Z.
Proof.
  split; [reflexivity|].
  unfold Database.high_water, Database.insert_row.
  cbn [Database.tbl_rows Database.tbl_seq].
  rewrite max_rowid_app. simpl.
  pose proof (max_rowid_nonneg (Database.tbl_rows t)). lia.
Qed.

(** [executemany] appends the rows in order, keyed from the high-water
    mark upwards. *)
Lemma executemany_rows (rows : list (list Database.sqlval)) (t : Database.table) :
  Database.tbl_rows (Database.executemany t rows) =
    Database.tbl_rows t ++ Database.numbered (Database.high_water t) rows /\
  Database.high_water (Database.executemany t rows) =
    (Database.high_water t + Z.of_nat (List.length rows))%Z.
Proof.
  unfold Database.executemany. revert t.
  induction rows as [|fields rows IH]; intros t.
  - simpl. rewrite app_nil_r. split; [reflexivity | lia].
  - cbn [fold_left Database.numbered List.length].
    destruct (IH (Database.insert_row t fields)) as [Hrows Hhw].
    destruct (insert_row_high_water t fields) as [Hr1 Hh1].
    rewrite Hrows, Hhw, Hr1, Hh1. rewrite <- app_assoc. split; [reflexivity | lia].
Qed.

Lemma numbered_length (n : Z) (rows : list (list Database.sqlval)) :
  List.length (Database.numbered n rows) = List.length rows.
Proof.
  revert n. induction rows as [|f rows IH]; intros n; simpl; [reflexivity|].
  now rewrite IH.
Qed.

Lemma numbered_In (n : Z) (rows : list (list Database.sqlval)) (row : list Database.sqlval) :
  In row (Database.numbered n rows) ->
  exists id fields, row = Database.SqlInt id :: fields /\ In fields rows /\
                    (n < id <= n + Z.of_nat (List.length rows))%Z.
Proof.
  revert n. induction rows as [|f rows IH]; intros n; simpl; [tauto|].
  intros [<- | Hin].
  - exists (n + 1)%Z, f. split; [reflexivity|]. split; [now left | lia].
  - destruct (IH _ Hin) as (id & fields & -> & Hf & Hid).
    exists id, fields. split; [reflexivity|]. split; [now right | lia].
Qed.

Lemma numbered_rowids (n : Z) (rows : list (list Database.sqlval)) :
  map Database.rowid_of (Database.numbered n rows) =
  map (fun i => (n + Z.of_nat i)%Z) (seq 1 (List.length rows)).
Proof.
  revert n. induction rows as [|f rows IH]; intros n; [reflexivity|].
  cbn [Database.numbered map List.length seq Database.rowid_of].
  f_equal.
  rewrite IH, <- (seq_shift (List.length rows) 1), map_map.
  apply map_ext. intros i. lia.
Qed.

(** *** The two generation loops *)

Section Loops.
Context {R : Type} (rnd : Database.Random R).

Lemma repeat_draw_spec (P : list Database.sqlval -> Prop)
    (body : R -> list Database.sqlval * R) :
  (forall r, P (fst (body r))) ->
  forall n acc r,
    exists new,
      fst (Database.repeat_draw body n acc r) = acc ++ new /\
      List.length new = n /\ Forall P new.
Proof.
  intros Hbody. induction n as [|n IH]; intros acc r.
  - exists []. simpl. rewrite app_nil_r. repeat split. constructor.
  - cbn [Database.repeat_draw].
    pose proof (Hbody r) as Hrow. destruct (body r) as [row r'].
    destruct (IH (acc ++ [row]) r') as (new & Hnew & Hlen & HP).
    exists (row :: new). rewrite Hnew, <- app_assoc.
    split; [reflexivity|]. split; [simpl; lia|]. constructor; assumption.
Qed.

Lemma for_patients_spec (P : list Database.sqlval -> Prop)
    (body : Z -> R -> list Database.sqlval * R) (lo hi : Z) (ids : list Z) :
  (forall id r, In id ids -> P (fst (body id r))) ->
  forall acc r,
    exists new,
      fst (Database.for_patients rnd body lo hi ids acc r) = acc ++ new /\
      Forall P new /\
      (Database.random_ok rnd -> (0 <= lo <= hi)%Z ->
       (lo * Z.of_nat (List.length ids) <= Z.of_nat (List.length new)
        <= hi * Z.of_nat (List.length ids))%Z).
Proof.
  induction ids as [|id ids IH]; intros Hbody acc r.
  - exists []. simpl. rewrite app_nil_r. split; [reflexivity|].
    split; [constructor | lia].
  - cbn [Database.for_patients].
    destruct (Database.randint rnd lo hi r) as [n r1] eqn:Hn.
    destruct (repeat_draw_spec P (body id) (fun r => Hbody id r (or_introl eq_refl))
                (Z.to_nat n) acc r1) as (new1 & Hnew1 & Hlen1 & HP1).
    destruct (Database.repeat_draw (body id) (Z.to_nat n) acc r1) as [acc1 r2].
    cbn [fst] in Hnew1. subst acc1.
    destruct (IH (fun id' r' Hin => Hbody id' r' (or_intror Hin)) (acc ++ new1) r2)
      as (new2 & Hnew2 & HP2 & Hlen2).
    exists (new1 ++ new2). rewrite Hnew2, <- app_assoc.
    split; [reflexivity|]. split; [apply Forall_app; split; assumption|].
    intros Hok Hrange. specialize (Hlen2 Hok Hrange).
    destruct Hok as [Hint _]. specialize (Hint lo hi r (proj2 Hrange)).
    rewrite Hn in Hint. cbn [fst] in Hint.
    rewrite length_app, Hlen1. cbn [List.length]. lia.
Qed.

Lemma choice_In {A : Type} (d : A) (l : list A) (r : R) :
  Database.random_ok rnd -> l <> [] -> In (fst (Database.choice rnd d l r)) l.
Proof.
  intros [_ Hc] Hl. unfold Database.choice.
  assert (Hpos : 0 < List.length l) by (destruct l; [contradiction | simpl; lia]).
  specialize (Hc (List.length l) r Hpos).
  destruct (Database.choice_index rnd (List.length l) r) as [i r']. cbn [fst] in *.
  apply nth_In. exact Hc.
Qed.

Lemma medical_record_fields (sq : Database.Sqlite) (patient_id : Z) (r : R) :
  Database.random_ok rnd -> In patient_id Database.patient_ids ->
  Database.medical_record_ok (fst (Database.medical_record rnd sq patient_id r)).
Proof.
  intros Hok Hid. unfold Database.medical_record.
  pose proof (choice_In "" Database.diagnoses r Hok ltac:(discriminate)) as Hd.
  destruct (Database.choice rnd "" Database.diagnoses r) as [diagnosis r1].
  pose proof (choice_In "" Database.medications r1 Hok ltac:(discriminate)) as Hm.
  destruct (Database.choice rnd "" Database.medications r1) as [medication r2].
  pose proof (choice_In "" Database.doctors r2 Hok ltac:(discriminate)) as Hdoc.
  destruct (Database.choice rnd "" Database.doctors r2) as [doctor r3].
  destruct (Database.randint rnd 1 365 r3) as [d1 r4].
  destruct (Database.randint rnd 30 120 r4) as [d2 r5].
  cbn [fst] in Hd, Hm, Hdoc.
  assert (Hflag : forall (key : string) (r : R),
            let p := if Py.contains key diagnosis then (1%Z, r)
                     else Database.choice rnd 0%Z [0; 0; 0; 1]%Z r in
            (fst p = 0 \/ fst p = 1)%Z /\ (Py.contains key diagnosis = true -> fst p = 1%Z)).
  { intros key r'. cbv zeta. destruct (Py.contains key diagnosis).
    - split; [right; reflexivity | reflexivity].
    - split; [|discriminate].
      pose proof (choice_In 0%Z [0; 0; 0; 1]%Z r' Hok ltac:(discriminate)) as Hin.
      simpl in Hin. lia. }
  destruct (Hflag "Diabetes" r5) as [Hdia Hdia1].
  destruct (if Py.contains "Diabetes" diagnosis then (1%Z, r5)
            else Database.choice rnd 0%Z [0; 0; 0; 1]%Z r5) as [is_diabetic r6].
  destruct (Hflag "Hypertension" r6) as [Hbp Hbp1].
  destruct (if Py.contains "Hypertension" diagnosis then (1%Z, r6)
            else Database.choice rnd 0%Z [0; 0; 0; 1]%Z r6) as [has_bp r7].
  destruct (Database.random_above_03 rnd r7) as [above r8].
  cbn [fst] in *.
  exists patient_id, diagnosis, medication, doctor, (Database.date_after sq (- d1)),
         (Database.date_after sq d2), is_diabetic, has_bp,
         (if above then "None" else "Penicillin").
  split; [reflexivity|].
  repeat (split; [assumption|]).
  split; [intros ->; apply Hdia1; reflexivity|].
  split; [intros ->; apply Hbp1; reflexivity|].
  destruct above; [left | right]; reflexivity.
Qed.

Lemma appointment_fields (sq : Database.Sqlite) (patient_id : Z) (r : R) :
  Database.random_ok rnd -> In patient_id Database.patient_ids ->
  Database.appointment_ok (fst (Database.appointment rnd sq patient_id r)).
Proof.
  intros Hok Hid. unfold Database.appointment.
  destruct (Database.randint rnd 1 90 r) as [d r1].
  pose proof (choice_In "" Database.doctors r1 Hok ltac:(discriminate)) as Hdoc.
  destruct (Database.choice rnd "" Database.doctors r1) as [doctor r2].
  pose proof (choice_In "" Database.times r2 Hok ltac:(discriminate)) as Ht.
  destruct (Database.choice rnd "" Database.times r2) as [time r3].
  pose proof (choice_In "" Database.departments r3 Hok ltac:(discriminate)) as Hdep.
  destruct (Database.choice rnd "" Database.departments r3) as [department r4].
  pose proof (choice_In "" Database.statuses r4 Hok ltac:(discriminate)) as Hs.
  destruct (Database.choice rnd "" Database.statuses r4) as [status r5].
  cbn [fst] in *.
  exists patient_id, doctor, (Database.date_after sq d), time, department, status.
  repeat split; assumption.
Qed.

(** The patient a generated row refers to is the loop variable. *)
Lemma medical_record_patient (sq : Database.Sqlite) (patient_id : Z) (r : R) :
  exists rest, fst (Database.medical_record rnd sq patient_id r) =
               Database.SqlInt patient_id :: rest.
Proof.
  unfold Database.medical_record.
  repeat match goal with
         | |- context [let '(_, _) := ?c in _] => destruct c
         end.
  eexists. reflexivity.
Qed.

Lemma appointment_patient (sq : Database.Sqlite) (patient_id : Z) (r : R) :
  exists rest, fst (Database.appointment rnd sq patient_id r) =
               Database.SqlInt patient_id :: rest.
Proof.
  unfold Database.appointment.
  repeat match goal with
         | |- context [let '(_, _) := ?c in _] => destruct c
         end.
  eexists. reflexivity.
Qed.

End Loops.

Lemma default_table_rows (t : option Database.table) :
  Database.tbl_rows (default Database.empty_table (Database.create_table_if_not_exists t)) =
    Database.rows_of t /\
  Database.high_water (default Database.empty_table (Database.create_table_if_not_exists t)) =
    Database.table_high_water t.
Proof.
  destruct t; split; reflexivity.
Qed.

(** What a call does when [patients] holds no row. *)
Lemma create_patient_database_new_rows
    {R : Type} (rnd : Database.Random R) (sq : Database.Sqlite)
    (d : Database.db) (r : R) :
  Database.rows_of (Database.patients d) = [] ->
  exists d' r' records appts,
    Database.create_patient_database rnd sq d r =
      ("✅ Database created successfully with 20 patients and medical records!", d', r') /\
    Database.rows_of (Database.patients d') =
      Database.numbered (Database.table_high_water (Database.patients d))
        (Database.seed_rows sq) /\
    Database.rows_of (Database.medical_records d') =
      Database.rows_of (Database.medical_records d) ++
      Database.numbered (Database.table_high_water (Database.medical_records d)) records /\
    Database.rows_of (Database.appointments d') =
      Database.rows_of (Database.appointments d) ++
      Database.numbered (Database.table_high_water (Database.appointments d)) appts /\
    Forall (fun f => exists p rest, f = Database.SqlInt p :: rest /\
                                    In p Database.patient_ids) (records ++ appts) /\
    (Database.random_ok rnd ->
     Forall Database.medical_record_ok records /\
     Forall Database.appointment_ok appts /\
     40 <= List.length records <= 100 /\
     20 <= List.length appts <= 80).
Proof.
  intros Hempty.
  destruct (for_patients_spec rnd
              (fun f => (exists p rest, f = Database.SqlInt p :: rest /\
                                        In p Database.patient_ids) /\
                        (Database.random_ok rnd -> Database.medical_record_ok f))
              (Database.medical_record rnd sq) 2 5 Database.patient_ids) with (acc := @nil (list Database.sqlval)) (r := r)
    as (records & Hrec & HPrec & Hlenrec).
  { intros id r0 Hin. split.
    - destruct (medical_record_patient rnd sq id r0) as [rest ->]. eauto.
    - intros Hok. apply medical_record_fields; assumption. }
  destruct (Database.for_patients rnd (Database.medical_record rnd sq) 2 5
              Database.patient_ids [] r) as [records' r2] eqn:Hloop1.
  cbn [fst app] in Hrec. subst records'.
  destruct (for_patients_spec rnd
              (fun f => (exists p rest, f = Database.SqlInt p :: rest /\
                                        In p Database.patient_ids) /\
                        (Database.random_ok rnd -> Database.appointment_ok f))
              (Database.appointment rnd sq) 1 4 Database.patient_ids) with (acc := @nil (list Database.sqlval)) (r := r2)
    as (appts & Happ & HPapp & Hlenapp).
  { intros id r0 Hin. split.
    - destruct (appointment_patient rnd sq id r0) as [rest ->]. eauto.
    - intros Hok. apply appointment_fields; assumption. }
  destruct (Database.for_patients rnd (Database.appointment rnd sq) 1 4
              Database.patient_ids [] r2) as [appts' r3] eqn:Hloop2.
  cbn [fst app] in Happ. subst appts'.
  eexists _, r3, records, appts.
  split.
  { unfold Database.create_patient_database.
    destruct (tables_created_rows d) as (Hp & _). rewrite Hp, Hempty.
    cbn [List.length Z.of_nat Z.ltb Z.compare].
    rewrite Hloop1, Hloop2. reflexivity. }
  cbn [Database.patients Database.medical_records Database.appointments
       Database.rows_of Database.tables_created].
  split.
  { destruct (executemany_rows (Database.seed_rows sq)
                (default Database.empty_table
                   (Database.create_table_if_not_exists (Database.patients d))))
      as [Hrows _].
    destruct (default_table_rows (Database.patients d)) as [Hr Hh].
    unfold Database.seed_rows in Hrows |- *.
    rewrite Hrows, Hr, Hh, Hempty. reflexivity. }
  split.
  { destruct (executemany_rows records
                (default Database.empty_table
                   (Database.create_table_if_not_exists (Database.medical_records d))))
      as [Hrows _].
    destruct (default_table_rows (Database.medical_records d)) as [Hr Hh].
    rewrite Hrows, Hr, Hh. reflexivity. }
  split.
  { destruct (executemany_rows appts
                (default Database.empty_table
                   (Database.create_table_if_not_exists (Database.appointments d))))
      as [Hrows _].
    destruct (default_table_rows (Database.appointments d)) as [Hr Hh].
    rewrite Hrows, Hr, Hh. reflexivity. }
  split.
  { apply Forall_app. split.
    - eapply Forall_impl; [exact HPrec|]. intros f [H _]. exact H.
    - eapply Forall_impl; [exact HPapp|]. intros f [H _]. exact H. }
  intros Hok.
  split; [eapply Forall_impl; [exact HPrec|]; intros f [_ H]; exact (H Hok)|].
  split; [eapply Forall_impl; [exact HPapp|]; intros f [_ H]; exact (H Hok)|].
  specialize (Hlenrec Hok ltac:(lia)). specialize (Hlenapp Hok ltac:(lia)).
  change (List.length Database.patient_ids) with 20 in Hlenrec, Hlenapp.
  lia.
Qed.

(** X1: On a database whose [patients] table is missing or empty,
    [create_patient_database] reports success and leaves exactly the
    twenty seed patients in [patients], in the order of
    [patients_data], keyed upwards from the table's high-water mark;
    the rows [medical_records] and [appointments] already held stay in
    front of the new ones. *)
Theorem create_patient_database_seeds_patients
    {R : Type} (rnd : Database.Random R) (sq : Database.Sqlite)
    (d : Database.db) (r : R) :
  Database.rows_of (Database.patients d) = [] ->
  exists d' r',
    Database.create_patient_database rnd sq d r =
      ("✅ Database created successfully with 20 patients and medical records!", d', r') /\
    Database.rows_of (Database.patients d') =
      Database.numbered (Database.table_high_water (Database.patients d))
        (Database.seed_rows sq) /\
    List.length (Database.rows_of (Database.patients d')) = 20 /\
    (exists new, Database.rows_of (Database.medical_records d') =
                 Database.rows_of (Database.medical_records d) ++ new) /\
    (exists new, Database.rows_of (Database.appointments d') =
                 Database.rows_of (Database.appointments d) ++ new).
Proof.
  intros Hempty.
  destruct (create_patient_database_new_rows rnd sq d r Hempty)
    as (d' & r' & records & appts & Hrun & Hp & Hm & Ha & _).
  exists d', r'. split; [exact Hrun|]. split; [exact Hp|].
  split; [rewrite Hp, numbered_length; reflexivity|].
  split; eexists; eassumption.
Qed.

Lemma create_patient_database_seeds_patients_witness :
  exists d' r',
    Database.create_patient_database Demo.lowest Demo.sqlite Demo.fresh 0 =
      ("✅ Database created successfully with 20 patients and medical records!", d', r') /\
    Database.rows_of (Database.patients d') =
      Database.numbered 0 (Database.seed_rows Demo.sqlite) /\
    List.length (Database.rows_of (Database.patients d')) = 20 /\
    (exists new, Database.rows_of (Database.medical_records d') = [] ++ new) /\
    (exists new, Database.rows_of (Database.appointments d') = [] ++ new).
Proof.
  apply (create_patient_database_seeds_patients Demo.lowest Demo.sqlite Demo.fresh 0).
  reflexivity.
Defined.

(** X2: On a database in which no patient was ever inserted, the keys of
    the seeded patients are 1 to 20, and every medical record and
    every appointment the call adds refers, in its [patient_id]
    column, to one of these patients. *)
Theorem create_patient_database_references
    {R : Type} (rnd : Database.Random R) (sq : Database.Sqlite)
    (d : Database.db) (r : R) :
  Database.rows_of (Database.patients d) = [] ->
  Database.table_high_water (Database.patients d) = 0%Z ->
  exists d' r' records appts,
    Database.create_patient_database rnd sq d r =
      ("✅ Database created successfully with 20 patients and medical records!", d', r') /\
    map Database.rowid_of (Database.rows_of (Database.patients d')) =
      map Z.of_nat (seq 1 20) /\
    Database.rows_of (Database.medical_records d') =
      Database.rows_of (Database.medical_records d) ++ records /\
    Database.rows_of (Database.appointments d') =
      Database.rows_of (Database.appointments d) ++ appts /\
    forall row, In row (records ++ appts) ->
      exists p, Database.patient_ref row = Some p /\
                In p (map Database.rowid_of (Database.rows_of (Database.patients d'))).
Proof.
  intros Hempty Hhw.
  destruct (create_patient_database_new_rows rnd sq d r Hempty)
    as (d' & r' & records & appts & Hrun & Hp & Hm & Ha & Href & _).
  assert (Hkeys : map Database.rowid_of (Database.rows_of (Database.patients d')) =
                  map Z.of_nat (seq 1 20)).
  { rewrite Hp, Hhw, numbered_rowids. reflexivity. }
  eexists d', r', _, _. split; [exact Hrun|]. split; [exact Hkeys|].
  split; [exact Hm|]. split; [exact Ha|].
  intros row Hin. rewrite Hkeys.
  apply Forall_app in Href. destruct Href as [Hrec Happ].
  assert (Hnum : forall n fs,
            Forall (fun f => exists p rest, f = Database.SqlInt p :: rest /\
                                            In p Database.patient_ids) fs ->
            In row (Database.numbered n fs) ->
            exists p, Database.patient_ref row = Some p /\ In p (map Z.of_nat (seq 1 20))).
  { intros n fs Hfs Hrow.
    destruct (numbered_In n fs row Hrow) as (id & f & -> & Hf & _).
    rewrite List.Forall_forall in Hfs.
    destruct (Hfs f Hf) as (p & rest & -> & Hp'). exists p. split; [reflexivity | exact Hp']. }
  apply in_app_or in Hin. destruct Hin as [Hin | Hin].
  - exact (Hnum _ _ Hrec Hin).
  - exact (Hnum _ _ Happ Hin).
Qed.

Lemma create_patient_database_references_witness :
  exists d' r' records appts,
    Database.create_patient_database Demo.lowest Demo.sqlite Demo.fresh 0 =
      ("✅ Database created successfully with 20 patients and medical records!", d', r') /\
    map Database.rowid_of (Database.rows_of (Database.patients d')) =
      map Z.of_nat (seq 1 20) /\
    Database.rows_of (Database.medical_records d') = [] ++ records /\
    Database.rows_of (Database.appointments d') = [] ++ appts /\
    forall row, In row (records ++ appts) ->
      exists p, Database.patient_ref row = Some p /\
                In p (map Database.rowid_of (Database.rows_of (Database.patients d'))).
Proof.
  apply (create_patient_database_references Demo.lowest Demo.sqlite Demo.fresh 0);
    reflexivity.
Defined.



(** X4: With such a generator, every medical record a seeding call adds
    has its diagnosis, medication and doctor from the three lists, its
    symptoms and notes derived from the diagnosis, both flags 0 or 1,
    [is_diabetic] set for "Type 2 Diabetes" and [has_bp] set for
    "Hypertension"; every appointment it adds has its doctor, time,
    department and status from the lists. *)
Theorem create_patient_database_rows_well_formed
    {R : Type} (rnd : Database.Random R) (sq : Database.Sqlite)
    (d : Database.db) (r : R) :
  Database.random_ok rnd ->
  Database.rows_of (Database.patients d) = [] ->
  exists d' r' records appts,
    Database.create_patient_database rnd sq d r =
      ("✅ Database created successfully with 20 patients and medical records!", d', r') /\
    Database.rows_of (Database.medical_records d') =
      Database.rows_of (Database.medical_records d) ++ records /\
    Database.rows_of (Database.appointments d') =
      Database.rows_of (Database.appointments d) ++ appts /\
    (forall row, In row records ->
       exists key fields, row = Database.SqlInt key :: fields /\
                          Database.medical_record_ok fields) /\
    (forall row, In row appts ->
       exists key fields, row = Database.SqlInt key :: fields /\
                          Database.appointment_ok fields).
Proof.
  intros Hok Hempty.
  destruct (create_patient_database_new_rows rnd sq d r Hempty)
    as (d' & r' & records & appts & Hrun & _ & Hm & Ha & _ & Hrnd).
  destruct (Hrnd Hok) as (Hrec & Happ & _ & _).
  eexists d', r', _, _. split; [exact Hrun|]. split; [exact Hm|]. split; [exact Ha|].
  rewrite List.Forall_forall in Hrec, Happ.
  split; intros row Hin;
    destruct (numbered_In _ _ row Hin) as (key & fields & -> & Hf & _);
    exists key, fields; (split; [reflexivity|]); auto.
Qed.

Lemma create_patient_database_rows_well_formed_witness :
  exists d' r' records appts,
    Database.create_patient_database Demo.lowest Demo.sqlite Demo.fresh 0 =
      ("✅ Database created successfully with 20 patients and medical records!", d', r') /\
    Database.rows_of (Database.medical_records d') = [] ++ records /\
    Database.rows_of (Database.appointments d') = [] ++ appts /\
    (forall row, In row records ->
       exists key fields, row = Database.SqlInt key :: fields /\
                          Database.medical_record_ok fields) /\
    (forall row, In row appts ->
       exists key fields, row = Database.SqlInt key :: fields /\
                          Database.appointment_ok fields).
Proof.
  apply (create_patient_database_rows_well_formed Demo.lowest Demo.sqlite Demo.fresh 0).
  - split; intros; simpl; lia.
  - reflexivity.
Defined.

(** ** Python strings: occurrences *)

Lemma prefix_app (x s t : string) :
  String.prefix x s = true -> String.prefix x (s +:+ t) = true.
Proof.
  revert s. induction x as [|a x IH]; intros s H; [destruct (s +:+ t); reflexivity|].
  destruct s as [|b s]; [discriminate|].
  simpl in *.
  destruct (ascii_dec a b); [apply IH; exact H | discriminate].
Qed.

Lemma prefix_self_app (x t : string) : String.prefix x (x +:+ t) = true.
Proof.
  induction x as [|a x IH]; [destruct t; reflexivity|].
  simpl.
  destruct (ascii_dec a a); [exact IH | congruence].
Qed.

Lemma contains_app_l (x s t : string) :
  Py.contains x s = true -> Py.contains x (s +:+ t) = true.
Proof.
  induction s as [|c s IH]; intros H.
  - change (String.prefix x "" || false = true) in H.
    rewrite orb_false_r in H.
    destruct x; [|discriminate]. destruct t; reflexivity.
  - change (String.prefix x (String c s) || Py.contains x s = true) in H.
    change (String.prefix x (String c s +:+ t) || Py.contains x (s +:+ t) = true).
    apply orb_true_iff in H. destruct H as [H | H].
    + rewrite (prefix_app _ _ t H). reflexivity.
    + rewrite (IH H). apply orb_true_r.
Qed.

Lemma contains_self_app (x t : string) : Py.contains x (x +:+ t) = true.
Proof.
  destruct (x +:+ t) eqn:E.
  - destruct x; [reflexivity | discriminate].
  - rewrite <- E.
    assert (H : String.prefix x (x +:+ t) = true) by apply prefix_self_app.
    rewrite E in *.
    change (String.prefix x (String a s) || Py.contains x s = true).
    rewrite H. reflexivity.
Qed.

Lemma append_empty_r (s : string) : s +:+ "" = s.
Proof.
  induction s as [|c s IH]; [reflexivity|].
  change (String c (s +:+ "") = String c s). now rewrite IH.
Qed.

(** An element of the list occurs in the concatenation. *)
Lemma contains_concat (x : string) (l : list string) :
  In x l -> Py.contains x (String.concat "" l) = true.
Proof.
  induction l as [|y l IH]; [intros []|].
  intros [-> | Hin].
  - destruct l as [|z l].
    + cbn [String.concat]. rewrite <- (append_empty_r x) at 2.
      apply contains_self_app.
    + cbn [String.concat]. apply contains_self_app.
  - destruct l as [|z l]; [destruct Hin|].
    cbn [String.concat]. apply contains_app_r. apply (IH Hin).
Qed.

(** ** database.py: the schema text *)

(** Look for an occurrence along a chain of appends: at its head, in
    its first piece, or further right. *)
Ltac find_occurrence :=
  first [ assumption
        | apply contains_self_app
        | apply contains_app_l; assumption
        | apply contains_app_r; find_occurrence ].

(** X6: When the three PRAGMA calls answer, [get_database_schema] returns a
    text that names the three tables and has, for every column of
    every table, the line "  - name (type)". *)
Theorem get_database_schema_lists_columns
    (sq : Database.Sqlite) (d : Database.db)
    (patients_schema medical_records_schema appointments_schema : list (string * string)) :
  Database.table_info sq d "patients" = Return patients_schema ->
  Database.table_info sq d "medical_records" = Return medical_records_schema ->
  Database.table_info sq d "appointments" = Return appointments_schema ->
  exists schema,
    Database.get_database_schema sq d = Return schema /\
    Py.contains "TABLE: patients" schema = true /\
    Py.contains "TABLE: medical_records" schema = true /\
    Py.contains "TABLE: appointments" schema = true /\
    forall name type,
      In (name, type)
         (patients_schema ++ medical_records_schema ++ appointments_schema) ->
      Py.contains ("  - " +:+ name +:+ " (" +:+ type +:+ ")" +:+ nl) schema = true.
Proof.
  intros Hp Hm Ha. unfold Database.get_database_schema. rewrite Hp, Hm, Ha.
  eexists. split; [reflexivity|].
  assert (Hline : forall cols name type, In (name, type) cols ->
            Py.contains ("  - " +:+ name +:+ " (" +:+ type +:+ ")" +:+ nl)
              (Database.schema_columns cols) = true).
  { intros cols name type Hin. unfold Database.schema_columns.
    apply contains_concat.
    apply (in_map (fun col => "  - " +:+ fst col +:+ " (" +:+ snd col +:+ ")" +:+ nl)) in Hin.
    exact Hin. }
  split; [find_occurrence|]. split; [find_occurrence|]. split; [find_occurrence|].
  intros name type Hin.
  apply in_app_or in Hin. destruct Hin as [Hin | Hin];
    [|apply in_app_or in Hin; destruct Hin as [Hin | Hin]];
    pose proof (Hline _ _ _ Hin); find_occurrence.
Qed.

Lemma get_database_schema_lists_columns_witness :
  exists schema,
    Database.get_database_schema Demo.sqlite Demo.seeded = Return schema /\
    Py.contains "TABLE: patients" schema = true /\
    Py.contains "TABLE: medical_records" schema = true /\
    Py.contains "TABLE: appointments" schema = true /\
    forall name type,
      In (name, type)
         ([("patient_id", "INTEGER"); ("city", "TEXT")] ++
          [("patient_id", "INTEGER"); ("city", "TEXT")] ++
          [("patient_id", "INTEGER"); ("city", "TEXT")]) ->
      Py.contains ("  - " +:+ name +:+ " (" +:+ type +:+ ")" +:+ nl) schema = true.
Proof.
  apply (get_database_schema_lists_columns Demo.sqlite Demo.seeded); reflexivity.
Defined.

(** ** pdf_rag.py: failure, composition, persistence *)

(** X7: A run of [process_pdf] that raises leaves the instance as it was:
    the store and the chain of an earlier document stay in place. *)
Theorem process_pdf_failure_keeps_state
    (env : PdfRag.Provider) (pdf_path : string) (chunk_size chunk_overlap k : Z)
    (l : list PdfRag.event) (self : PdfRag.PDFRAGSystem) (e : exn) :
  outcome_of (PdfRag.process_pdf env pdf_path chunk_size chunk_overlap k l self) = Raise e ->
  store_of (PdfRag.process_pdf env pdf_path chunk_size chunk_overlap k l self) = self.
Proof.
  cbv [PdfRag.process_pdf PdfRag.load_pdf PdfRag.split_documents
       PdfRag.create_vectorstore PdfRag.from_documents PdfRag.setup_retrieval_chain
       bind get put emit extern reply ret raise outcome_of store_of fst snd].
  destruct (PdfRag.pdf_loader env pdf_path) as [documents | e1]; [|reflexivity].
  destruct (PdfRag.text_splitter env chunk_size chunk_overlap documents)
    as [splits | e2]; [|reflexivity].
  destruct (PdfRag.embed_documents env splits) as [[] | e3]; [|reflexivity].
  destruct splits as [|split splits]; [reflexivity|].
  cbn [PdfRag.vectorstore]. discriminate.
Qed.

Lemma process_pdf_failure_keeps_state_witness :
  let r1 := PdfRag.process_pdf Demo.pdf "a.pdf" 1000 200 5 []
              (PdfRag.create_pdf_rag_system "key") in
  let r2 := PdfRag.process_pdf Demo.pdf "missing.pdf" 1000 200 5 (log_of r1) (store_of r1) in
  outcome_of r2 =
    Raise (OtherException "ValueError" "File path is not a valid file or url") /\
  store_of r2 = store_of r1 /\
  PdfRag.vectorstore (store_of r2) = Some {| PdfRag.docstore := [Demo.doc "alpha"] |}.
Proof.
  split; [reflexivity|]. split; [|reflexivity].
  apply (process_pdf_failure_keeps_state Demo.pdf "missing.pdf" 1000 200 5 _ _
           (OtherException "ValueError" "File path is not a valid file or url")).
  reflexivity.
Defined.

(** X8: After a successful [process_pdf] (the document loads, splits
    into at least one passage and the passages are embedded), [query]
    does not raise the not-initialised error: it makes one call, to the
    chain over the passages of that document with the [k] given, and
    hands back what the chain answers (a response or the chain's own
    exception). *)
Theorem query_after_process_pdf
    (env : PdfRag.Provider) (pdf_path question : string) (chunk_size chunk_overlap k : Z)
    (l : list PdfRag.event) (self : PdfRag.PDFRAGSystem)
    (documents splits : list PdfRag.Document) :
  PdfRag.pdf_loader env pdf_path = Return documents ->
  PdfRag.text_splitter env chunk_size chunk_overlap documents = Return splits ->
  PdfRag.embed_documents env splits = Return tt ->
  splits <> [] ->
  let r := PdfRag.process_pdf env pdf_path chunk_size chunk_overlap k l self in
  let chain := {| PdfRag.retriever_store := {| PdfRag.docstore := splits |};
                  PdfRag.retriever_k := k |} in
  PdfRag.query env question (log_of r) (store_of r) =
    (PdfRag.chain_invoke env chain question,
     l ++ [PdfRag.PdfLoad pdf_path; PdfRag.EmbedDocuments splits;
           PdfRag.ChainInvoke chain question],
     store_of r).
Proof.
  intros Hl Hs He Hsome r chain. subst r.
  rewrite (process_pdf_succeeds env pdf_path chunk_size chunk_overlap k l self
             documents splits Hl Hs He Hsome).
  cbv [PdfRag.query bind get emit extern reply log_of store_of fst snd].
  cbn [PdfRag.retrieval_chain]. rewrite <- app_assoc. reflexivity.
Qed.

Lemma query_after_process_pdf_witness :
  let r := PdfRag.process_pdf Demo.pdf "a.pdf" 1000 200 5 []
             (PdfRag.create_pdf_rag_system "key") in
  outcome_of (PdfRag.query Demo.pdf "What is this document about?" (log_of r) (store_of r)) =
    Return {| PdfRag.answer := Some "An answer.";
              PdfRag.context := Some [Demo.doc "alpha"] |}.
Proof.
  intros r. subst r.
  rewrite (query_after_process_pdf Demo.pdf "a.pdf" "What is this document about?"
             1000 200 5 [] (PdfRag.create_pdf_rag_system "key")
             [Demo.doc "alpha"] [Demo.doc "alpha"] eq_refl eq_refl eq_refl);
    [reflexivity | discriminate].
Defined.

(** X9: [create_vectorstore] called on its own with at least one
    document replaces the store but not the retrieval chain: [query]
    goes on asking the chain the instance had, over the store that
    chain was built on. *)
Theorem create_vectorstore_keeps_chain
    (env : PdfRag.Provider) (documents : list PdfRag.Document) (question : string)
    (l : list PdfRag.event) (self : PdfRag.PDFRAGSystem) (chain : PdfRag.RetrievalChain) :
  PdfRag.retrieval_chain self = Some chain ->
  PdfRag.embed_documents env documents = Return tt ->
  documents <> [] ->
  let r := PdfRag.create_vectorstore env documents l self in
  outcome_of r = Return {| PdfRag.docstore := documents |} /\
  PdfRag.vectorstore (store_of r) = Some {| PdfRag.docstore := documents |} /\
  PdfRag.retrieval_chain (store_of r) = Some chain /\
  PdfRag.query env question (log_of r) (store_of r) =
    (PdfRag.chain_invoke env chain question,
     l ++ [PdfRag.EmbedDocuments documents; PdfRag.ChainInvoke chain question],
     store_of r).
Proof.
  intros Hc He Hsome r. subst r.
  cbv [PdfRag.create_vectorstore PdfRag.from_documents PdfRag.query
       bind get put emit extern reply ret raise outcome_of log_of store_of fst snd].
  rewrite He. destruct documents as [|document documents]; [contradiction|].
  cbn [PdfRag.retrieval_chain]. rewrite Hc, <- app_assoc.
  repeat split.
Qed.

Lemma create_vectorstore_keeps_chain_witness :
  let r1 := PdfRag.process_pdf Demo.pdf "a.pdf" 1000 200 5 []
              (PdfRag.create_pdf_rag_system "key") in
  let r2 := PdfRag.create_vectorstore Demo.pdf [Demo.doc "beta"] (log_of r1) (store_of r1) in
  PdfRag.vectorstore (store_of r2) = Some {| PdfRag.docstore := [Demo.doc "beta"] |} /\
  outcome_of (PdfRag.query Demo.pdf "What is this document about?" (log_of r2) (store_of r2)) =
    Return {| PdfRag.answer := Some "An answer.";
              PdfRag.context := Some [Demo.doc "alpha"] |}.
Proof.
  intros r1 r2.
  destruct (create_vectorstore_keeps_chain Demo.pdf [Demo.doc "beta"]
              "What is this document about?" (log_of r1) (store_of r1)
              {| PdfRag.retriever_store := {| PdfRag.docstore := [Demo.doc "alpha"] |};
                 PdfRag.retriever_k := 5 |} eq_refl eq_refl ltac:(discriminate))
    as (_ & Hstore & _ & Hquery).
  split; [exact Hstore|]. fold r2 in Hquery. rewrite Hquery. reflexivity.
Defined.

(** X10: [save_vectorstore] on one instance followed by [load_vectorstore]
    on another: the second instance holds the store of the first, yet
    [query] on it still raises until [setup_retrieval_chain] is called;
    after that call, [query] asks the chain over the saved store. *)
Theorem save_load_vectorstore_round_trip
    (env : PdfRag.Provider) (not_found : string -> exn) (path question : string) (k : Z)
    (a b : PdfRag.PDFRAGSystem) (files : gmap string PdfRag.FAISS) (v : PdfRag.FAISS)
    (l : list PdfRag.event) :
  PdfRag.vectorstore a = Some v ->
  PdfRag.retrieval_chain b = None ->
  exists files' b',
    PdfRag.save_vectorstore path a files = Return files' /\
    PdfRag.load_vectorstore not_found path b files' = Return b' /\
    PdfRag.vectorstore b' = Some v /\
    PdfRag.query env question l b' =
      (Raise (ValueError "Retrieval chain not initialized. Call process_pdf first."), l, b') /\
    let r := PdfRag.setup_retrieval_chain k l b' in
    outcome_of r = Return tt /\
    PdfRag.query env question (log_of r) (store_of r) =
      (PdfRag.chain_invoke env
         {| PdfRag.retriever_store := v; PdfRag.retriever_k := k |} question,
       l ++ [PdfRag.ChainInvoke
               {| PdfRag.retriever_store := v; PdfRag.retriever_k := k |} question],
       store_of r).
Proof.
  intros Hv Hb. unfold PdfRag.save_vectorstore, PdfRag.load_vectorstore. rewrite Hv.
  eexists _, _. split; [reflexivity|].
  rewrite lookup_insert_eq. split; [reflexivity|]. split; [reflexivity|].
  cbv [PdfRag.query PdfRag.setup_retrieval_chain bind get put emit extern reply raise
       outcome_of log_of store_of fst snd].
  cbn [PdfRag.retrieval_chain PdfRag.vectorstore]. rewrite Hb.
  repeat split.
Qed.

Lemma save_load_vectorstore_round_trip_witness :
  let a := store_of (PdfRag.process_pdf Demo.pdf "a.pdf" 1000 200 5 []
                       (PdfRag.create_pdf_rag_system "key")) in
  exists files' b',
    PdfRag.save_vectorstore "index" a ∅ = Return files' /\
    PdfRag.load_vectorstore (fun path => OtherException "RuntimeError" path) "index"
      (PdfRag.create_pdf_rag_system "key") files' = Return b' /\
    PdfRag.vectorstore b' = Some {| PdfRag.docstore := [Demo.doc "alpha"] |}.
Proof.
  intros a.
  destruct (save_load_vectorstore_round_trip Demo.pdf
              (fun path => OtherException "RuntimeError" path) "index"
              "What is this document about?" 5 a (PdfRag.create_pdf_rag_system "key") ∅
              {| PdfRag.docstore := [Demo.doc "alpha"] |} [] eq_refl eq_refl)
    as (files' & b' & Hsave & Hload & Hstore & _).
  exists files', b'. repeat split; assumption.
Defined.

(** ** web_search.py: formatting, failure, domain filters *)

Lemma contains_join (sep x : string) (l : list string) :
  In x l -> Py.contains x (Py.join sep l) = true.
Proof.
  unfold Py.join. induction l as [|y l IH]; [intros []|].
  intros [-> | Hin].
  - destruct l as [|z l].
    + cbn [String.concat]. rewrite <- (append_empty_r x) at 2.
      apply contains_self_app.
    + cbn [String.concat]. apply contains_self_app.
  - destruct l as [|z l]; [destruct Hin|].
    cbn [String.concat]. do 2 apply contains_app_r. apply (IH Hin).
Qed.

(** The formatting loop adds one block per entry, in order. *)
Lemma format_results_blocks (entries : list (nat * gmap string string)) (acc : string) :
  fold_left WebSearch.format_result entries acc =
  acc +:+ String.concat "" (map (WebSearch.format_result "") entries).
Proof.
  revert acc. induction entries as [|[idx result] entries IH]; intros acc.
  - simpl. now rewrite append_empty_r.
  - cbn [fold_left map]. rewrite IH.
    assert (Hcons : forall (b : string) (bs : list string),
              String.concat "" (b :: bs) = b +:+ String.concat "" bs).
    { intros b [|b' bs]; [simpl; now rewrite append_empty_r | reflexivity]. }
    rewrite Hcons.
    change (WebSearch.format_result acc (idx, result))
      with (acc +:+ WebSearch.format_result "" (idx, result)).
    apply append_assoc.
Qed.

Lemma enumerate_length {A : Type} (start : nat) (l : list A) :
  List.length (Py.enumerate start l) = List.length l.
Proof.
  revert start. induction l as [|x l IH]; intros start; simpl; [reflexivity|].
  now rewrite IH.
Qed.

(** X11: With the provider "tavily" and a list of results from the tool,
    [search] shows the first [max_results] results and no more: its
    answer is one block per shown result, numbered from 1 in the
    tool's order.  An empty list gives the empty string. *)
Theorem search_shows_first_max_results
    (env : WebSearch.Provider) (query : string) (max_results : Z)
    (l : list WebSearch.event) (self : WebSearch.WebSearchSystem)
    (results : list (gmap string string)) :
  WebSearch.search_provider self = "tavily" ->
  WebSearch.tool_invoke env (WebSearch.search_tool self)
    (WebSearch.QueryDict query None) = Return (WebSearch.PyList results) ->
  (0 <= max_results)%Z ->
  exists shown,
    shown = firstn (Z.to_nat max_results) results /\
    List.length shown = Nat.min (Z.to_nat max_results) (List.length results) /\
    outcome_of (WebSearch.search env query max_results l self) =
      Return (WebSearch.PyStr
                (String.concat ""
                   (map (WebSearch.format_result "") (Py.enumerate 1 shown)))).
Proof.
  intros Hp Ht Hmax. exists (firstn (Z.to_nat max_results) results).
  split; [reflexivity|]. split; [apply length_firstn|].
  cbv [WebSearch.search WebSearch.invoke try_except bind get emit extern reply ret
       outcome_of fst].
  rewrite Hp. cbn [String.eqb Ascii.eqb Bool.eqb]. rewrite Ht.
  cbn [WebSearch.format_results]. unfold Py.slice_to.
  destruct (0 <=? max_results)%Z eqn:Hle; [|apply Z.leb_gt in Hle; lia].
  rewrite format_results_blocks. reflexivity.
Qed.

Lemma search_shows_first_max_results_witness :
  exists shown,
    shown = firstn (Z.to_nat 1) [∅; ∅] /\
    List.length shown = Nat.min (Z.to_nat 1) (List.length [(∅ : gmap string string); ∅]) /\
    outcome_of
      (WebSearch.search
         {| WebSearch.tool_invoke := fun _ _ => Return (WebSearch.PyList [∅; ∅]);
            WebSearch.llm_invoke := fun _ _ => Return "An answer." |}
         "diabetes diet" 1 []
         (WebSearch.create_web_search_system "gsk" (Some "tvly") "tavily"
            "llama-3.3-70b-versatile")) =
      Return (WebSearch.PyStr
                (String.concat ""
                   (map (WebSearch.format_result "") (Py.enumerate 1 shown)))).
Proof.
  apply (search_shows_first_max_results
           {| WebSearch.tool_invoke := fun _ _ => Return (WebSearch.PyList [∅; ∅]);
              WebSearch.llm_invoke := fun _ _ => Return "An answer." |}
           "diabetes diet" 1 []
           (WebSearch.create_web_search_system "gsk" (Some "tvly") "tavily"
              "llama-3.3-70b-versatile") [∅; ∅]).
  - reflexivity.
  - reflexivity.
  - lia.
Defined.

(** X12: With the provider "tavily", a tool that answers with a non-empty
    string instead of a list of results (the DuckDuckGo tool the
    constructor falls back to when no key is given does) makes
    [search] report "'str' object has no attribute 'get'": the text
    the tool found is lost. *)
Theorem search_tavily_text_reply
    (env : WebSearch.Provider) (query text : string) (max_results : Z)
    (l : list WebSearch.event) (self : WebSearch.WebSearchSystem) :
  WebSearch.search_provider self = "tavily" ->
  WebSearch.tool_invoke env (WebSearch.search_tool self)
    (WebSearch.QueryDict query None) = Return (WebSearch.PyStr text) ->
  text <> "" ->
  (0 < max_results)%Z ->
  WebSearch.search env query max_results l self =
    (Return (WebSearch.PyStr "Search error: 'str' object has no attribute 'get'"),
     l ++ [WebSearch.ToolInvoke (WebSearch.search_tool self) (WebSearch.QueryDict query None)],
     self).
Proof.
  intros Hp Ht Htext Hmax.
  cbv [WebSearch.search WebSearch.invoke try_except bind get emit extern reply ret].
  rewrite Hp. cbn [String.eqb Ascii.eqb Bool.eqb]. rewrite Ht.
  cbn [WebSearch.format_results].
  pose proof (str_slice_to_nonempty max_results text Hmax Htext) as Hslice.
  destruct (Py.str_slice_to max_results text); [contradiction|].
  reflexivity.
Qed.

Lemma search_tavily_text_reply_witness :
  WebSearch.search Demo.web "diabetes diet" 5 []
    (WebSearch.create_web_search_system "gsk" None "tavily" "llama-3.3-70b-versatile") =
    (Return (WebSearch.PyStr "Search error: 'str' object has no attribute 'get'"),
     [WebSearch.ToolInvoke WebSearch.DuckDuckGoSearchRun
        (WebSearch.QueryDict "diabetes diet" None)],
     WebSearch.create_web_search_system "gsk" None "tavily" "llama-3.3-70b-versatile").
Proof.
  apply (search_tavily_text_reply Demo.web "diabetes diet" "snippets" 5 []
           (WebSearch.create_web_search_system "gsk" None "tavily"
              "llama-3.3-70b-versatile")).
  - reflexivity.
  - reflexivity.
  - discriminate.
  - lia.
Defined.

(** X13: A failing search tool does not stop [search_and_answer]: the model
    is still asked, with the text "Search error: ..." in the place of
    the search results, and what it writes is returned as the answer. *)
Theorem search_and_answer_after_provider_failure
    (env : WebSearch.Provider) (question content : string)
    (l : list WebSearch.event) (self : WebSearch.WebSearchSystem) (e : exn) :
  let input :=
    if String.eqb (WebSearch.search_provider self) "tavily"
    then WebSearch.QueryDict question None else WebSearch.Query question in
  let report := WebSearch.PyStr ("Search error: " +:+ str_exn e) in
  WebSearch.tool_invoke env (WebSearch.search_tool self) input = Raise e ->
  WebSearch.llm_invoke env question report = Return content ->
  WebSearch.search_and_answer env question l self =
    (Return {| WebSearch.ans_answer := content;
               WebSearch.ans_search_results := report;
               WebSearch.ans_provider := WebSearch.search_provider self;
               WebSearch.ans_model := WebSearch.model_name self |},
     l ++ [WebSearch.ToolInvoke (WebSearch.search_tool self) input;
           WebSearch.LlmInvoke question report],
     self).
Proof.
  intros input report Ht Hl. subst input report.
  cbv [WebSearch.search_and_answer WebSearch.search WebSearch.invoke try_except
       bind get emit extern reply ret].
  destruct (String.eqb (WebSearch.search_provider self) "tavily");
    rewrite Ht, Hl, <- app_assoc; reflexivity.
Qed.

Lemma search_and_answer_after_provider_failure_witness :
  outcome_of
    (WebSearch.search_and_answer Demo.web "down" []
       (WebSearch.create_web_search_system "gsk" None "duckduckgo"
          "llama-3.3-70b-versatile")) =
    Return {| WebSearch.ans_answer := "An answer.";
              WebSearch.ans_search_results := WebSearch.PyStr "Search error: Ratelimit";
              WebSearch.ans_provider := "duckduckgo";
              WebSearch.ans_model := "llama-3.3-70b-versatile" |}.
Proof.
  rewrite (search_and_answer_after_provider_failure Demo.web "down" "An answer." []
             (WebSearch.create_web_search_system "gsk" None "duckduckgo"
                "llama-3.3-70b-versatile")
             (OtherException "DuckDuckGoSearchException" "Ratelimit") eq_refl eq_refl).
  reflexivity.
Defined.

(** X14: When the model call of [search_and_answer] raises, the function
    still returns: the answer is "Error generating answer: ..." with
    the text of the exception, the model is reported as "error", and
    the search results, although the search had returned them, are
    replaced by the empty string. *)
Theorem search_and_answer_model_failure
    (env : WebSearch.Provider) (question : string)
    (l : list WebSearch.event) (self : WebSearch.WebSearchSystem)
    (found : WebSearch.pyval) (e : exn) :
  outcome_of (WebSearch.search env question WebSearch.default_max_results l self) =
    Return found ->
  WebSearch.llm_invoke env question found = Raise e ->
  outcome_of (WebSearch.search_and_answer env question l self) =
    Return {| WebSearch.ans_answer := "Error generating answer: " +:+ str_exn e;
              WebSearch.ans_search_results := WebSearch.PyStr "";
              WebSearch.ans_provider := WebSearch.search_provider self;
              WebSearch.ans_model := "error" |} /\
  store_of (WebSearch.search_and_answer env question l self) = self.
Proof.
  intros Hs Hl.
  destruct (search_request env question WebSearch.default_max_results l self)
    as [_ Hstore].
  unfold WebSearch.search_and_answer.
  cbv [try_except bind get emit extern reply ret outcome_of store_of fst snd] in *.
  destruct (WebSearch.search env question WebSearch.default_max_results l self)
    as [[o l'] s']. cbn [fst snd] in Hs, Hstore. subst o s'.
  rewrite Hl. split; reflexivity.
Qed.

Lemma search_and_answer_model_failure_witness :
  outcome_of
    (WebSearch.search_and_answer
       {| WebSearch.tool_invoke := fun _ _ => Return (WebSearch.PyStr "snippets");
          WebSearch.llm_invoke := fun _ _ => Raise (OtherException "APIError" "overloaded") |}
       "diabetes diet" []
       (WebSearch.create_web_search_system "gsk" None "duckduckgo"
          "llama-3.3-70b-versatile")) =
    Return {| WebSearch.ans_answer := "Error generating answer: overloaded";
              WebSearch.ans_search_results := WebSearch.PyStr "";
              WebSearch.ans_provider := "duckduckgo";
              WebSearch.ans_model := "error" |}.
Proof.
  apply (search_and_answer_model_failure
           {| WebSearch.tool_invoke := fun _ _ => Return (WebSearch.PyStr "snippets");
              WebSearch.llm_invoke :=
                fun _ _ => Raise (OtherException "APIError" "overloaded") |}
           "diabetes diet" []
           (WebSearch.create_web_search_system "gsk" None "duckduckgo"
              "llama-3.3-70b-versatile")
           (WebSearch.PyStr "snippets") (OtherException "APIError" "overloaded")).
  - reflexivity.
  - reflexivity.
Defined.

(** X15: Whenever [medical_search] does not use the tool's own domain
    filter (any provider other than "tavily", or "tavily" without a
    key), and for any list of domains the caller passes, the query
    text of the one request it sends is the query, a space, and the
    domains as [site:] terms joined by " OR "; every domain of the
    list occurs in it. *)
Theorem medical_search_fallback_qualifiers
    (env : WebSearch.Provider) (query : string) (domains : list string)
    (l : list WebSearch.event) (self : WebSearch.WebSearchSystem) :
  String.eqb (WebSearch.search_provider self) "tavily" &&
    Py.truthy (WebSearch.tavily_api_key self) = false ->
  exists input result,
    WebSearch.medical_search env query (Some domains) l self =
      (Return result,
       l ++ [WebSearch.ToolInvoke (WebSearch.search_tool self) input], self) /\
    WebSearch.query_text input =
      query +:+ " " +:+
      Py.join " OR " (map (fun domain => "site:" +:+ domain) domains) /\
    forall domain, In domain domains ->
      Py.contains ("site:" +:+ domain) (WebSearch.query_text input) = true.
Proof.
  intros Hmode.
  set (request := query +:+ " " +:+
                  Py.join " OR " (map (fun domain => "site:" +:+ domain) domains)).
  destruct (search_never_raises env request WebSearch.default_max_results l self)
    as [result Hres].
  destruct (search_request env request WebSearch.default_max_results l self)
    as [Hlog Hstore].
  exists (if String.eqb (WebSearch.search_provider self) "tavily"
          then WebSearch.QueryDict request None else WebSearch.Query request), result.
  split; [|split].
  - unfold WebSearch.medical_search. cbv [bind get]. rewrite Hmode.
    cbn [default from_option]. unfold id. rewrite append_assoc. fold request.
    destruct (WebSearch.search env request WebSearch.default_max_results l self)
      as [[o l'] s'].
    cbv [outcome_of log_of store_of fst snd] in Hres, Hlog, Hstore. subst. reflexivity.
  - destruct (String.eqb (WebSearch.search_provider self) "tavily"); reflexivity.
  - intros domain Hin.
    replace (WebSearch.query_text _) with request
      by (destruct (String.eqb (WebSearch.search_provider self) "tavily"); reflexivity).
    unfold request. do 2 apply contains_app_r. apply contains_join.
    apply (in_map (fun domain => "site:" +:+ domain)) in Hin. exact Hin.
Qed.

Lemma medical_search_fallback_qualifiers_witness :
  exists input result,
    WebSearch.medical_search Demo.web "flu" (Some ["nhs.uk"; "who.int"]) []
      (WebSearch.create_web_search_system "gsk" None "tavily" "llama-3.3-70b-versatile") =
      (Return result,
       [] ++ [WebSearch.ToolInvoke WebSearch.DuckDuckGoSearchRun input],
       WebSearch.create_web_search_system "gsk" None "tavily" "llama-3.3-70b-versatile") /\
    WebSearch.query_text input = "flu site:nhs.uk OR site:who.int" /\
    forall domain, In domain ["nhs.uk"; "who.int"] ->
      Py.contains ("site:" +:+ domain) (WebSearch.query_text input) = true.
Proof.
  apply (medical_search_fallback_qualifiers Demo.web "flu" ["nhs.uk"; "who.int"] []
           (WebSearch.create_web_search_system "gsk" None "tavily"
              "llama-3.3-70b-versatile")).
  reflexivity.
Defined.

(** X16: With the provider "tavily" and a key, [medical_search] sends the
    query unchanged and the domains as the [include_domains] entry of
    the request; it returns a string on every path, and when the tool
    raises that string is "Medical search error: ..." with the text of
    the exception. *)
Theorem medical_search_native_filter
    (env : WebSearch.Provider) (query : string) (domains : option (list string))
    (l : list WebSearch.event) (self : WebSearch.WebSearchSystem) :
  WebSearch.search_provider self = "tavily" ->
  Py.truthy (WebSearch.tavily_api_key self) = true ->
  let input :=
    WebSearch.QueryDict query (Some (default WebSearch.default_domains domains)) in
  exists text,
    WebSearch.medical_search env query domains l self =
      (Return (WebSearch.PyStr text),
       l ++ [WebSearch.ToolInvoke (WebSearch.search_tool self) input], self) /\
    forall e, WebSearch.tool_invoke env (WebSearch.search_tool self) input = Raise e ->
              text = "Medical search error: " +:+ str_exn e.
Proof.
  intros Hp Hk input. subst input.
  cbv [WebSearch.medical_search WebSearch.invoke try_except bind get emit extern
       reply ret].
  rewrite Hp, Hk. cbn [String.eqb Ascii.eqb Bool.eqb andb].
  destruct (WebSearch.tool_invoke env _ _) as [v | e].
  - destruct (WebSearch.format_results v None) as [text | e];
      eexists; (split; [reflexivity | discriminate]).
  - eexists. split; [reflexivity|]. intros e' He'. congruence.
Qed.

Lemma medical_search_native_filter_witness :
  exists text,
    WebSearch.medical_search Demo.web "down" None []
      (WebSearch.create_web_search_system "gsk" (Some "tvly") "tavily"
         "llama-3.3-70b-versatile") =
      (Return (WebSearch.PyStr text),
       [] ++ [WebSearch.ToolInvoke (WebSearch.TavilySearchResults "tvly")
                (WebSearch.QueryDict "down" (Some WebSearch.default_domains))],
       WebSearch.create_web_search_system "gsk" (Some "tvly") "tavily"
         "llama-3.3-70b-versatile") /\
    forall e,
      WebSearch.tool_invoke Demo.web (WebSearch.TavilySearchResults "tvly")
        (WebSearch.QueryDict "down" (Some WebSearch.default_domains)) = Raise e ->
      text = "Medical search error: " +:+ str_exn e.
Proof.
  apply (medical_search_native_filter Demo.web "down" None []
           (WebSearch.create_web_search_system "gsk" (Some "tvly") "tavily"
              "llama-3.3-70b-versatile")); reflexivity.
Defined.

(** ** app.py: the SQL handler *)

Ltac run_handler :=
  cbv [App.handle_sql_query App.generate_sql_query App.generate_natural_response
       try_except bind get put emit extern reply ret raise].

Ltac close_run :=
  eexists _, _; split;
  [ rewrite <- ?app_assoc; cbn [app]; reflexivity
  | repeat constructor; intros; discriminate ].

Ltac close_session_run :=
  eexists _, _, _; split;
  [ rewrite <- ?app_assoc; cbn [app]; reflexivity
  | split; [reflexivity | repeat constructor; intros; discriminate] ].

(** With a cached schema the handler does not read the schema again,
    and it leaves the entries of the session as they were; the tables
    are what the generated statement makes of them. *)
Lemma handle_sql_query_cached
    (env : App.Env) (question schema : string) (l : list App.event) (w : App.world) :
  App.db_schema_cache (App.session w) = Some schema ->
  exists o evs w',
    App.handle_sql_query env question l w = (o, l ++ evs, w') /\
    App.session w' = App.session w /\
    Forall (fun ev => ev <> App.SchemaRead) evs.
Proof.
  intros Hc. run_handler. rewrite Hc.
  destruct (App.groq env App.sql_prompt (App.sql_input question schema))
    as [content | e]; [|close_session_run].
  destruct (Database.query_database (App.sqlite env) (App.database w)
              (App.clean_up_query content)) as [df | msg]; [|close_session_run].
  destruct (Database.df_empty df); cbn [negb]; [close_session_run|].
  destruct (App.groq env App.response_prompt _); close_session_run.
Qed.

(** Without a cached schema, and when the schema can be read, the
    handler reads it once and caches it, whatever happens afterwards. *)
Lemma handle_sql_query_uncached
    (env : App.Env) (question schema : string) (l : list App.event) (w : App.world) :
  App.db_schema_cache (App.session w) = None ->
  Database.get_database_schema (App.sqlite env) (App.database w) = Return schema ->
  exists o evs w',
    App.handle_sql_query env question l w = (o, l ++ App.SchemaRead :: evs, w') /\
    App.session w' = App.session (App.set_db_schema_cache (Some schema) w) /\
    Forall (fun ev => ev <> App.SchemaRead) evs.
Proof.
  intros Hc Hs. run_handler. rewrite Hc, Hs.
  destruct (App.groq env App.sql_prompt (App.sql_input question schema))
    as [content | e]; [|close_session_run].
  cbn [App.database App.set_db_schema_cache].
  destruct (Database.query_database (App.sqlite env) (App.database w)
              (App.clean_up_query content)) as [df | msg]; [|close_session_run].
  destruct (Database.df_empty df); cbn [negb]; [close_session_run|].
  destruct (App.groq env App.response_prompt _); close_session_run.
Qed.



(** X18: When the schema cannot be read, the handler answers "Error
    processing SQL query: ..." straight away: the model is not called,
    no query is executed and the cache stays empty. *)
Theorem handle_sql_query_schema_failure
    (env : App.Env) (question : string) (l : list App.event) (w : App.world) (e : exn) :
  App.db_schema_cache (App.session w) = None ->
  Database.get_database_schema (App.sqlite env) (App.database w) = Raise e ->
  App.handle_sql_query env question l w =
    (Return ("Error processing SQL query: " +:+ str_exn e), l ++ [App.SchemaRead], w).
Proof.
  intros Hc Hs. run_handler. rewrite Hc, Hs. reflexivity.
Qed.

(** X19: When the model call that generates the query raises, the handler
    answers "Error processing SQL query: ..." with the text of the
    exception and executes no SQL. *)
Theorem handle_sql_query_generation_failure
    (env : App.Env) (question schema : string) (l : list App.event) (w : App.world)
    (e : exn) :
  App.schema_in_use env w schema ->
  App.groq env App.sql_prompt (App.sql_input question schema) = Raise e ->
  exists evs w',
    App.handle_sql_query env question l w =
      (Return ("Error processing SQL query: " +:+ str_exn e), l ++ evs, w') /\
    Forall (fun ev => forall sql_query, ev <> App.SqlExec sql_query) evs.
Proof.
  intros [Hc | [Hc Hs]] Hg; run_handler; rewrite Hc, ?Hs, Hg; close_run.
Qed.

(** X20: When the generated query executes and yields rows, the handler
    shows them, asks the model on [response_prompt] with the question
    and the table text, and returns what the model writes; if that
    call raises, it returns "Error processing SQL query: ..." instead. *)
Theorem handle_sql_query_synthesises_answer
    (env : App.Env) (question schema content : string) (df : Database.DataFrame)
    (l : list App.event) (w : App.world) :
  App.schema_in_use env w schema ->
  App.groq env App.sql_prompt (App.sql_input question schema) = Return content ->
  Database.read_sql_query (App.sqlite env) (App.database w)
    (App.clean_up_query content) = Return df ->
  Database.df_empty df = false ->
  let input := App.response_input question (App.to_string env df) in
  exists evs w',
    App.handle_sql_query env question l w =
      (Return match App.groq env App.response_prompt input with
              | Return nl_response => nl_response
              | Raise e => "Error processing SQL query: " +:+ str_exn e
              end,
       l ++ evs, w') /\
    In (App.St (App.st_dataframe df)) evs /\
    In (App.ModelInvoke App.response_prompt input) evs.
Proof.
  intros Hs Hg Hq He input. subst input.
  destruct Hs as [Hc | [Hc Hs]]; run_handler; rewrite Hc, ?Hs, Hg;
    cbn [App.database App.set_db_schema_cache];
    unfold Database.query_database; rewrite Hq, He; cbn [negb];
    destruct (App.groq env App.response_prompt _);
    eexists _, _; (split; [rewrite <- ?app_assoc; cbn [app]; reflexivity|]);
    simpl; tauto.
Qed.

Lemma handle_sql_query_schema_failure_witness :
  App.handle_sql_query Demo.locked "Who lives in Paris?" [] Demo.start =
    (Return "Error processing SQL query: unable to open database file",
     [App.SchemaRead], Demo.start).
Proof.
  apply (handle_sql_query_schema_failure Demo.locked "Who lives in Paris?" [] Demo.start
           (OperationalError "unable to open database file")); reflexivity.
Defined.

Lemma handle_sql_query_generation_failure_witness :
  exists evs w',
    App.handle_sql_query Demo.offline "Who lives in Paris?" [] Demo.start =
      (Return "Error processing SQL query: Connection error.", [] ++ evs, w') /\
    Forall (fun ev => forall sql_query, ev <> App.SqlExec sql_query) evs.
Proof.
  eapply (handle_sql_query_generation_failure Demo.offline "Who lives in Paris?" _ []
            Demo.start (OtherException "APIConnectionError" "Connection error.")).
  - right. split; reflexivity.
  - reflexivity.
Defined.

Lemma handle_sql_query_synthesises_answer_witness :
  exists evs w',
    App.handle_sql_query Demo.env "How many patients are there?" [] Demo.start =
      (Return "An answer.", [] ++ evs, w') /\
    In (App.St (App.st_dataframe Demo.one_row)) evs /\
    In (App.ModelInvoke App.response_prompt
          (App.response_input "How many patients are there?" "table")) evs.
Proof.
  eapply (handle_sql_query_synthesises_answer Demo.env "How many patients are there?" _
            "SELECT 1" Demo.one_row [] Demo.start).
  - right. split; reflexivity.
  - reflexivity.
  - reflexivity.
  - reflexivity.
Defined.

(** ** app.py: the PDF handler *)

(** The loop that shows the sources writes three widgets per document
    and does nothing else. *)
Lemma show_sources_runs
    (docs : list (nat * PdfRag.Document)) (l : list App.event) (w : App.world) :
  exists evs,
    App.show_sources docs l w = (Return tt, l ++ evs, w) /\
    List.length evs = 3 * List.length docs /\
    Forall (fun ev => exists widget, ev = App.St widget) evs.
Proof.
  revert l. induction docs as [|[i doc] docs IH]; intros l.
  - exists []. rewrite app_nil_r. repeat split. constructor.
  - cbn [App.show_sources]. cbv [bind emit].
    destruct (IH (((l ++ [App.St (App.st_markdown ("**Document " +:+ Py.str_nat i +:+ ":**"))])
                   ++ [App.St (App.st_text (Py.str_slice_to 500 (PdfRag.page_content doc)
                                            +:+ "..."))])
                  ++ [App.St App.st_divider]))
      as (evs & Hrun & Hlen & Hst).
    rewrite Hrun. eexists. split; [rewrite <- !app_assoc; cbn [app]; reflexivity|].
    split; [cbn [List.length]; lia|].
    repeat (constructor; [eexists; reflexivity|]). exact Hst.
Qed.

(** The handler on a session that holds a system with a chain. *)
Lemma handle_pdf_query_with_chain
    (env : App.Env) (question : string) (l : list App.event) (w : App.world)
    (system : PdfRag.PDFRAGSystem) (chain : PdfRag.RetrievalChain) :
  App.pdf_rag_initialized (App.session w) = true ->
  App.pdf_rag_system (App.session w) = Some system ->
  PdfRag.retrieval_chain system = Some chain ->
  exists evs w',
    App.handle_pdf_query env question l w =
      (Return match PdfRag.chain_invoke (App.pdf env) chain question with
              | Return response => default "No answer found." (PdfRag.answer response)
              | Raise e => "Error processing PDF query: " +:+ str_exn e
              end,
       l ++ App.St (App.st_spinner "🔍 Searching PDF documents...")
         :: App.Pdf (PdfRag.ChainInvoke chain question) :: evs,
       w') /\
    Forall (fun ev => exists widget, ev = App.St widget) evs /\
    App.pdf_rag_system (App.session w') = Some system /\
    App.pdf_rag_initialized (App.session w') = true.
Proof.
  intros Hi Hs Hc.
  cbv [App.handle_pdf_query PdfRag.query method try_except bind get emit extern reply
       ret raise].
  rewrite Hi, Hs. cbn [negb]. rewrite Hc. cbn [map app].
  destruct (PdfRag.chain_invoke (App.pdf env) chain question) as [response | e].
  - destruct (PdfRag.context response) as [docs|].
    + destruct (show_sources_runs (Py.enumerate 1 docs)
                  (((l ++ [App.St (App.st_spinner "🔍 Searching PDF documents...")])
                    ++ [App.Pdf (PdfRag.ChainInvoke chain question)])
                   ++ [App.St (App.st_expander "📄 Source Documents")])
                  (App.set_pdf_rag_system system w))
        as (evs & Hrun & _ & Hst).
      rewrite Hrun. eexists _, _.
      split; [rewrite <- !app_assoc; cbn [app]; reflexivity|].
      split; [constructor; [eexists; reflexivity | exact Hst]|].
      cbn. rewrite Hi. split; reflexivity.
    + eexists [], _.
      split; [rewrite <- !app_assoc; cbn [app]; reflexivity|].
      split; [constructor|]. cbn. rewrite Hi. split; reflexivity.
  - eexists [], _.
    split; [rewrite <- !app_assoc; cbn [app]; reflexivity|].
    split; [constructor|]. cbn. rewrite Hi. split; reflexivity.
Qed.

(** X21: Once a document has been processed, [handle_pdf_query] asks the
    retrieval chain of the session's system exactly once and returns
    the "answer" entry of its reply, or "No answer found." when the
    reply has none; if the chain raises, it returns "Error processing
    PDF query: ..." with the text of the exception.  The system held
    by the session is not changed. *)
Theorem handle_pdf_query_answers
    (env : App.Env) (question : string) (l : list App.event) (w : App.world)
    (system : PdfRag.PDFRAGSystem) (chain : PdfRag.RetrievalChain) :
  App.pdf_rag_initialized (App.session w) = true ->
  App.pdf_rag_system (App.session w) = Some system ->
  PdfRag.retrieval_chain system = Some chain ->
  exists evs w',
    App.handle_pdf_query env question l w =
      (Return match PdfRag.chain_invoke (App.pdf env) chain question with
              | Return response => default "No answer found." (PdfRag.answer response)
              | Raise e => "Error processing PDF query: " +:+ str_exn e
              end,
       l ++ App.St (App.st_spinner "🔍 Searching PDF documents...")
         :: App.Pdf (PdfRag.ChainInvoke chain question) :: evs,
       w') /\
    Forall (fun ev => exists widget, ev = App.St widget) evs /\
    App.pdf_rag_system (App.session w') = Some system /\
    App.pdf_rag_initialized (App.session w') = true.
Proof.
  exact (handle_pdf_query_with_chain env question l w system chain).
Qed.

Lemma handle_pdf_query_answers_witness :
  exists evs w',
    App.handle_pdf_query Demo.env "What is this document about?" [] Demo.indexed =
      (Return "An answer.",
       [] ++ App.St (App.st_spinner "🔍 Searching PDF documents...")
          :: App.Pdf (PdfRag.ChainInvoke
                        {| PdfRag.retriever_store :=
                             {| PdfRag.docstore := [Demo.doc "alpha"] |};
                           PdfRag.retriever_k := 5 |}
                        "What is this document about?") :: evs,
       w').
Proof.
  destruct (handle_pdf_query_answers Demo.env "What is this document about?" []
              Demo.indexed
              (store_of (PdfRag.process_pdf Demo.pdf "a.pdf" 1000 200 5 []
                           (PdfRag.create_pdf_rag_system "key")))
              {| PdfRag.retriever_store := {| PdfRag.docstore := [Demo.doc "alpha"] |};
                 PdfRag.retriever_k := 5 |}
              eq_refl eq_refl eq_refl)
    as (evs & w' & Hrun & _).
  exists evs, w'. exact Hrun.
Defined.

(** ** app.py: the web handler and the dispatch *)

Lemma medical_search_returns
    (env : WebSearch.Provider) (query : string) (domains : option (list string))
    (l : list WebSearch.event) (self : WebSearch.WebSearchSystem) :
  exists found input,
    WebSearch.medical_search env query domains l self =
      (Return found, l ++ [WebSearch.ToolInvoke (WebSearch.search_tool self) input], self).
Proof.
  cbv [WebSearch.medical_search WebSearch.search WebSearch.invoke try_except bind get
       emit extern reply ret].
  destruct (String.eqb (WebSearch.search_provider self) "tavily") eqn:Hp;
    cbn [andb]; [destruct (Py.truthy (WebSearch.tavily_api_key self))|];
    cbv beta iota; rewrite ?Hp.
  - destruct (WebSearch.tool_invoke env _ _) as [v | e]; [|eexists _, _; reflexivity].
    destruct (WebSearch.format_results v None); eexists _, _; reflexivity.
  - destruct (WebSearch.tool_invoke env _ _) as [v | e]; [|eexists _, _; reflexivity].
    destruct (WebSearch.format_results v _); eexists _, _; reflexivity.
  - destruct (WebSearch.tool_invoke env _ _) as [v | e]; eexists _, _; reflexivity.
Qed.

Lemma search_and_answer_returns
    (env : WebSearch.Provider) (question : string)
    (l : list WebSearch.event) (self : WebSearch.WebSearchSystem) :
  exists result evs,
    WebSearch.search_and_answer env question l self = (Return result, l ++ evs, self).
Proof.
  destruct (search_never_raises env question WebSearch.default_max_results l self)
    as [found Hfound].
  destruct (search_request env question WebSearch.default_max_results l self)
    as [Hlog Hstore].
  unfold WebSearch.search_and_answer.
  cbv [try_except bind get emit extern reply ret outcome_of log_of store_of fst snd] in *.
  destruct (WebSearch.search env question WebSearch.default_max_results l self)
    as [[o l'] s']. subst o l' s'.
  destruct (WebSearch.llm_invoke env question found);
    eexists _, _; rewrite <- ?app_assoc; reflexivity.
Qed.

Section WebHandlerFacts.
Context (env : App.Env) (GROQ_API_KEY : string) (TAVILY_API_KEY : option string).
Context (str_list : list (gmap string string) -> string).

Let handle_web_search := App.handle_web_search env GROQ_API_KEY TAVILY_API_KEY str_list.
Let initialize_web_search := App.initialize_web_search GROQ_API_KEY TAVILY_API_KEY.

(** The system a call works with: the one in the session, or the one
    made on first use. *)
Let system_of (w : App.world) : WebSearch.WebSearchSystem :=
  default initialize_web_search (App.web_search_system (App.session w)).

Lemma handle_web_search_medical_run
    (question : string) (l : list App.event) (w : App.world) :
  exists found input evs,
    WebSearch.medical_search (App.web env) question None [] (system_of w) =
      (Return found,
       [WebSearch.ToolInvoke (WebSearch.search_tool (system_of w)) input], system_of w) /\
    handle_web_search question true l w =
      (Return match App.groq env App.response_prompt
                      (App.response_input question (App.py_str str_list found)) with
              | Return answer => answer
              | Raise e => "Error processing web search: " +:+ str_exn e
              end,
       l ++ App.St (App.st_spinner "🌐 Searching the web with Groq...")
         :: App.Web (WebSearch.ToolInvoke (WebSearch.search_tool (system_of w)) input)
         :: App.ModelInvoke App.response_prompt
              (App.response_input question (App.py_str str_list found))
         :: evs,
       App.set_web_search_system (system_of w) w) /\
    Forall (fun ev => exists widget, ev = App.St widget) evs.
Proof.
  destruct (medical_search_returns (App.web env) question None [] (system_of w))
    as (found & input & Hrun).
  exists found, input. subst handle_web_search.
  cbv [App.handle_web_search method try_except bind get put emit extern reply ret].
  subst system_of. cbv beta in *.
  destruct (App.web_search_system (App.session w)) as [o|]; cbn [default from_option] in *;
    unfold id in *; fold initialize_web_search; rewrite Hrun; cbn [map app];
    destruct (App.groq env App.response_prompt _);
    eexists; (split; [reflexivity|]);
    (split; [rewrite <- ?app_assoc; cbn [app fst snd]; reflexivity|]);
    repeat constructor; eexists; reflexivity.
Qed.

End WebHandlerFacts.

Lemma handle_sql_query_runs
    (env : App.Env) (question : string) (l : list App.event) (w : App.world) :
  exists answer evs w',
    App.handle_sql_query env question l w = (Return answer, l ++ evs, w') /\
    App.same_pdf_entries w w'.
Proof.
  destruct (handle_sql_query_never_raises env question l w) as [answer Hanswer].
  destruct (App.db_schema_cache (App.session w)) as [schema|] eqn:Hc.
  - destruct (handle_sql_query_cached env question schema l w Hc)
      as (o & evs & w' & Hrun & Hw & _).
    rewrite Hrun in Hanswer. cbn in Hanswer. subst o.
    exists answer, evs, w'. split; [exact Hrun | split; rewrite Hw; reflexivity].
  - destruct (Database.get_database_schema (App.sqlite env) (App.database w))
      as [schema | e] eqn:Hs.
    + destruct (handle_sql_query_uncached env question schema l w Hc Hs)
        as (o & evs & w' & Hrun & Hw & _).
      rewrite Hrun in Hanswer. cbn in Hanswer. subst o.
      eexists answer, _, w'. split; [exact Hrun | split; rewrite Hw; reflexivity].
    + eexists _, [App.SchemaRead], w. split; [|split; reflexivity].
      run_handler. rewrite Hc, Hs. reflexivity.
Qed.

Lemma handle_pdf_query_runs
    (env : App.Env) (question : string) (l : list App.event) (w : App.world) :
  exists answer evs w',
    App.handle_pdf_query env question l w = (Return answer, l ++ evs, w') /\
    App.same_pdf_entries w w'.
Proof.
  cbv [App.handle_pdf_query PdfRag.query method try_except bind get emit extern reply
       ret raise].
  destruct (App.pdf_rag_initialized (App.session w)) eqn:Hi; cbn [negb].
  2: { eexists _, [], w. rewrite app_nil_r. split; [reflexivity|]. split; reflexivity. }
  destruct (App.pdf_rag_system (App.session w)) as [system|] eqn:Hs.
  2: { eexists _, _, w. split; [reflexivity|]. split; reflexivity. }
  assert (Hsame : App.same_pdf_entries w (App.set_pdf_rag_system system w)).
  { split; cbn; [reflexivity | exact (eq_sym Hs)]. }
  destruct (PdfRag.retrieval_chain system) as [chain|]; cbn [map app].
  2: { eexists _, _, _. split; [rewrite app_nil_r; reflexivity | exact Hsame]. }
  destruct (PdfRag.chain_invoke (App.pdf env) chain question) as [response | e].
  2: { eexists _, _, _. split; [rewrite <- ?app_assoc; reflexivity | exact Hsame]. }
  destruct (PdfRag.context response) as [docs|].
  2: { eexists _, _, _. split; [rewrite <- ?app_assoc; reflexivity | exact Hsame]. }
  match goal with
  | |- context [App.show_sources ?d ?l0 ?w0] =>
      destruct (show_sources_runs d l0 w0) as (evs & Hrun & _)
  end.
  rewrite Hrun. eexists _, _, _.
  split; [rewrite <- ?app_assoc; reflexivity | exact Hsame].
Qed.

Section DispatchFacts.
Context (env : App.Env) (GROQ_API_KEY : string) (TAVILY_API_KEY : option string).
Context (str_list : list (gmap string string) -> string).

Let handle_web_search := App.handle_web_search env GROQ_API_KEY TAVILY_API_KEY str_list.
Let initialize_web_search := App.initialize_web_search GROQ_API_KEY TAVILY_API_KEY.
Let system_of (w : App.world) : WebSearch.WebSearchSystem :=
  default initialize_web_search (App.web_search_system (App.session w)).

Lemma handle_web_search_general_run
    (question : string) (l : list App.event) (w : App.world) :
  exists result wevs,
    WebSearch.search_and_answer (App.web env) question [] (system_of w) =
      (Return result, wevs, system_of w) /\
    handle_web_search question false l w =
      (Return (WebSearch.ans_answer result),
       l ++ App.St (App.st_spinner "🌐 Searching the web with Groq...")
         :: map App.Web wevs
         ++ [App.St (App.st_expander "🔍 Search Results");
             App.St (App.st_text (App.py_str str_list
                                    (WebSearch.ans_search_results result)))],
       App.set_web_search_system (system_of w) w).
Proof.
  destruct (search_and_answer_returns (App.web env) question [] (system_of w))
    as (result & wevs & Hrun).
  exists result, wevs. cbn [app] in Hrun. split; [exact Hrun|].
  subst handle_web_search.
  cbv [App.handle_web_search method try_except bind get put emit extern reply ret].
  subst system_of. cbv beta in *.
  destruct (App.web_search_system (App.session w)) as [o|]; cbn [default from_option] in *;
    unfold id in *; fold initialize_web_search; rewrite Hrun;
    rewrite <- ?app_assoc; cbn [app fst snd]; reflexivity.
Qed.

Lemma handle_web_search_runs
    (question : string) (medical_only : bool) (l : list App.event) (w : App.world) :
  exists answer evs w',
    handle_web_search question medical_only l w = (Return answer, l ++ evs, w') /\
    App.same_pdf_entries w w'.
Proof.
  destruct medical_only.
  - destruct (handle_web_search_medical_run env GROQ_API_KEY TAVILY_API_KEY str_list
                question l w) as (found & input & evs & _ & Hrun & _).
    eexists _, _, _. split; [exact Hrun | split; reflexivity].
  - destruct (handle_web_search_general_run question l w) as (result & wevs & _ & Hrun).
    eexists _, _, _. split; [exact Hrun | split; reflexivity].
Qed.

Lemma respond_runs
    (query_mode prompt : string) (l : list App.event) (w : App.world) :
  exists answer evs w',
    App.respond env GROQ_API_KEY TAVILY_API_KEY str_list query_mode prompt l w =
      (Return answer, l ++ evs, w') /\
    App.same_pdf_entries w w'.
Proof.
  unfold App.respond.
  destruct (String.eqb query_mode "SQL Database"); [apply handle_sql_query_runs|].
  destruct (String.eqb query_mode "PDF Documents"); [apply handle_pdf_query_runs|].
  destruct (String.eqb query_mode "Web Search"); apply handle_web_search_runs.
Qed.

End DispatchFacts.

(** X22: Whatever the mode and the prompt, the dispatch under the chat
    input returns a string: no handler lets an exception of the model,
    the store, the search tool or the retrieval chain escape. *)
Theorem respond_returns_a_string
    (env : App.Env) (GROQ_API_KEY : string) (TAVILY_API_KEY : option string)
    (str_list : list (gmap string string) -> string)
    (query_mode prompt : string) (l : list App.event) (w : App.world) :
  exists answer,
    outcome_of (App.respond env GROQ_API_KEY TAVILY_API_KEY str_list query_mode prompt l w) =
      Return answer.
Proof.
  destruct (respond_runs env GROQ_API_KEY TAVILY_API_KEY str_list query_mode prompt l w)
    as (answer & evs & w' & Hrun & _).
  exists answer. rewrite Hrun. reflexivity.
Qed.

(** X23: In the medical mode, [handle_web_search] makes one request to the
    search tool through [medical_search], then asks the model on
    [response_prompt] (the prompt of the SQL handler) with the search
    text under the key "results"; it returns what the model writes, or
    "Error processing web search: ..." when the model call raises. *)
Theorem handle_web_search_medical_answer
    (env : App.Env) (GROQ_API_KEY : string) (TAVILY_API_KEY : option string)
    (str_list : list (gmap string string) -> string)
    (question : string) (l : list App.event) (w : App.world) :
  let system :=
    default (App.initialize_web_search GROQ_API_KEY TAVILY_API_KEY)
            (App.web_search_system (App.session w)) in
  exists found input evs,
    WebSearch.medical_search (App.web env) question None [] system =
      (Return found, [WebSearch.ToolInvoke (WebSearch.search_tool system) input], system) /\
    App.handle_web_search env GROQ_API_KEY TAVILY_API_KEY str_list question true l w =
      (Return match App.groq env App.response_prompt
                      (App.response_input question (App.py_str str_list found)) with
              | Return answer => answer
              | Raise e => "Error processing web search: " +:+ str_exn e
              end,
       l ++ App.St (App.st_spinner "🌐 Searching the web with Groq...")
         :: App.Web (WebSearch.ToolInvoke (WebSearch.search_tool system) input)
         :: App.ModelInvoke App.response_prompt
              (App.response_input question (App.py_str str_list found))
         :: evs,
       App.set_web_search_system system w) /\
    Forall (fun ev => exists widget, ev = App.St widget) evs.
Proof.
  exact (handle_web_search_medical_run env GROQ_API_KEY TAVILY_API_KEY str_list
           question l w).
Qed.

(** X24: In the general mode, [handle_web_search] returns the "answer" entry
    of what [search_and_answer] returns and shows its "search_results"
    entry; as [search_and_answer] reports a failing model inside that
    answer, this mode never answers "Error processing web search". *)
Theorem handle_web_search_general_answer
    (env : App.Env) (GROQ_API_KEY : string) (TAVILY_API_KEY : option string)
    (str_list : list (gmap string string) -> string)
    (question : string) (l : list App.event) (w : App.world) :
  let system :=
    default (App.initialize_web_search GROQ_API_KEY TAVILY_API_KEY)
            (App.web_search_system (App.session w)) in
  exists result wevs,
    WebSearch.search_and_answer (App.web env) question [] system =
      (Return result, wevs, system) /\
    App.handle_web_search env GROQ_API_KEY TAVILY_API_KEY str_list question false l w =
      (Return (WebSearch.ans_answer result),
       l ++ App.St (App.st_spinner "🌐 Searching the web with Groq...")
         :: map App.Web wevs
         ++ [App.St (App.st_expander "🔍 Search Results");
             App.St (App.st_text (App.py_str str_list
                                    (WebSearch.ans_search_results result)))],
       App.set_web_search_system system w).
Proof.
  exact (handle_web_search_general_run env GROQ_API_KEY TAVILY_API_KEY str_list
           question l w).
Qed.

(** X25: On first use in a session, [handle_web_search] makes the search
    system and keeps it in the session.  Its provider and its tool
    agree: with a Tavily key the request is a dictionary sent to the
    Tavily tool, without one it is the bare question sent to the
    DuckDuckGo tool. *)
Theorem handle_web_search_first_use
    (env : App.Env) (GROQ_API_KEY : string) (TAVILY_API_KEY : option string)
    (str_list : list (gmap string string) -> string)
    (question : string) (l : list App.event) (w : App.world) :
  App.web_search_system (App.session w) = None ->
  let system := App.initialize_web_search GROQ_API_KEY TAVILY_API_KEY in
  let keyed := Py.truthy TAVILY_API_KEY in
  WebSearch.search_provider system = (if keyed then "tavily" else "duckduckgo") /\
  WebSearch.search_tool system =
    (if keyed then WebSearch.TavilySearchResults (default "" TAVILY_API_KEY)
     else WebSearch.DuckDuckGoSearchRun) /\
  exists answer evs,
    App.handle_web_search env GROQ_API_KEY TAVILY_API_KEY str_list question false l w =
      (Return answer,
       l ++ App.St (App.st_spinner "🌐 Searching the web with Groq...")
         :: App.Web (WebSearch.ToolInvoke (WebSearch.search_tool system)
                       (if keyed then WebSearch.QueryDict question None
                        else WebSearch.Query question))
         :: evs,
       App.set_web_search_system system w).
Proof.
  intros Hnone system keyed. subst system keyed.
  unfold App.initialize_web_search, WebSearch.create_web_search_system, WebSearch.init.
  cbn [WebSearch.search_provider WebSearch.search_tool].
  destruct (Py.truthy TAVILY_API_KEY) eqn:Hk;
    cbn [String.eqb Ascii.eqb Bool.eqb andb];
    (split; [reflexivity|]); (split; [reflexivity|]);
    cbv [App.handle_web_search App.initialize_web_search
         WebSearch.create_web_search_system WebSearch.init WebSearch.search_and_answer
         WebSearch.search WebSearch.invoke method try_except bind get put emit extern
         reply ret];
    rewrite Hnone, Hk; cbn [String.eqb Ascii.eqb Bool.eqb andb WebSearch.search_provider
                            WebSearch.search_tool];
    destruct (WebSearch.tool_invoke (App.web env) _ _) as [v | e];
    try destruct (WebSearch.format_results v _);
    match goal with
    | |- context [WebSearch.llm_invoke ?p ?q ?v] => destruct (WebSearch.llm_invoke p q v)
    end;
    eexists _, _; cbn [map app fst snd]; rewrite <- ?app_assoc; cbn [app]; reflexivity.
Qed.

(** ** app.py: the script *)

(** The two ways a run of [process_pdf] can end. *)
Lemma process_pdf_cases
    (env : PdfRag.Provider) (pdf_path : string) (chunk_size chunk_overlap k : Z)
    (l : list PdfRag.event) (self : PdfRag.PDFRAGSystem) :
  (exists documents splits,
     PdfRag.pdf_loader env pdf_path = Return documents /\
     PdfRag.text_splitter env chunk_size chunk_overlap documents = Return splits /\
     PdfRag.embed_documents env splits = Return tt /\
     splits <> [] /\
     PdfRag.process_pdf env pdf_path chunk_size chunk_overlap k l self =
       (Return tt,
        l ++ [PdfRag.PdfLoad pdf_path; PdfRag.EmbedDocuments splits],
        {| PdfRag.api_key := PdfRag.api_key self;
           PdfRag.model := PdfRag.model self;
           PdfRag.vectorstore := Some {| PdfRag.docstore := splits |};
           PdfRag.retrieval_chain :=
             Some {| PdfRag.retriever_store := {| PdfRag.docstore := splits |};
                     PdfRag.retriever_k := k |} |})) \/
  (exists e evs,
     PdfRag.process_pdf env pdf_path chunk_size chunk_overlap k l self =
       (Raise e, l ++ evs, self)).
Proof.
  destruct (PdfRag.pdf_loader env pdf_path) as [documents | e1] eqn:Hl.
  2: { right. exists e1, [PdfRag.PdfLoad pdf_path].
       cbv [PdfRag.process_pdf PdfRag.load_pdf bind emit extern reply].
       rewrite Hl. reflexivity. }
  destruct (PdfRag.text_splitter env chunk_size chunk_overlap documents)
    as [splits | e2] eqn:Hs.
  2: { right. exists e2, [PdfRag.PdfLoad pdf_path].
       cbv [PdfRag.process_pdf PdfRag.load_pdf PdfRag.split_documents
            bind emit extern reply].
       rewrite Hl, Hs. reflexivity. }
  destruct (PdfRag.embed_documents env splits) as [[] | e3] eqn:He.
  - destruct splits as [|split splits].
    + right. eexists _, _.
      apply (process_pdf_no_passage env pdf_path chunk_size chunk_overlap k l self
               documents Hl Hs He).
    + left. exists documents, (split :: splits).
      split; [reflexivity|]. split; [exact Hs|]. split; [exact He|].
      split; [discriminate|].
      apply (process_pdf_succeeds env pdf_path chunk_size chunk_overlap k l self
               documents (split :: splits) Hl Hs He).
      discriminate.
  - right. exists e3, [PdfRag.PdfLoad pdf_path; PdfRag.EmbedDocuments splits].
    cbv [PdfRag.process_pdf PdfRag.load_pdf PdfRag.split_documents
         PdfRag.create_vectorstore PdfRag.from_documents bind emit extern reply].
    rewrite Hl, Hs, He, <- app_assoc. reflexivity.
Qed.

Section ScriptFacts.
Context {R : Type} (rnd : Database.Random R) (env : App.Env).
Context (GROQ_API_KEY MISTRAL_API_KEY : string) (TAVILY_API_KEY : option string).
Context (str_list : list (gmap string string) -> string).
Context (write_temp : string -> outcome string) (unlink : string -> outcome unit).

Let respond := App.respond env GROQ_API_KEY TAVILY_API_KEY str_list.
Let chat_input := @Page.chat_input R env GROQ_API_KEY TAVILY_API_KEY str_list.
Let process_pdf_button :=
  @Page.process_pdf_button R env MISTRAL_API_KEY write_temp unlink.
Let initialize_database := @Page.initialize_database R rnd env.
Let run :=
  @Page.run R rnd env GROQ_API_KEY MISTRAL_API_KEY TAVILY_API_KEY str_list write_temp unlink.
Let interact :=
  @Page.interact R rnd env GROQ_API_KEY MISTRAL_API_KEY TAVILY_API_KEY str_list
    write_temp unlink.

Lemma chat_input_runs
    (query_mode prompt : string) (l : list Page.event) (s : Page.page R) :
  prompt <> "" ->
  exists answer cevs w',
    respond query_mode prompt [] (Page.world s) = (Return answer, cevs, w') /\
    App.same_pdf_entries (Page.world s) w' /\
    chat_input query_mode prompt l s =
      (Return tt,
       l ++ [Page.st_chat_message "user"; Page.Core (App.St (App.st_markdown prompt));
             Page.st_chat_message "assistant"]
         ++ map Page.Core cevs
         ++ [Page.Core (App.St (App.st_markdown answer))],
       Page.set_chat_history
         (Page.chat_history s ++
          [{| Page.role := "user"; Page.content := prompt |};
           {| Page.role := "assistant"; Page.content := answer |}])
         (Page.set_world w' s)).
Proof.
  intros Hprompt.
  destruct (respond_runs env GROQ_API_KEY TAVILY_API_KEY str_list query_mode prompt []
              (Page.world s)) as (answer & cevs & w' & Hrun & Hsame).
  exists answer, cevs, w'. cbn [app] in Hrun. split; [exact Hrun|]. split; [exact Hsame|].
  subst chat_input respond.
  cbv [Page.chat_input Page.core method bind get put emit ret].
  replace (Py.truthy (Some prompt)) with true
    by (destruct prompt; [contradiction | reflexivity]).
  cbn [Page.world Page.set_chat_history]. rewrite Hrun.
  cbv [Page.set_chat_history Page.set_world].
  cbn [Page.world Page.rng Page.db_initialized Page.chat_history Page.show_schema
       Page.show_samples Page.sample_patients_cache].
  rewrite <- !app_assoc. reflexivity.
Qed.

Lemma initialize_database_runs (l : list Page.event) (s : Page.page R) :
  let created :=
    Database.create_patient_database rnd (App.sqlite env)
      (App.database (Page.world s)) (Page.rng s) in
  let d := snd (fst created) in
  exists evs s',
    initialize_database l s =
      (match Database.get_database_schema (App.sqlite env) d with
       | Return _ => Return tt
       | Raise e => Raise e
       end,
       l ++ Page.Core (App.St (App.st_spinner "Creating database..."))
         :: Page.st_success (fst (fst created)) :: Page.Core App.SchemaRead :: evs,
       s') /\
    App.database (Page.world s') = d /\
    Page.rng s' = snd created /\
    Page.db_initialized s' = true /\
    Page.chat_history s' = Page.chat_history s /\
    App.same_pdf_entries (Page.world s) (Page.world s') /\
    App.db_schema_cache (App.session (Page.world s')) =
      match Database.get_database_schema (App.sqlite env) d with
      | Return schema => Some schema
      | Raise _ => App.db_schema_cache (App.session (Page.world s))
      end.
Proof.
  intros created d. subst d created initialize_database.
  cbv [Page.initialize_database bind get put emit extern reply ret].
  destruct (Database.create_patient_database rnd (App.sqlite env)
              (App.database (Page.world s)) (Page.rng s)) as [[result d] r].
  cbn [fst snd Page.world Page.rng Page.db_initialized Page.chat_history
       Page.show_schema Page.show_samples Page.sample_patients_cache].
  destruct (Database.get_database_schema (App.sqlite env) d) as [schema | e];
    eexists [], _;
    (split; [rewrite <- ?app_assoc; cbn [app]; reflexivity|]);
    cbn; repeat split.
Qed.

End ScriptFacts.

Section ButtonFacts.
Context {R : Type} (rnd : Database.Random R) (env : App.Env).
Context (GROQ_API_KEY MISTRAL_API_KEY : string) (TAVILY_API_KEY : option string).
Context (str_list : list (gmap string string) -> string).
Context (write_temp : string -> outcome string) (unlink : string -> outcome unit).

Let process_pdf_button :=
  @Page.process_pdf_button R env MISTRAL_API_KEY write_temp unlink.
Let run :=
  @Page.run R rnd env GROQ_API_KEY MISTRAL_API_KEY TAVILY_API_KEY str_list write_temp unlink.
Let interact :=
  @Page.interact R rnd env GROQ_API_KEY MISTRAL_API_KEY TAVILY_API_KEY str_list
    write_temp unlink.

(** The system the button works on: the one in the session, or a new
    one. *)
Let system_of (s : Page.page R) : PdfRag.PDFRAGSystem :=
  default (PdfRag.create_pdf_rag_system MISTRAL_API_KEY)
          (App.pdf_rag_system (App.session (Page.world s))).

Let process (path : string) (s : Page.page R) :=
  PdfRag.process_pdf (App.pdf env) path PdfRag.default_chunk_size
    PdfRag.default_chunk_overlap PdfRag.default_k [] (system_of s).

(** The three ways a press of the button can end. *)
Lemma process_pdf_button_runs
    (uploaded_file : string) (l : list Page.event) (s : Page.page R) :
  exists evs final s',
    process_pdf_button uploaded_file l s = (Return tt, l ++ evs ++ [final], s') /\
    Page.chat_history s' = Page.chat_history s /\
    ((exists e,
        write_temp uploaded_file = Raise e /\
        final = Page.st_error ("❌ Error processing PDF: " +:+ str_exn e) /\
        s' = s) \/
     (exists path e,
        write_temp uploaded_file = Return path /\
        outcome_of (process path s) = Raise e /\
        final = Page.st_error ("❌ Error processing PDF: " +:+ str_exn e) /\
        App.pdf_rag_system (App.session (Page.world s')) = Some (system_of s) /\
        App.pdf_rag_initialized (App.session (Page.world s')) =
          App.pdf_rag_initialized (App.session (Page.world s))) \/
     (exists path documents splits,
        write_temp uploaded_file = Return path /\
        PdfRag.pdf_loader (App.pdf env) path = Return documents /\
        PdfRag.text_splitter (App.pdf env) PdfRag.default_chunk_size
          PdfRag.default_chunk_overlap documents = Return splits /\
        PdfRag.embed_documents (App.pdf env) splits = Return tt /\
        splits <> [] /\
        final = match unlink path with
                | Return _ => Page.st_success "✅ PDF processed successfully!"
                | Raise e => Page.st_error ("❌ Error processing PDF: " +:+ str_exn e)
                end /\
        App.pdf_rag_initialized (App.session (Page.world s')) = true /\
        App.pdf_rag_system (App.session (Page.world s')) =
          Some {| PdfRag.api_key := PdfRag.api_key (system_of s);
                  PdfRag.model := PdfRag.model (system_of s);
                  PdfRag.vectorstore := Some {| PdfRag.docstore := splits |};
                  PdfRag.retrieval_chain :=
                    Some {| PdfRag.retriever_store := {| PdfRag.docstore := splits |};
                            PdfRag.retriever_k := PdfRag.default_k |} |})).
Proof.
  subst process_pdf_button process system_of. cbv beta.
  cbv [Page.process_pdf_button method try_except bind get put emit extern reply ret].
  destruct (write_temp uploaded_file) as [path | e] eqn:Hw.
  2: { eexists [_; _], _, s.
       split; [rewrite <- ?app_assoc; cbn [app]; reflexivity|]. split; [reflexivity|].
       left. exists e. repeat split. }
  destruct (App.pdf_rag_system (App.session (Page.world s))) as [o|] eqn:Hsys;
    cbn [default from_option]; unfold id;
    match goal with
    | |- context [PdfRag.process_pdf ?a ?b ?c ?d ?k [] ?sys] =>
        destruct (process_pdf_cases a b c d k [] sys)
          as [(documents & splits & Hl & Hs & He & Hsome & Hrun) | (e & evs0 & Hrun)]
    end;
    rewrite Hrun; cbn [app map].
  - destruct (unlink path) as [[] | e] eqn:Hu;
      (eexists [_; _; _; _; _], _, _;
       split; [rewrite <- ?app_assoc; cbn [app]; reflexivity|];
       split; [reflexivity|];
       right; right; exists path, documents, splits;
       repeat (split; [first [assumption | rewrite ?Hu; reflexivity]|]);
       split; reflexivity).
  - eexists (_ :: _ :: map _ _), _, _.
    split; [rewrite <- ?app_assoc; cbn [app]; reflexivity|].
    split; [reflexivity|].
    right. left. exists path, e. split; [reflexivity|].
    split; [rewrite Hrun; reflexivity|]. split; [reflexivity|].
    cbn. rewrite ?Hsys. split; reflexivity.
  - destruct (unlink path) as [[] | e] eqn:Hu;
      (eexists [_; _; _; _; _], _, _;
       split; [rewrite <- ?app_assoc; cbn [app]; reflexivity|];
       split; [reflexivity|];
       right; right; exists path, documents, splits;
       repeat (split; [first [assumption | rewrite ?Hu; reflexivity]|]);
       split; reflexivity).
  - eexists (_ :: _ :: map _ _), _, _.
    split; [rewrite <- ?app_assoc; cbn [app]; reflexivity|].
    split; [reflexivity|].
    right. left. exists path, e. split; [reflexivity|].
    split; [rewrite Hrun; reflexivity|]. split; [reflexivity|].
    cbn. rewrite ?Hsys. split; reflexivity.
Qed.

End ButtonFacts.

Section ScriptProperties.
Context {R : Type} (rnd : Database.Random R) (env : App.Env).
Context (GROQ_API_KEY MISTRAL_API_KEY : string) (TAVILY_API_KEY : option string).
Context (str_list : list (gmap string string) -> string).
Context (write_temp : string -> outcome string) (unlink : string -> outcome unit).

Let respond := App.respond env GROQ_API_KEY TAVILY_API_KEY str_list.
Let chat_input := @Page.chat_input R env GROQ_API_KEY TAVILY_API_KEY str_list.
Let process_pdf_button :=
  @Page.process_pdf_button R env MISTRAL_API_KEY write_temp unlink.
Let initialize_database := @Page.initialize_database R rnd env.
Let run :=
  @Page.run R rnd env GROQ_API_KEY MISTRAL_API_KEY TAVILY_API_KEY str_list write_temp unlink.
Let interact :=
  @Page.interact R rnd env GROQ_API_KEY MISTRAL_API_KEY TAVILY_API_KEY str_list
    write_temp unlink.

(** X26: Every non-empty prompt typed into the chat input adds exactly two entries to
    the chat history, the prompt as "user" and the handler's answer as
    "assistant", in this order; the block never raises. *)
Theorem chat_input_appends_exchange
    (query_mode prompt : string) (l : list Page.event) (s : Page.page R) :
  prompt <> "" ->
  exists answer,
    outcome_of (respond query_mode prompt [] (Page.world s)) = Return answer /\
    outcome_of (chat_input query_mode prompt l s) = Return tt /\
    Page.chat_history (store_of (chat_input query_mode prompt l s)) =
      Page.chat_history s ++
      [{| Page.role := "user"; Page.content := prompt |};
       {| Page.role := "assistant"; Page.content := answer |}].
Proof.
  intros Hprompt.
  destruct (chat_input_runs env GROQ_API_KEY TAVILY_API_KEY str_list query_mode prompt l s
              Hprompt) as (answer & cevs & w' & Hres & _ & Hrun).
  exists answer. subst respond chat_input. rewrite Hres, Hrun. repeat split.
Qed.

(** X27: A press of "Process PDF" whose upload can be written, loaded, split
    into at least one passage and embedded marks the session as
    initialised and leaves in it a system whose store and chain are
    built over the passages of this upload, with the default k = 5; a
    PDF question asked next is
    answered by that chain.  The last thing shown is the success
    message, or, when deleting the temporary file raises, the error
    message, although the document has been indexed. *)
Theorem process_pdf_button_indexes_upload
    (uploaded_file path question : string) (documents splits : list PdfRag.Document)
    (l : list Page.event) (s : Page.page R) :
  write_temp uploaded_file = Return path ->
  PdfRag.pdf_loader (App.pdf env) path = Return documents ->
  PdfRag.text_splitter (App.pdf env) PdfRag.default_chunk_size
    PdfRag.default_chunk_overlap documents = Return splits ->
  PdfRag.embed_documents (App.pdf env) splits = Return tt ->
  splits <> [] ->
  let chain := {| PdfRag.retriever_store := {| PdfRag.docstore := splits |};
                  PdfRag.retriever_k := 5 |} in
  exists evs s',
    process_pdf_button uploaded_file l s =
      (Return tt,
       l ++ evs ++ [match unlink path with
                    | Return _ => Page.st_success "✅ PDF processed successfully!"
                    | Raise e => Page.st_error ("❌ Error processing PDF: " +:+ str_exn e)
                    end],
       s') /\
    App.pdf_rag_initialized (App.session (Page.world s')) = true /\
    (exists system,
       App.pdf_rag_system (App.session (Page.world s')) = Some system /\
       PdfRag.vectorstore system = Some {| PdfRag.docstore := splits |} /\
       PdfRag.retrieval_chain system = Some chain) /\
    forall l',
      outcome_of (App.handle_pdf_query env question l' (Page.world s')) =
        Return match PdfRag.chain_invoke (App.pdf env) chain question with
               | Return response => default "No answer found." (PdfRag.answer response)
               | Raise e => "Error processing PDF query: " +:+ str_exn e
               end.
Proof.
  intros Hw Hl Hs He Hsome chain.
  destruct (process_pdf_button_runs env MISTRAL_API_KEY write_temp unlink uploaded_file l s)
    as (evs & final & s' & Hrun & _ & Hcase).
  destruct Hcase as [(e & Hw' & _) | [(path' & e & Hw' & Hfail & _) | Hok]].
  - congruence.
  - assert (path' = path) by congruence. subst path'.
    rewrite (process_pdf_succeeds (App.pdf env) path _ _ _ _ _ documents splits Hl Hs He
               Hsome) in Hfail.
    discriminate Hfail.
  - destruct Hok
      as (path' & documents' & splits' & Hw' & Hl' & Hs' & He' & _ & Hfinal & Hi & Hsys).
    assert (path' = path) by congruence. subst path'.
    assert (documents' = documents) by congruence. subst documents'.
    assert (splits' = splits) by congruence. subst splits'.
    exists evs, s'. subst final. split; [exact Hrun|]. split; [exact Hi|].
    split; [eexists; split; [exact Hsys | split; reflexivity]|].
    intros l'.
    destruct (handle_pdf_query_with_chain env question l' (Page.world s') _ chain Hi Hsys
                eq_refl) as (evs' & w' & Hq & _).
    rewrite Hq. reflexivity.
Qed.

(** X28: A press of "Process PDF" whose processing raises shows the error
    and does not raise itself; the session's flag is what it was and
    the system in the session is the one the press started with (a new
    one without chain if there was none), so a document processed
    before stays the one that is queried. *)
Theorem process_pdf_button_failure
    (uploaded_file path : string) (e : exn) (l : list Page.event) (s : Page.page R) :
  let system :=
    default (PdfRag.create_pdf_rag_system MISTRAL_API_KEY)
            (App.pdf_rag_system (App.session (Page.world s))) in
  write_temp uploaded_file = Return path ->
  outcome_of (PdfRag.process_pdf (App.pdf env) path PdfRag.default_chunk_size
                PdfRag.default_chunk_overlap PdfRag.default_k [] system) = Raise e ->
  exists evs s',
    process_pdf_button uploaded_file l s =
      (Return tt,
       l ++ evs ++ [Page.st_error ("❌ Error processing PDF: " +:+ str_exn e)], s') /\
    App.pdf_rag_initialized (App.session (Page.world s')) =
      App.pdf_rag_initialized (App.session (Page.world s)) /\
    App.pdf_rag_system (App.session (Page.world s')) = Some system /\
    Page.chat_history s' = Page.chat_history s.
Proof.
  intros system Hw Hfail.
  destruct (process_pdf_button_runs env MISTRAL_API_KEY write_temp unlink uploaded_file l s)
    as (evs & final & s' & Hrun & Hchat & Hcase).
  destruct Hcase as [(e' & Hw' & _) | [(path' & e' & Hw' & Hfail' & Hfinal & Hsys & Hi) | Hok]].
  - congruence.
  - assert (path' = path) by congruence. subst path'.
    fold system in Hfail'. rewrite Hfail in Hfail'. injection Hfail' as <-.
    exists evs, s'. subst final. repeat split; assumption.
  - destruct Hok as (path' & documents & splits & Hw' & Hl & Hs & He & Hsome & _).
    assert (path' = path) by congruence. subst path'.
    rewrite (process_pdf_succeeds (App.pdf env) path _ _ _ _ _ documents splits Hl Hs He
               Hsome) in Hfail.
    discriminate Hfail.
Qed.

(** The press of the button keeps what the PDF handler relies on. *)
Lemma run_keeps_pdf_ready (a : Page.action) (l : list Page.event) (s : Page.page R) :
  Page.pdf_ready (Page.world s) ->
  Page.pdf_ready (Page.world (store_of (run a l s))).
Proof.
  intros Hready.
  assert (Hsame : forall w', App.same_pdf_entries (Page.world s) w' -> Page.pdf_ready w').
  { intros w' [Hi Hs] Hflag. rewrite Hi in Hflag.
    destruct (Hready Hflag) as (system & chain & Hsys & Hchain).
    exists system, chain. rewrite Hs. split; assumption. }
  destruct a as [| uploaded_file | | query_mode prompt]; subst run; cbn [Page.run].
  - destruct (initialize_database_runs rnd env l s) as (evs & s' & Hrun & _ & _ & _ & _ & Hw & _).
    rewrite Hrun. apply Hsame, Hw.
  - destruct (process_pdf_button_runs env MISTRAL_API_KEY write_temp unlink uploaded_file l s)
      as (evs & final & s' & Hrun & _ & Hcase).
    rewrite Hrun. cbn [store_of snd].
    destruct Hcase as [(e & _ & _ & ->) | [(path & e & _ & _ & _ & Hsys & Hi) | Hok]].
    + exact Hready.
    + intros Hflag. rewrite Hi in Hflag.
      destruct (Hready Hflag) as (system & chain & Hsys0 & Hchain).
      exists system, chain. rewrite Hsys, Hsys0. split; [reflexivity | exact Hchain].
    + destruct Hok as (path & documents & splits & _ & _ & _ & _ & _ & _ & _ & Hsys).
      intros _. eexists _, _. split; [exact Hsys | reflexivity].
  - exact Hready.
  - destruct prompt as [|c prompt]; [exact Hready|].
    destruct (chat_input_runs env GROQ_API_KEY TAVILY_API_KEY str_list query_mode
                (String c prompt) l s ltac:(discriminate))
      as (answer & cevs & w' & _ & Hw & Hrun).
    rewrite Hrun. apply Hsame, Hw.
Qed.

Lemma interact_keeps_pdf_ready
    (actions : list Page.action) (l : list Page.event) (s : Page.page R) :
  Page.pdf_ready (Page.world s) ->
  Page.pdf_ready (Page.world (snd (interact actions l s))).
Proof.
  revert l s. induction actions as [|a actions IH]; intros l s Hready; [exact Hready|].
  subst interact. cbn [Page.interact].
  pose proof (run_keeps_pdf_ready a l s Hready) as Hnext. subst run.
  destruct (Page.run rnd env GROQ_API_KEY MISTRAL_API_KEY TAVILY_API_KEY str_list
              write_temp unlink a l s) as [[o l'] s'].
  apply IH. exact Hnext.
Qed.

(** X29: After any sequence of interactions with the page, started from the
    session the script sets up, a PDF question is answered either by
    the request to upload a document first or from the retrieval
    chain (its answer, "No answer found.", or the text of the chain's
    exception): the handler never finds the flag set without a system
    that has a chain to ask. *)
Theorem pdf_question_in_any_session
    (actions : list Page.action) (question : string)
    (l : list Page.event) (l' : list App.event) (d : Database.db) (r : R) :
  let s := snd (interact actions l (Page.start d r)) in
  outcome_of (App.handle_pdf_query env question l' (Page.world s)) =
    Return "⚠️ Please upload and process a PDF document first." \/
  exists chain,
    outcome_of (App.handle_pdf_query env question l' (Page.world s)) =
      Return match PdfRag.chain_invoke (App.pdf env) chain question with
             | Return response => default "No answer found." (PdfRag.answer response)
             | Raise e => "Error processing PDF query: " +:+ str_exn e
             end.
Proof.
  intros s.
  assert (Hready : Page.pdf_ready (Page.world s)).
  { apply interact_keeps_pdf_ready. intros Hflag. discriminate Hflag. }
  destruct (App.pdf_rag_initialized (App.session (Page.world s))) eqn:Hi.
  - right. destruct (Hready Hi) as (system & chain & Hsys & Hchain).
    exists chain.
    destruct (handle_pdf_query_with_chain env question l' (Page.world s) system chain
                Hi Hsys Hchain) as (evs & w' & Hq & _).
    rewrite Hq. reflexivity.
  - left. cbv [App.handle_pdf_query try_except bind get ret outcome_of fst].
    rewrite Hi. reflexivity.
Qed.

(** X30: "Initialize/Reset Database" does not reset: a second press leaves
    the database and the generator exactly as the first press left
    them and shows "Database already exists with data".  When the
    schema can be read after a press, the press ends normally with the
    session marked as initialised and that schema in the cache. *)
Theorem initialize_database_does_not_reset (l : list Page.event) (s : Page.page R) :
  let r1 := initialize_database l s in
  let r2 := initialize_database (log_of r1) (store_of r1) in
  App.database (Page.world (store_of r2)) = App.database (Page.world (store_of r1)) /\
  Page.rng (store_of r2) = Page.rng (store_of r1) /\
  (exists evs,
     log_of r2 =
       log_of r1 ++ Page.Core (App.St (App.st_spinner "Creating database..."))
                 :: Page.st_success "Database already exists with data" :: evs) /\
  forall schema,
    Database.get_database_schema (App.sqlite env)
      (App.database (Page.world (store_of r1))) = Return schema ->
    outcome_of r1 = Return tt /\
    Page.db_initialized (store_of r1) = true /\
    App.db_schema_cache (App.session (Page.world (store_of r1))) = Some schema.
Proof.
  intros r1 r2.
  destruct (initialize_database_runs rnd env l s)
    as (evs1 & s1 & Hrun1 & Hd1 & Hr1 & Hi1 & _ & _ & Hc1).
  fold initialize_database in Hrun1. fold r1 in Hrun1.
  assert (Hs1 : store_of r1 = s1) by (rewrite Hrun1; reflexivity).
  destruct (initialize_database_runs rnd env (log_of r1) s1)
    as (evs2 & s2 & Hrun2 & Hd2 & Hr2 & _).
  fold initialize_database in Hrun2.
  assert (Hagain :
    Database.create_patient_database rnd (App.sqlite env)
      (App.database (Page.world s1)) (Page.rng s1) =
      ("Database already exists with data", App.database (Page.world s1), Page.rng s1)).
  { rewrite Hd1, Hr1.
    destruct (create_patient_database_result rnd (App.sqlite env)
                (App.database (Page.world s)) (Page.rng s)) as (_ & Hpos & Hp & Hm & Ha).
    rewrite (create_patient_database_guard rnd (App.sqlite env) _ _ Hpos).
    rewrite (tables_created_existing _ Hp Hm Ha). reflexivity. }
  rewrite Hagain in Hrun2, Hd2, Hr2. cbn [fst snd] in Hrun2, Hd2, Hr2.
  subst r2. rewrite Hs1, Hrun2. cbn [store_of log_of fst snd].
  split; [exact Hd2|]. split; [exact Hr2|]. split; [eexists; reflexivity|].
  intros schema Hschema. rewrite Hd1 in Hschema.
  rewrite Hschema in Hrun1, Hc1. rewrite Hrun1. repeat split; assumption.
Qed.

End ScriptProperties.

Lemma handle_web_search_first_use_witness :
  exists answer evs,
    App.handle_web_search Demo.env "gsk" None Demo.str_list "diabetes diet" false []
      Demo.start =
      (Return answer,
       [] ++ App.St (App.st_spinner "🌐 Searching the web with Groq...")
          :: App.Web (WebSearch.ToolInvoke WebSearch.DuckDuckGoSearchRun
                        (WebSearch.Query "diabetes diet"))
          :: evs,
       App.set_web_search_system (App.initialize_web_search "gsk" None) Demo.start).
Proof.
  destruct (handle_web_search_first_use Demo.env "gsk" None Demo.str_list "diabetes diet"
              [] Demo.start eq_refl) as (_ & _ & Hrun).
  exact Hrun.
Defined.

Lemma process_pdf_button_indexes_upload_witness :
  exists evs s',
    Page.process_pdf_button Demo.env "key" Demo.write_temp Demo.unlink "alpha bytes" []
      (Page.start Demo.seeded 0) =
      (Return tt, [] ++ evs ++ [Page.st_success "✅ PDF processed successfully!"], s') /\
    App.pdf_rag_initialized (App.session (Page.world s')) = true /\
    forall l',
      outcome_of (App.handle_pdf_query Demo.env "What is this document about?" l'
                    (Page.world s')) = Return "An answer.".
Proof.
  destruct (process_pdf_button_indexes_upload Demo.env "key" Demo.write_temp Demo.unlink
              "alpha bytes" "a.pdf" "What is this document about?"
              [Demo.doc "alpha"] [Demo.doc "alpha"] [] (Page.start Demo.seeded 0)
              eq_refl eq_refl eq_refl eq_refl ltac:(discriminate))
    as (evs & s' & Hrun & Hi & _ & Hask).
  exists evs, s'. split; [exact Hrun|]. split; [exact Hi|]. exact Hask.
Defined.

Lemma process_pdf_button_failure_witness :
  exists evs s',
    Page.process_pdf_button Demo.env "key" Demo.write_temp Demo.unlink "not a pdf" []
      (Page.start Demo.seeded 0) =
      (Return tt,
       [] ++ evs ++
       [Page.st_error "❌ Error processing PDF: File path is not a valid file or url"],
       s') /\
    App.pdf_rag_initialized (App.session (Page.world s')) = false /\
    App.pdf_rag_system (App.session (Page.world s')) =
      Some (PdfRag.create_pdf_rag_system "key").
Proof.
  destruct (process_pdf_button_failure Demo.env "key" Demo.write_temp Demo.unlink
              "not a pdf" "missing.pdf"
              (OtherException "ValueError" "File path is not a valid file or url")
              [] (Page.start Demo.seeded 0) eq_refl eq_refl)
    as (evs & s' & Hrun & Hi & Hsys & _).
  exists evs, s'. split; [exact Hrun|]. split; [exact Hi | exact Hsys].
Defined.

Lemma chat_input_appends_exchange_witness :
  exists answer,
    outcome_of (App.respond Demo.env "gsk" None Demo.str_list "SQL Database"
                  "Who lives in Paris?" [] Demo.start) = Return answer /\
    Page.chat_history
      (store_of (Page.chat_input Demo.env "gsk" None Demo.str_list "SQL Database"
                   "Who lives in Paris?" [] (Page.start Demo.seeded 0))) =
      [] ++ [{| Page.role := "user"; Page.content := "Who lives in Paris?" |};
             {| Page.role := "assistant"; Page.content := answer |}].
Proof.
  destruct (@chat_input_appends_exchange nat Demo.env "gsk" None Demo.str_list
              "SQL Database" "Who lives in Paris?" [] (Page.start Demo.seeded 0)
              ltac:(discriminate))
    as (answer & Hres & _ & Hhist).
  exists answer. split; [exact Hres | exact Hhist].
Defined.

Lemma initialize_database_does_not_reset_witness :
  let r1 := Page.initialize_database Demo.lowest Demo.env [] (Page.start Demo.fresh 0) in
  let r2 := Page.initialize_database Demo.lowest Demo.env (log_of r1) (store_of r1) in
  App.database (Page.world (store_of r2)) = App.database (Page.world (store_of r1)) /\
  outcome_of r1 = Return tt /\
  Page.db_initialized (store_of r1) = true.
Proof.
  intros r1 r2.
  destruct (initialize_database_does_not_reset Demo.lowest Demo.env []
              (Page.start Demo.fresh 0)) as (Hd & _ & _ & Hschema).
  destruct (Hschema _ eq_refl) as (Ho & Hi & _).
  split; [exact Hd|]. split; [exact Ho | exact Hi].
Defined.
